(** * World-state synchronizer of the rollup service (falafel/src/world_state.ts)

    A shallow embedding of the [WorldState] class: the reconciliation of the
    four Merkle trees with the rollups observed on chain, the bookkeeping of
    defi claims, and the confirmation or reconstruction of rollups in the
    relational store.

    Conventions.
    - A [Buffer] is a list of bytes; [Buffer.equals] is equality of lists.
    - JavaScript numbers that hold indices and ids, and BigInts, are [Z]
      (numbers are assumed to stay within the safe-integer range).
    - A [Date] is its millisecond time stamp.
    - [console.log] output and the timer of [metrics.processBlockTimer] are
      not modelled.
    - Collaborators injected through the constructor (tree store, relational
      store, chain source, note algorithms, init helpers) are interfaces:
      type classes whose operations the embedded code calls. Every call that
      writes to a collaborator is also appended to a log kept in the state,
      so that "is called" and "is written" are statements about these logs. *)

From Stdlib Require Import ZArith Strings.Byte String.
From stdpp Require Import base option list gmap.

Local Open Scope Z_scope.

(** ** Buffers *)

Definition Buffer := list byte.

Global Instance byte_eq_dec : EqDecision byte := Byte.byte_eq_dec.

Global Instance byte_countable : Countable byte :=
  inj_countable Byte.to_N Byte.of_N Byte.of_to_N.

(** [Buffer.alloc(size, fill)]: [size] bytes, each equal to [fill]. *)
Definition Buffer_alloc (size : nat) (fill : byte) : Buffer := replicate size fill.

(** [a.equals(b)] *)
Definition Buffer_equals (a b : Buffer) : bool := bool_decide (a = b).

(** [buf.length] *)
Definition Buffer_length (a : Buffer) : Z := Z.of_nat (length a).

(** [Buffer.concat(list)] *)
Definition Buffer_concat (l : list Buffer) : Buffer := concat l.

(** [toBigIntBE(buf)]: the big-endian unsigned integer held by [buf]. *)
Definition toBigIntBE (buf : Buffer) : Z :=
  fold_left (fun acc b => acc * 256 + Z.of_N (Byte.to_N b)) buf 0.

Definition byte_of_Z (z : Z) : byte :=
  match Byte.of_N (Z.to_N (z mod 256)) with
  | Some b => b
  | None => x00
  end.

(** Modelled from the spec: [toBufferBE] of [@aztec/barretenberg/bigint_buffer]
    is not among the sources; the spec calls [toBufferBE(1n, 32)] the encoding
    of one on 32 bytes.  This is the big-endian encoding on [width] bytes. *)
Fixpoint toBufferBE (n : Z) (width : nat) : Buffer :=
  match width with
  | O => []
  | S w => toBufferBE (n / 256) w ++ [byte_of_Z n]
  end.

(** [Array.prototype.findIndex]: first position whose element satisfies [f],
    and [-1] when there is none. *)
Fixpoint findIndexFrom {A} (f : A -> bool) (l : list A) (k : Z) : Z :=
  match l with
  | [] => -1
  | x :: l' => if f x then k else findIndexFrom f l' (k + 1)
  end.

Definition findIndex {A} (f : A -> bool) (l : list A) : Z := findIndexFrom f l 0.

(** ** Data model *)

Definition Date := Z.

(** [RollupTreeId] of [@aztec/barretenberg/world_state_db]; the source reads
    the DATA tree both as [RollupTreeId.DATA] and as the literal [0]. *)
Inductive RollupTreeId := DATA | NULL | ROOT | DEFI.

Global Instance RollupTreeId_eq_dec : EqDecision RollupTreeId.
Proof. solve_decision. Defined.

Definition treeCode (t : RollupTreeId) : Z :=
  match t with DATA => 0 | NULL => 1 | ROOT => 2 | DEFI => 3 end.

(** Modelled from the spec: [ProofId] of [@aztec/barretenberg/client_proofs]
    is not among the sources.  The spec lists the proof ids of an inner proof
    as DEPOSIT, WITHDRAW, SEND, ACCOUNT, DEFI_DEPOSIT, DEFI_CLAIM and
    padding. *)
Inductive ProofId :=
  PADDING | DEPOSIT | WITHDRAW | SEND | ACCOUNT | DEFI_DEPOSIT | DEFI_CLAIM.

Global Instance ProofId_eq_dec : EqDecision ProofId.
Proof. solve_decision. Defined.

Inductive TxType :=
  TX_DEPOSIT | TX_TRANSFER | TX_WITHDRAW_TO_WALLET | TX_WITHDRAW_TO_CONTRACT
  | TX_ACCOUNT | TX_DEFI_DEPOSIT | TX_DEFI_CLAIM.

(** The accessors of [BridgeId] that the synchronizer reads. *)
Module BridgeId.
Record t := mk {
  toBuffer : Buffer;
  toBigInt : Z;
  outputAssetIdA : Z;
  outputAssetIdB : Z }.
End BridgeId.

Module InnerProofData.
Record t := mk {
  proofId : ProofId;
  txId : Buffer;
  noteCommitment1 : Buffer;
  noteCommitment2 : Buffer;
  nullifier1 : Buffer;
  nullifier2 : Buffer;
  toBuffer : Buffer }.

(** Modelled from the spec: [isPadding] belongs to the absent
    [InnerProofData] class; the spec makes padding one of the values of
    [proofId]. *)
Definition isPadding (p : t) : bool := bool_decide (proofId p = PADDING).
End InnerProofData.

Module DefiInteractionNote.
Record t := mk {
  bridgeId : BridgeId.t;
  nonce : Z;
  totalInputValue : Z;
  totalOutputValueA : Z;
  totalOutputValueB : Z;
  result : bool;
  toBuffer : Buffer }.
End DefiInteractionNote.

Module RollupProofData.
Record t := mk {
  rollupId : Z;
  rollupHash : Buffer;
  rollupSize : Z;
  dataStartIndex : Z;
  newDataRoot : Buffer;
  newNullRoot : Buffer;
  newDataRootsRoot : Buffer;
  newDefiRoot : Buffer;
  bridgeIds : list Buffer;
  assetIds : list Z;
  defiInteractionNotes : list Buffer;
  innerProofData : list InnerProofData.t }.
End RollupProofData.

Module Block.
Record t := mk {
  txHash : Buffer;
  created : Date;
  rollupId : Z;
  rollupSize : Z;
  rollupProofData : Buffer;
  offchainTxData : list Buffer;
  interactionResult : list DefiInteractionNote.t;
  gasUsed : Z;
  gasPrice : Z }.
End Block.

Module OffchainDefiDepositData.
Record t := mk {
  bridgeId : BridgeId.t;
  depositValue : Z;
  partialState : Buffer;
  partialStateSecretEphPubKey : Buffer;
  txFee : Z }.
End OffchainDefiDepositData.

Module TreeClaimNote.
Record t := mk {
  value : Z;
  bridgeId : BridgeId.t;
  defiInteractionNonce : Z;
  fee : Z;
  partialState : Buffer;
  inputNullifier : Buffer }.
End TreeClaimNote.

(** *** Relational entities *)

Module TxDao.
Record t := mk {
  id : Buffer;
  proofData : Buffer;
  offchainTxData : option Buffer;
  nullifier1 : option Buffer;
  nullifier2 : option Buffer;
  created : Date;
  mined : option Date;
  txType : TxType;
  excessGas : Z }.
End TxDao.

Module RollupProofDao.
Record t := mk {
  id : Buffer;
  txs : list TxDao.t;
  rollupSize : Z;
  dataStartIndex : Z;
  proofData : option Buffer;
  created : Date }.
End RollupProofDao.

Module AssetMetricsDao.
(** [rollup] is a stub [RollupDao] that carries only an id. *)
Record t := mk {
  rollup : option Z;
  rollupId : Z;
  assetId : Z;
  contractBalance : Z;
  totalDeposited : Z;
  totalWithdrawn : Z;
  totalDefiDeposited : Z;
  totalDefiClaimed : Z;
  totalFees : Z }.
End AssetMetricsDao.

Module RollupDao.
Record t := mk {
  id : Z;
  dataRoot : Buffer;
  rollupProof : RollupProofDao.t;
  ethTxHash : option Buffer;
  mined : option Date;
  created : Date;
  interactionResult : option Buffer;
  gasPrice : option Buffer;
  gasUsed : option Z;
  assetMetrics : list AssetMetricsDao.t }.
End RollupDao.

Module ClaimDao.
Record t := mk {
  id : Z;
  nullifier : Buffer;
  bridgeId : Z;
  depositValue : Z;
  partialState : Buffer;
  partialStateSecretEphPubKey : Buffer;
  inputNullifier : Buffer;
  interactionNonce : Z;
  fee : Z;
  created : Date;
  claimed : option Date;
  interactionResultRollupId : option Z }.
End ClaimDao.

Module AccountDao.
Record t := mk {
  aliasHash : Buffer;
  accountPubKey : Buffer;
  nonce : Z }.
End AccountDao.

(** The part of an account read from the initialisation file that the
    synchronizer uses: [a.alias.aliasHash], [a.alias.address],
    [a.alias.nonce]. *)
Module AccountData.
Record Alias := mkAlias {
  aliasHash : Buffer;
  address : Buffer;
  nonce : Z }.
Record t := mk { alias : Alias }.
End AccountData.

(** *** Pipeline *)

Module RollupTimeout.
Record t := mk { timeout : Date; rollupNumber : Z }.
End RollupTimeout.

Module RollupTimeouts.
Record t := mk {
  baseTimeout : option RollupTimeout.t;
  bridgeTimeouts : gmap Z RollupTimeout.t }.
End RollupTimeouts.

(** What a running pipeline answers to the two read-only queries. *)
Module RollupPipeline.
Record t (Profile : Type) := mk {
  getNextPublishTime : RollupTimeouts.t;
  getTxPoolProfile : Profile }.
Arguments mk {Profile}.
Arguments getNextPublishTime {Profile}.
Arguments getTxPoolProfile {Profile}.
End RollupPipeline.

(** ** Collaborators

    The constructor of [WorldState] receives its collaborators; none of their
    implementations is among the sources.  Each is an interface here, and the
    synchronizer is verified against every implementation of it. *)

(** [WorldStateDb]: the store of the four trees. *)
Module WorldStateDb.
Class t (T : Type) := {
  start : T -> T;
  getSize : T -> RollupTreeId -> Z;
  getRoot : T -> RollupTreeId -> Buffer;
  put : RollupTreeId -> Z -> Buffer -> T -> T;
  commit : T -> T;
  rollback : T -> T }.
End WorldStateDb.

(** [RollupDb]: the relational store. *)
Module RollupDb.
Class t (D : Type) := {
  getNextRollupId : D -> Z;
  getSettledRollups : D -> Z -> list RollupDao.t;
  getRollupProof : D -> Buffer -> bool -> option RollupProofDao.t;
  getRollup : D -> Z -> option RollupDao.t;
  getAssetMetrics : D -> Z -> option AssetMetricsDao.t;
  addClaim : ClaimDao.t -> D -> D;
  confirmClaimed : Buffer -> Date -> D -> D;
  updateClaimsWithResultRollupId : Z -> Z -> D -> D;
  confirmMined :
    Z -> Z -> Z -> Date -> Buffer -> list DefiInteractionNote.t ->
    list Buffer -> list AssetMetricsDao.t -> D -> option RollupDao.t * D;
  addRollup : RollupDao.t -> D -> D;
  addAccounts : list AccountDao.t -> D -> D;
  deleteUnsettledRollups : D -> D;
  deleteOrphanedRollupProofs : D -> D;
  deletePendingTxs : D -> D }.
End RollupDb.

(** [Blockchain]: the chain source, as far as the synchronizer reads it. *)
Module Blockchain.
Class t := {
  getChainId : Z;
  getBlocks : Z -> list Block.t;
  getRollupBalance : Z -> Z }.
End Blockchain.

(** [NoteAlgorithms] *)
Module NoteAlgorithms.
Class t := {
  claimNoteCommitment : TreeClaimNote.t -> Buffer;
  claimNoteNullifier : Buffer -> Buffer }.
End NoteAlgorithms.

(** [InitHelpers] of [@aztec/barretenberg/environment]. *)
Module InitHelpers.
Record InitRoots := mkInitRoots {
  initDataRoot : Buffer;
  initNullRoot : Buffer;
  initRootsRoot : Buffer }.
Class t (T : Type) := {
  getAccountDataFile : Z -> option string;
  readAccountTreeData : string -> list AccountData.t;
  getInitRoots : Z -> InitRoots;
  populateDataAndRootsTrees :
    list AccountData.t -> T -> RollupTreeId -> RollupTreeId -> (Buffer * Buffer) * T;
  populateNullifierTree : list AccountData.t -> T -> RollupTreeId -> Buffer * T }.
End InitHelpers.

(** What [rollupDaoToBlockBuffer] hands to [new Block(...)].  The [!] after
    a value of the source is erased when the source is compiled and checks
    nothing when the program runs: a value that the rollup lacks reaches the
    constructor as [undefined], here [None]. *)
Module BlockArguments.
Record t := mk {
  txHash : option Buffer;
  created : Date;
  rollupId : Z;
  rollupSize : Z;
  rollupProofData : option Buffer;
  offchainTxData : list (option Buffer);
  interactionResult : list DefiInteractionNote.t;
  gasUsed : option Z;
  gasPrice : Z }.
End BlockArguments.

(** Decoders, serializers and constants of absent modules, taken as
    parameters: [RollupProofData.fromBuffer] and the totals it offers,
    [RollupProofData.NUM_BRIDGE_CALLS_PER_BLOCK],
    [OffchainDefiDepositData.fromBuffer], [getTxTypeFromInnerProofData],
    [parseInteractionResult], [new Block(...).toBuffer()], the wall clock
    behind [new Date()] and the pipeline factory.  A decoder or serializer
    answers [None] where the original throws.  [parseInteractionResult] and
    [Block.toBuffer] may be handed [undefined]; what they make of it, and of
    values out of range, is theirs to say, as is what [toBigIntBE] makes of
    [undefined]. *)
Module Env.
Class t (Profile : Type) := {
  NUM_BRIDGE_CALLS_PER_BLOCK : Z;
  RollupProofData_fromBuffer : Buffer -> option RollupProofData.t;
  getTotalDeposited : RollupProofData.t -> Z -> Z;
  getTotalWithdrawn : RollupProofData.t -> Z -> Z;
  getTotalDefiDeposit : RollupProofData.t -> Z -> Z;
  getTotalFees : RollupProofData.t -> Z -> Z;
  OffchainDefiDepositData_fromBuffer : Buffer -> option OffchainDefiDepositData.t;
  getTxTypeFromInnerProofData : InnerProofData.t -> TxType;
  parseInteractionResult : option Buffer -> option (list DefiInteractionNote.t);
  toBigIntBE_undefined : option Z;
  Block_toBuffer : BlockArguments.t -> option Buffer;
  dateNow : nat -> Date;
  pipelineFactory_create : nat -> RollupPipeline.t Profile }.
End Env.

(** ** State of the synchronizer and record of its calls *)

Inductive TreeCall :=
  | TreePut (treeId : RollupTreeId) (index : Z) (value : Buffer)
  | TreeCommit
  | TreeRollback
  | TreePopulateDataAndRoots (accounts : list AccountData.t)
  | TreePopulateNullifier (accounts : list AccountData.t).

Inductive DbCall :=
  | DbAddClaim (claim : ClaimDao.t)
  | DbConfirmClaimed (nullifier : Buffer) (mined : Date)
  | DbUpdateClaimsWithResultRollupId (nonce rollupId : Z)
  | DbConfirmMined (id gasUsed gasPrice : Z) (mined : Date) (ethTxHash : Buffer)
      (interactionResult : list DefiInteractionNote.t) (txIds : list Buffer)
      (assetMetrics : list AssetMetricsDao.t)
  | DbAddRollup (dao : RollupDao.t)
  | DbAddAccounts (accounts : list AccountDao.t)
  | DbDeleteUnsettledRollups
  | DbDeleteOrphanedRollupProofs
  | DbDeletePendingTxs.

Inductive MetricsCall :=
  | TxSettlementDuration (ms : Z)
  | RollupReceived (dao : option RollupDao.t).

(** The fields of the [WorldState] object, its two stores, and the logs of
    the writes made so far.  [dates] counts the [new Date()] evaluated and
    [pipelines] the pipelines created. *)
Record WorldState (T D Profile : Type) := mkWorldState {
  worldStateDb : T;
  rollupDb : D;
  pipeline : option (RollupPipeline.t Profile);
  blockBufferCache : list Buffer;
  treeLog : list TreeCall;
  dbLog : list DbCall;
  metricsLog : list MetricsCall;
  dates : nat;
  pipelines : nat }.

Arguments mkWorldState {T D Profile}.
Arguments worldStateDb {T D Profile}.
Arguments rollupDb {T D Profile}.
Arguments pipeline {T D Profile}.
Arguments blockBufferCache {T D Profile}.
Arguments treeLog {T D Profile}.
Arguments dbLog {T D Profile}.
Arguments metricsLog {T D Profile}.
Arguments dates {T D Profile}.
Arguments pipelines {T D Profile}.

(** ** Computations that may throw *)

Inductive Outcome (W A : Type) :=
  | Returned (a : A) (w : W)
  | Thrown (error : string) (w : W).

Arguments Returned {W A}.
Arguments Thrown {W A}.

Definition M (W A : Type) := W -> Outcome W A.

Definition ret {W A} (a : A) : M W A := fun w => Returned a w.

Definition throw {W A} (error : string) : M W A := fun w => Thrown error w.

Definition bind {W A B} (c : M W A) (k : A -> M W B) : M W B :=
  fun w => match c w with
           | Returned a w' => k a w'
           | Thrown e w' => Thrown e w'
           end.

(** The state in which a computation ends, whether it returns or throws. *)
Definition final {W A} (o : Outcome W A) : W :=
  match o with Returned _ w => w | Thrown _ w => w end.

Definition returns {W A} (o : Outcome W A) : bool :=
  match o with Returned _ _ => true | Thrown _ _ => false end.

Notation "'let!' x ':=' c 'in' k" := (bind c (fun x => k))
  (at level 10, x name, c at level 100, k at level 200, only parsing).
Notation "c '>>;' k" := (bind c (fun _ => k))
  (at level 100, k at level 200, right associativity, only parsing).

(** ** The synchronizer *)

(** [innerProofDataToTxDao] *)
Definition innerProofDataToTxDao (tx : InnerProofData.t) (offchainTxData : option Buffer)
    (created : Date) (txType : TxType) : TxDao.t :=
  {| TxDao.id := InnerProofData.txId tx;
     TxDao.proofData := InnerProofData.toBuffer tx;
     TxDao.offchainTxData := offchainTxData;
     TxDao.nullifier1 :=
       if toBigIntBE (InnerProofData.nullifier1 tx) =? 0 then None
       else Some (InnerProofData.nullifier1 tx);
     TxDao.nullifier2 :=
       if toBigIntBE (InnerProofData.nullifier2 tx) =? 0 then None
       else Some (InnerProofData.nullifier2 tx);
     TxDao.created := created;
     TxDao.mined := Some created;
     TxDao.txType := txType;
     TxDao.excessGas := 0 |}.

Section Synchronizer.

Context {T D Profile : Type}.
Context {treeDb : WorldStateDb.t T} {relDb : RollupDb.t D} {chain : Blockchain.t}
        {noteAlgo : NoteAlgorithms.t} {initHelpers : InitHelpers.t T} {env : Env.t Profile}.

Abbreviation W := (WorldState T D Profile).

(** *** Calls on the collaborators *)

Definition onTrees (f : T -> T) (calls : list TreeCall) : M W unit :=
  fun w => Returned tt
    (mkWorldState (f (worldStateDb w)) (rollupDb w) (pipeline w) (blockBufferCache w)
       (treeLog w ++ calls) (dbLog w) (metricsLog w) (dates w) (pipelines w)).

Definition onDb (f : D -> D) (calls : list DbCall) : M W unit :=
  fun w => Returned tt
    (mkWorldState (worldStateDb w) (f (rollupDb w)) (pipeline w) (blockBufferCache w)
       (treeLog w) (dbLog w ++ calls) (metricsLog w) (dates w) (pipelines w)).

Definition onMetrics (call : MetricsCall) : M W unit :=
  fun w => Returned tt
    (mkWorldState (worldStateDb w) (rollupDb w) (pipeline w) (blockBufferCache w)
       (treeLog w) (dbLog w) (metricsLog w ++ [call]) (dates w) (pipelines w)).

Definition readTrees {A} (f : T -> A) : M W A := fun w => Returned (f (worldStateDb w)) w.

Definition readDb {A} (f : D -> A) : M W A := fun w => Returned (f (rollupDb w)) w.

Definition worldStateDb_put (treeId : RollupTreeId) (index : Z) (value : Buffer) : M W unit :=
  onTrees (WorldStateDb.put treeId index value) [TreePut treeId index value].

Definition worldStateDb_commit : M W unit := onTrees WorldStateDb.commit [TreeCommit].

Definition worldStateDb_rollback : M W unit := onTrees WorldStateDb.rollback [TreeRollback].

(** [new Date()] *)
Definition newDate : M W Date :=
  fun w => Returned (Env.dateNow (dates w))
    (mkWorldState (worldStateDb w) (rollupDb w) (pipeline w) (blockBufferCache w)
       (treeLog w) (dbLog w) (metricsLog w) (S (dates w)) (pipelines w)).

Definition pushBlockBuffer (buf : Buffer) : M W unit :=
  fun w => Returned tt
    (mkWorldState (worldStateDb w) (rollupDb w) (pipeline w) (blockBufferCache w ++ [buf])
       (treeLog w) (dbLog w) (metricsLog w) (dates w) (pipelines w)).

(** [rollupDaoToBlockBuffer].  The arguments of [new Block(...)] are
    evaluated in order, [parseInteractionResult] before [toBigIntBE]; each
    may throw, and so may the serialization. *)
Definition rollupDaoToBlockBuffer (dao : RollupDao.t) : option Buffer :=
  interactionResult ← Env.parseInteractionResult (RollupDao.interactionResult dao);
  gasPrice ← match RollupDao.gasPrice dao with
             | Some buf => Some (toBigIntBE buf)
             | None => Env.toBigIntBE_undefined
             end;
  Env.Block_toBuffer
    {| BlockArguments.txHash := RollupDao.ethTxHash dao;
       BlockArguments.created := RollupDao.created dao;
       BlockArguments.rollupId := RollupDao.id dao;
       BlockArguments.rollupSize := RollupProofDao.rollupSize (RollupDao.rollupProof dao);
       BlockArguments.rollupProofData := RollupProofDao.proofData (RollupDao.rollupProof dao);
       BlockArguments.offchainTxData :=
         map TxDao.offchainTxData (RollupProofDao.txs (RollupDao.rollupProof dao));
       BlockArguments.interactionResult := interactionResult;
       BlockArguments.gasUsed := RollupDao.gasUsed dao;
       BlockArguments.gasPrice := gasPrice |}.

(** *** [getNextPublishTime], [getTxPoolProfile], [getBlockBuffers] *)

Definition getBlockBuffers (w : W) (from : nat) : list Buffer := drop from (blockBufferCache w).

Definition getNextPublishTime (w : W) : RollupTimeouts.t :=
  match pipeline w with
  | Some p => RollupPipeline.getNextPublishTime p
  | None => {| RollupTimeouts.baseTimeout := None; RollupTimeouts.bridgeTimeouts := ∅ |}
  end.

(** [this.pipeline.getTxPoolProfile()]: the call on an undefined pipeline is
    a [TypeError]. *)
Definition getTxPoolProfile : M W Profile :=
  fun w => match pipeline w with
           | Some p => Returned (RollupPipeline.getTxPoolProfile p) w
           | None => Thrown "TypeError" w
           end.

(** *** [addRollupToWorldState] *)

Definition putNullifier (nullifier : Buffer) : M W unit :=
  let n := toBigIntBE nullifier in
  if n =? 0 then ret tt else worldStateDb_put NULL n (toBufferBE 1 32).

(** The loop over [innerProofData], from position [i] on. *)
Fixpoint putInnerProofs (dataStartIndex : Z) (proofs : list InnerProofData.t) (i : Z)
    : M W unit :=
  match proofs with
  | [] => ret tt
  | tx :: rest =>
      worldStateDb_put DATA (dataStartIndex + i * 2) (InnerProofData.noteCommitment1 tx) >>;
      worldStateDb_put DATA (dataStartIndex + i * 2 + 1) (InnerProofData.noteCommitment2 tx) >>;
      (if negb (InnerProofData.isPadding tx) then
         putNullifier (InnerProofData.nullifier1 tx) >>;
         putNullifier (InnerProofData.nullifier2 tx)
       else ret tt) >>;
      putInnerProofs dataStartIndex rest (i + 1)
  end.

(** The loop over [defiInteractionNotes], from position [i] on.  The source
    compares each note with [Buffer.alloc(0, 32)]: size 0, fill byte 32. *)
Fixpoint putDefiInteractionNotes (interactionNoteStartIndex : Z) (notes : list Buffer) (i : Z)
    : M W unit :=
  match notes with
  | [] => ret tt
  | note :: rest =>
      let index := interactionNoteStartIndex + i in
      (if Buffer_equals note (Buffer_alloc 0 x20) then ret tt
       else worldStateDb_put DEFI index note) >>;
      putDefiInteractionNotes interactionNoteStartIndex rest (i + 1)
  end.

Definition addRollupToWorldState (rollup : RollupProofData.t) : M W unit :=
  let rollupId := RollupProofData.rollupId rollup in
  let dataStartIndex := RollupProofData.dataStartIndex rollup in
  let! currentSize := readTrees (fun t => WorldStateDb.getSize t DATA) in
  if currentSize >? dataStartIndex then ret tt
  else
    putInnerProofs dataStartIndex (RollupProofData.innerProofData rollup) 0 >>;
    (let! dataRoot := readTrees (fun t => WorldStateDb.getRoot t DATA) in
     worldStateDb_put ROOT (rollupId + 1) dataRoot) >>;
    putDefiInteractionNotes (rollupId * Env.NUM_BRIDGE_CALLS_PER_BLOCK)
      (RollupProofData.defiInteractionNotes rollup) 0 >>;
    worldStateDb_commit.

(** *** [processDefiProofs] *)

Definition defiDepositClaim (rollup : RollupProofData.t) (proofData : InnerProofData.t)
    (i : Z) (data : OffchainDefiDepositData.t) (created : Date) : ClaimDao.t :=
  let bridgeId := OffchainDefiDepositData.bridgeId data in
  let txFee := OffchainDefiDepositData.txFee data in
  let fee := txFee - Z.shiftr txFee 1 in
  let index := RollupProofData.dataStartIndex rollup + i * 2 in
  let interactionNonce :=
    findIndex (fun bridge => Buffer_equals bridge (BridgeId.toBuffer bridgeId))
      (RollupProofData.bridgeIds rollup)
    + RollupProofData.rollupId rollup * Env.NUM_BRIDGE_CALLS_PER_BLOCK in
  let inputNullifier := InnerProofData.nullifier1 proofData in
  let note :=
    {| TreeClaimNote.value := OffchainDefiDepositData.depositValue data;
       TreeClaimNote.bridgeId := bridgeId;
       TreeClaimNote.defiInteractionNonce := interactionNonce;
       TreeClaimNote.fee := fee;
       TreeClaimNote.partialState := OffchainDefiDepositData.partialState data;
       TreeClaimNote.inputNullifier := inputNullifier |} in
  let nullifier :=
    NoteAlgorithms.claimNoteNullifier (NoteAlgorithms.claimNoteCommitment note) in
  {| ClaimDao.id := index;
     ClaimDao.nullifier := nullifier;
     ClaimDao.bridgeId := BridgeId.toBigInt bridgeId;
     ClaimDao.depositValue := OffchainDefiDepositData.depositValue data;
     ClaimDao.partialState := OffchainDefiDepositData.partialState data;
     ClaimDao.partialStateSecretEphPubKey :=
       OffchainDefiDepositData.partialStateSecretEphPubKey data;
     ClaimDao.inputNullifier := inputNullifier;
     ClaimDao.interactionNonce := interactionNonce;
     ClaimDao.fee := fee;
     ClaimDao.created := created;
     ClaimDao.claimed := None;
     ClaimDao.interactionResultRollupId := None |}.

(** [OffchainDefiDepositData.fromBuffer(offchainTxData[offChainIndex])]; an
    index past the end reads [undefined], on which the decoder throws. *)
Definition readOffchainDefiDepositData (offchainTxData : list Buffer) (offChainIndex : nat)
    : option OffchainDefiDepositData.t :=
  offchainTxData !! offChainIndex ≫= Env.OffchainDefiDepositData_fromBuffer.

(** The body of the [switch] for one inner proof that is not padding. *)
Definition processDefiProof (rollup : RollupProofData.t) (offchainTxData : list Buffer)
    (block : Block.t) (proofData : InnerProofData.t) (i : Z) (offChainIndex : nat)
    : M W unit :=
  match InnerProofData.proofId proofData with
  | DEFI_DEPOSIT =>
      match readOffchainDefiDepositData offchainTxData offChainIndex with
      | None => throw "OffchainDefiDepositData.fromBuffer"
      | Some data =>
          let! created := newDate in
          let claim := defiDepositClaim rollup proofData i data created in
          onDb (RollupDb.addClaim claim) [DbAddClaim claim]
      end
  | DEFI_CLAIM =>
      onDb (RollupDb.confirmClaimed (InnerProofData.nullifier1 proofData) (Block.created block))
        [DbConfirmClaimed (InnerProofData.nullifier1 proofData) (Block.created block)]
  | _ => ret tt
  end.

(** The loop over [innerProofData], from position [i] on, with the running
    [offChainIndex]. *)
Fixpoint processInnerProofs (rollup : RollupProofData.t) (offchainTxData : list Buffer)
    (block : Block.t) (proofs : list InnerProofData.t) (i : Z) (offChainIndex : nat)
    : M W unit :=
  match proofs with
  | [] => ret tt
  | proofData :: rest =>
      if InnerProofData.isPadding proofData then
        processInnerProofs rollup offchainTxData block rest (i + 1) offChainIndex
      else
        processDefiProof rollup offchainTxData block proofData i offChainIndex >>;
        processInnerProofs rollup offchainTxData block rest (i + 1) (S offChainIndex)
  end.

Fixpoint updateClaimsWithResults (rollupId : Z) (interactionResult : list DefiInteractionNote.t)
    : M W unit :=
  match interactionResult with
  | [] => ret tt
  | defiNote :: rest =>
      onDb (RollupDb.updateClaimsWithResultRollupId (DefiInteractionNote.nonce defiNote) rollupId)
        [DbUpdateClaimsWithResultRollupId (DefiInteractionNote.nonce defiNote) rollupId] >>;
      updateClaimsWithResults rollupId rest
  end.

Definition processDefiProofs (rollup : RollupProofData.t) (offchainTxData : list Buffer)
    (block : Block.t) : M W unit :=
  processInnerProofs rollup offchainTxData block (RollupProofData.innerProofData rollup) 0 0%nat >>;
  updateClaimsWithResults (RollupProofData.rollupId rollup) (Block.interactionResult block).

(** *** [getAssetMetrics] *)

(** Modelled from the spec: the entity [AssetMetricsDao] is not among the
    sources; where there are no previous metrics the spec starts fresh, with
    every cumulative total at zero. *)
Definition newAssetMetricsDao : AssetMetricsDao.t :=
  {| AssetMetricsDao.rollup := None;
     AssetMetricsDao.rollupId := 0;
     AssetMetricsDao.assetId := 0;
     AssetMetricsDao.contractBalance := 0;
     AssetMetricsDao.totalDeposited := 0;
     AssetMetricsDao.totalWithdrawn := 0;
     AssetMetricsDao.totalDefiDeposited := 0;
     AssetMetricsDao.totalDefiClaimed := 0;
     AssetMetricsDao.totalFees := 0 |}.

(** The [reduce] over the interaction results. *)
Definition defiClaimedFor (assetId : Z) (interactionResults : list DefiInteractionNote.t) : Z :=
  fold_left
    (fun a v =>
       a
       + (if BridgeId.outputAssetIdA (DefiInteractionNote.bridgeId v) =? assetId
          then DefiInteractionNote.totalOutputValueA v else 0)
       + (if BridgeId.outputAssetIdB (DefiInteractionNote.bridgeId v) =? assetId
          then DefiInteractionNote.totalOutputValueB v else 0))
    interactionResults 0.

(** The loop reads the relational store and the chain and writes nothing. *)
Definition getAssetMetrics (rollup : RollupProofData.t)
    (interactionResults : list DefiInteractionNote.t) (db : D) : list AssetMetricsDao.t :=
  map
    (fun assetId =>
       let previous := RollupDb.getAssetMetrics db assetId in
       let assetMetrics := default newAssetMetricsDao previous in
       {| AssetMetricsDao.rollup := Some (RollupProofData.rollupId rollup);
          AssetMetricsDao.rollupId := RollupProofData.rollupId rollup;
          AssetMetricsDao.assetId := assetId;
          AssetMetricsDao.contractBalance := Blockchain.getRollupBalance assetId;
          AssetMetricsDao.totalDeposited :=
            AssetMetricsDao.totalDeposited assetMetrics + Env.getTotalDeposited rollup assetId;
          AssetMetricsDao.totalWithdrawn :=
            AssetMetricsDao.totalWithdrawn assetMetrics + Env.getTotalWithdrawn rollup assetId;
          AssetMetricsDao.totalDefiDeposited :=
            AssetMetricsDao.totalDefiDeposited assetMetrics
            + Env.getTotalDefiDeposit rollup assetId;
          AssetMetricsDao.totalDefiClaimed :=
            AssetMetricsDao.totalDefiClaimed assetMetrics
            + defiClaimedFor assetId interactionResults;
          AssetMetricsDao.totalFees :=
            AssetMetricsDao.totalFees assetMetrics + Env.getTotalFees rollup assetId |})
    (List.filter (fun id => negb (id =? Z.shiftl 1 30)) (RollupProofData.assetIds rollup)).

(** *** [confirmOrAddRollupToDb] *)

(** The loop that tracks settlement times of the txs of our own rollup. *)
Fixpoint trackSettlementTimes (block : Block.t) (txs : list TxDao.t)
    (proofs : list InnerProofData.t) : M W unit :=
  match proofs with
  | [] => ret tt
  | inner :: rest =>
      (if InnerProofData.isPadding inner then ret tt
       else
         match List.find (fun tx => Buffer_equals (TxDao.id tx) (InnerProofData.txId inner)) txs with
         | None => ret tt
         | Some tx => onMetrics (TxSettlementDuration (Block.created block - TxDao.created tx))
         end) >>;
      trackSettlementTimes block txs rest
  end.

(** The txs rebuilt from the inner proofs of a rollup that is not ours. *)
Definition rebuiltTxs (rollup : RollupProofData.t) (offchainTxData : list Buffer)
    (created : Date) : list TxDao.t :=
  imap
    (fun i p =>
       innerProofDataToTxDao p (offchainTxData !! i) created (Env.getTxTypeFromInnerProofData p))
    (List.filter (fun tx => negb (InnerProofData.isPadding tx))
       (RollupProofData.innerProofData rollup)).

Definition rebuiltRollupDao (rollup : RollupProofData.t) (offchainTxData : list Buffer)
    (block : Block.t) (assetMetrics : list AssetMetricsDao.t) : RollupDao.t :=
  let created := Block.created block in
  let rollupProofDao :=
    {| RollupProofDao.id := RollupProofData.rollupHash rollup;
       RollupProofDao.txs := rebuiltTxs rollup offchainTxData created;
       RollupProofDao.rollupSize := RollupProofData.rollupSize rollup;
       RollupProofDao.dataStartIndex := RollupProofData.dataStartIndex rollup;
       RollupProofDao.proofData := Some (Block.rollupProofData block);
       RollupProofDao.created := created |} in
  {| RollupDao.id := RollupProofData.rollupId rollup;
     RollupDao.dataRoot := RollupProofData.newDataRoot rollup;
     RollupDao.rollupProof := rollupProofDao;
     RollupDao.ethTxHash := Some (Block.txHash block);
     RollupDao.mined := Some (Block.created block);
     RollupDao.created := Block.created block;
     RollupDao.interactionResult :=
       Some (Buffer_concat (map DefiInteractionNote.toBuffer (Block.interactionResult block)));
     RollupDao.gasPrice := Some (toBufferBE (Block.gasPrice block) 32);
     RollupDao.gasUsed := Some (Block.gasUsed block);
     RollupDao.assetMetrics := assetMetrics |}.

Definition rollupDb_confirmMined (id gasUsed gasPrice : Z) (mined : Date) (ethTxHash : Buffer)
    (interactionResult : list DefiInteractionNote.t) (txIds : list Buffer)
    (assetMetrics : list AssetMetricsDao.t) : M W (option RollupDao.t) :=
  fun w =>
    let r := RollupDb.confirmMined id gasUsed gasPrice mined ethTxHash interactionResult txIds
               assetMetrics (rollupDb w) in
    Returned r.1
      (mkWorldState (worldStateDb w) r.2 (pipeline w) (blockBufferCache w) (treeLog w)
         (dbLog w ++ [DbConfirmMined id gasUsed gasPrice mined ethTxHash interactionResult txIds
                        assetMetrics])
         (metricsLog w) (dates w) (pipelines w)).

(** An error thrown while [rollupDaoToBlockBuffer] runs, that of reading a
    rollup that [getRollup] did not find among them, goes by the name of the
    function. *)
Definition confirmOrAddRollupToDb (rollup : RollupProofData.t) (offchainTxData : list Buffer)
    (block : Block.t) : M W unit :=
  let! assetMetrics := readDb (getAssetMetrics rollup (Block.interactionResult block)) in
  let! rollupProof :=
    readDb (fun db => RollupDb.getRollupProof db (RollupProofData.rollupHash rollup) true) in
  (match rollupProof with
   | Some rollupProof =>
       let txIds := map TxDao.id (RollupProofDao.txs rollupProof) in
       let! rollupDao :=
         rollupDb_confirmMined (RollupProofData.rollupId rollup) (Block.gasUsed block)
           (Block.gasPrice block) (Block.created block) (Block.txHash block)
           (Block.interactionResult block) txIds assetMetrics in
       trackSettlementTimes block (RollupProofDao.txs rollupProof)
         (RollupProofData.innerProofData rollup) >>;
       onMetrics (RollupReceived rollupDao)
   | None =>
       let rollupDao := rebuiltRollupDao rollup offchainTxData block assetMetrics in
       onDb (RollupDb.addRollup rollupDao) [DbAddRollup rollupDao] >>;
       onMetrics (RollupReceived (Some rollupDao))
   end) >>;
  let! rollupDao := readDb (fun db => RollupDb.getRollup db (RollupProofData.rollupId rollup)) in
  match rollupDao ≫= rollupDaoToBlockBuffer with
  | Some buf => pushBlockBuffer buf
  | None => throw "rollupDaoToBlockBuffer"
  end.

(** *** [updateDbs] *)

Definition rootsMatch (rollupProofData : RollupProofData.t) (t : T) : bool :=
  Buffer_equals (RollupProofData.newDataRoot rollupProofData) (WorldStateDb.getRoot t DATA)
  && Buffer_equals (RollupProofData.newNullRoot rollupProofData) (WorldStateDb.getRoot t NULL)
  && Buffer_equals (RollupProofData.newDataRootsRoot rollupProofData) (WorldStateDb.getRoot t ROOT)
  && Buffer_equals (RollupProofData.newDefiRoot rollupProofData) (WorldStateDb.getRoot t DEFI).

Definition updateDbs (block : Block.t) : M W unit :=
  match Env.RollupProofData_fromBuffer (Block.rollupProofData block) with
  | None => throw "RollupProofData.fromBuffer"
  | Some rollupProofData =>
      let offchainTxData := Block.offchainTxData block in
      (let! ours := readTrees (rootsMatch rollupProofData) in
       if ours then worldStateDb_commit
       else worldStateDb_rollback >>; addRollupToWorldState rollupProofData) >>;
      processDefiProofs rollupProofData offchainTxData block >>;
      confirmOrAddRollupToDb rollupProofData offchainTxData block
  end.

(** *** Start-up: [syncStateFromInitFiles], [syncStateFromBlockchain],
    [syncState], [start] *)

Definition populateDataAndRootsTrees (accounts : list AccountData.t) : M W (Buffer * Buffer) :=
  fun w =>
    let r := InitHelpers.populateDataAndRootsTrees accounts (worldStateDb w) DATA ROOT in
    Returned r.1
      (mkWorldState r.2 (rollupDb w) (pipeline w) (blockBufferCache w)
         (treeLog w ++ [TreePopulateDataAndRoots accounts]) (dbLog w) (metricsLog w)
         (dates w) (pipelines w)).

Definition populateNullifierTree (accounts : list AccountData.t) : M W Buffer :=
  fun w =>
    let r := InitHelpers.populateNullifierTree accounts (worldStateDb w) NULL in
    Returned r.1
      (mkWorldState r.2 (rollupDb w) (pipeline w) (blockBufferCache w)
         (treeLog w ++ [TreePopulateNullifier accounts]) (dbLog w) (metricsLog w)
         (dates w) (pipelines w)).

Definition accountDaoOf (a : AccountData.t) : AccountDao.t :=
  {| AccountDao.aliasHash := AccountData.aliasHash (AccountData.alias a);
     AccountDao.accountPubKey := AccountData.address (AccountData.alias a);
     AccountDao.nonce := AccountData.nonce (AccountData.alias a) |}.

(** [!accountDataFile] holds of [undefined] and of the empty string. *)
Definition noAccountDataFile (accountDataFile : option string) : bool :=
  match accountDataFile with
  | None => true
  | Some f => bool_decide (f = EmptyString)
  end.

Definition syncStateFromInitFiles : M W unit :=
  let chainId := Blockchain.getChainId in
  let accountDataFile := InitHelpers.getAccountDataFile chainId in
  if noAccountDataFile accountDataFile then ret tt
  else
    let accounts := InitHelpers.readAccountTreeData (default EmptyString accountDataFile) in
    let roots := InitHelpers.getInitRoots chainId in
    let initDataRoot := InitHelpers.initDataRoot roots in
    let initNullRoot := InitHelpers.initNullRoot roots in
    let initRootsRoot := InitHelpers.initRootsRoot roots in
    if Z.of_nat (length accounts) =? 0 then ret tt
    else if (Buffer_length initDataRoot =? 0) || (Buffer_length initNullRoot =? 0)
            || (Buffer_length initRootsRoot =? 0) then ret tt
    else
      let! r := populateDataAndRootsTrees accounts in
      let dataRoot := r.1 in
      let rootsRoot := r.2 in
      let! newNullRoot := populateNullifierTree accounts in
      if negb (Buffer_equals initDataRoot dataRoot) then
        throw "New data root different to init file"
      else if negb (Buffer_equals initRootsRoot rootsRoot) then
        throw "New roots root different to init file"
      else if negb (Buffer_equals initNullRoot newNullRoot) then
        throw "New null root different to init file"
      else
        let accountDaos := map accountDaoOf accounts in
        onDb (RollupDb.addAccounts accountDaos) [DbAddAccounts accountDaos].

Fixpoint updateDbsEach (blocks : list Block.t) : M W unit :=
  match blocks with
  | [] => ret tt
  | block :: rest => updateDbs block >>; updateDbsEach rest
  end.

Definition syncStateFromBlockchain (nextRollupId : Z) : M W unit :=
  updateDbsEach (Blockchain.getBlocks nextRollupId).

Definition syncState : M W unit :=
  let! nextRollupId := readDb RollupDb.getNextRollupId in
  (if nextRollupId =? 0 then syncStateFromInitFiles else ret tt) >>;
  syncStateFromBlockchain nextRollupId >>;
  onDb RollupDb.deleteUnsettledRollups [DbDeleteUnsettledRollups] >>;
  onDb RollupDb.deleteOrphanedRollupProofs [DbDeleteOrphanedRollupProofs].

Definition startNewPipeline : M W unit :=
  fun w => Returned tt
    (mkWorldState (worldStateDb w) (rollupDb w) (Some (Env.pipelineFactory_create (pipelines w)))
       (blockBufferCache w) (treeLog w) (dbLog w) (metricsLog w) (dates w) (S (pipelines w))).

(** [await this.pipeline.stop()] *)
Definition pipeline_stop : M W unit :=
  fun w => match pipeline w with
           | Some _ => Returned tt w
           | None => Thrown "TypeError" w
           end.

Definition loadBlockBufferCache : M W unit :=
  fun w =>
    match mapM rollupDaoToBlockBuffer (RollupDb.getSettledRollups (rollupDb w) 0) with
    | Some bufs =>
        Returned tt
          (mkWorldState (worldStateDb w) (rollupDb w) (pipeline w) bufs (treeLog w) (dbLog w)
             (metricsLog w) (dates w) (pipelines w))
    | None => Thrown "rollupDaoToBlockBuffer" w
    end.

(** [start], up to the point where blocks begin to arrive; from then on
    the block queue runs [handleBlock] on each block in turn. *)
Definition start : M W unit :=
  onTrees WorldStateDb.start [] >>;
  syncState >>;
  loadBlockBufferCache >>;
  startNewPipeline.

Definition handleBlock (block : Block.t) : M W unit :=
  pipeline_stop >>;
  updateDbs block >>;
  startNewPipeline.

Definition resetPipeline : M W unit :=
  pipeline_stop >>;
  worldStateDb_rollback >>;
  onDb RollupDb.deleteUnsettledRollups [DbDeleteUnsettledRollups] >>;
  onDb RollupDb.deleteOrphanedRollupProofs [DbDeleteOrphanedRollupProofs] >>;
  onDb RollupDb.deletePendingTxs [DbDeletePendingTxs] >>;
  startNewPipeline.

End Synchronizer.

(** The object that the constructor builds: no pipeline yet, an empty block
    cache, nothing logged. *)
Definition newWorldState {T D Profile} (rollupDb : D) (worldStateDb : T)
    : WorldState T D Profile :=
  mkWorldState worldStateDb rollupDb None [] [] [] [] 0%nat 0%nat.

(** ** A tree store with a committed and a staged layer *)

(** Modelled from the spec: the implementation of [WorldStateDb] is not among
    the sources.  The spec gives each tree a size (its number of leaves) and
    a root, stages writes, lets a commit persist them and a rollback discard
    them, and lets reads see the committed state plus the staged writes; it
    proposes two layers of which readers see the union.  A [put] takes an
    absolute index, so a put at index [i] into a tree shorter than [i + 1]
    leaves makes it [i + 1] leaves long.  The hash that turns the leaves of a
    tree into its root is a parameter. *)
Module LayeredTrees.
Record Layer := mkLayer {
  leaves : gmap (Z * Z) Buffer;
  sizes : gmap Z Z }.
Record t := mk {
  committed : Layer;
  staged : Layer }.

Definition noWrites : Layer := mkLayer ∅ ∅.

Definition empty : t := mk noWrites noWrites.

Definition view (s : t) : Layer :=
  mkLayer (leaves (staged s) ∪ leaves (committed s)) (sizes (staged s) ∪ sizes (committed s)).

Definition getSize (s : t) (tree : RollupTreeId) : Z :=
  default 0 (sizes (view s) !! treeCode tree).

Definition getRoot (treeRoot : RollupTreeId -> gmap (Z * Z) Buffer -> Buffer)
    (s : t) (tree : RollupTreeId) : Buffer :=
  treeRoot tree (leaves (view s)).

Definition put (tree : RollupTreeId) (index : Z) (value : Buffer) (s : t) : t :=
  mk (committed s)
     (mkLayer (<[(treeCode tree, index) := value]> (leaves (staged s)))
              (<[treeCode tree := Z.max (getSize s tree) (index + 1)]> (sizes (staged s)))).

Definition commit (s : t) : t := mk (view s) noWrites.

Definition rollback (s : t) : t := mk (committed s) noWrites.
End LayeredTrees.

Definition layeredTrees (treeRoot : RollupTreeId -> gmap (Z * Z) Buffer -> Buffer)
    : WorldStateDb.t LayeredTrees.t :=
  {| WorldStateDb.start := fun s => s;
     WorldStateDb.getSize := LayeredTrees.getSize;
     WorldStateDb.getRoot := LayeredTrees.getRoot treeRoot;
     WorldStateDb.put := LayeredTrees.put;
     WorldStateDb.commit := LayeredTrees.commit;
     WorldStateDb.rollback := LayeredTrees.rollback |}.

(** ** A relational store of keyed tables *)

(** Modelled from the spec: the implementation of [RollupDb] is not among the
    sources.  The spec keys rollups by rollup id, rollup proofs by rollup
    hash and claims by leaf index, lets [add_rollup] store a rollup together
    with its proof and asset metrics, lets [confirm_mined] record on the
    rollup of the given id the values it is given, keeps asset metrics per
    rollup id and asset id with cumulative totals (so that the previous
    metrics of an asset are those of the latest rollup that has some), calls
    a rollup proof orphaned iff no rollup row refers to it, and makes the
    next rollup id one more than the highest settled rollup id.  Of a
    replay the spec says that its inserts are no-ops: a claim whose leaf
    index is taken and asset metrics whose rollup id and asset id are taken
    are not stored again.  [add_rollup] replaces, as the comment at its call
    says.  A tx is stored under its tx id with its rollup proof as parent: a
    rollup proof that is stored takes the txs it holds away from the rollup
    proofs that held them. *)
Module Tables.
Record t := mk {
  rollupProofs : list RollupProofDao.t;
  rollups : gmap Z RollupDao.t;
  claims : gmap Z ClaimDao.t;
  accounts : list AccountDao.t;
  pendingTxs : list TxDao.t }.

Definition empty : t := mk [] ∅ ∅ [] [].

Definition settled (dao : RollupDao.t) : bool :=
  match RollupDao.mined dao with Some _ => true | None => false end.

Definition getNextRollupId (db : t) : Z :=
  map_fold (fun id dao next => if settled dao then Z.max next (id + 1) else next) 0 (rollups db).

Definition getSettledRollups (db : t) (from : Z) : list RollupDao.t :=
  List.filter settled
    (omap (fun id => rollups db !! id) (seqZ from (getNextRollupId db - from))).

Definition getRollupProof (db : t) (hash : Buffer) (includeTxs : bool)
    : option RollupProofDao.t :=
  List.find (fun p => Buffer_equals (RollupProofDao.id p) hash) (rollupProofs db).

Definition getRollup (db : t) (id : Z) : option RollupDao.t := rollups db !! id.

(** The metrics of the asset held by the rollup of the highest id that has
    metrics for it. *)
Definition getAssetMetrics (db : t) (assetId : Z) : option AssetMetricsDao.t :=
  map_fold
    (fun _ dao best =>
       match List.find (fun m => AssetMetricsDao.assetId m =? assetId) (RollupDao.assetMetrics dao),
             best with
       | Some m, Some b =>
           if AssetMetricsDao.rollupId b <? AssetMetricsDao.rollupId m then Some m else Some b
       | Some m, None => Some m
       | None, _ => best
       end)
    None (rollups db).

(** A rollup proof without the txs of the given ids. *)
Definition withoutTxs (ids : list Buffer) (p : RollupProofDao.t) : RollupProofDao.t :=
  RollupProofDao.mk (RollupProofDao.id p)
    (List.filter (fun tx => negb (bool_decide (TxDao.id tx ∈ ids))) (RollupProofDao.txs p))
    (RollupProofDao.rollupSize p) (RollupProofDao.dataStartIndex p) (RollupProofDao.proofData p)
    (RollupProofDao.created p).

Definition putRollupProof (p : RollupProofDao.t) (l : list RollupProofDao.t)
    : list RollupProofDao.t :=
  map (withoutTxs (map TxDao.id (RollupProofDao.txs p)))
    (List.filter (fun q => negb (Buffer_equals (RollupProofDao.id q) (RollupProofDao.id p))) l)
  ++ [p].

Definition addRollup (dao : RollupDao.t) (db : t) : t :=
  mk (putRollupProof (RollupDao.rollupProof dao) (rollupProofs db))
     (<[RollupDao.id dao := dao]> (rollups db))
     (claims db) (accounts db) (pendingTxs db).

Definition minedTx (txIds : list Buffer) (mined : Date) (tx : TxDao.t) : TxDao.t :=
  if bool_decide (TxDao.id tx ∈ txIds) then
    TxDao.mk (TxDao.id tx) (TxDao.proofData tx) (TxDao.offchainTxData tx) (TxDao.nullifier1 tx)
      (TxDao.nullifier2 tx) (TxDao.created tx) (Some mined) (TxDao.txType tx) (TxDao.excessGas tx)
  else tx.

Definition minedProof (txIds : list Buffer) (mined : Date) (p : RollupProofDao.t)
    : RollupProofDao.t :=
  RollupProofDao.mk (RollupProofDao.id p) (map (minedTx txIds mined) (RollupProofDao.txs p))
    (RollupProofDao.rollupSize p) (RollupProofDao.dataStartIndex p) (RollupProofDao.proofData p)
    (RollupProofDao.created p).

(** The asset metrics of a rollup once [added] are inserted: those for an
    asset of which the rollup has metrics already are not stored. *)
Definition insertMetrics (added stored : list AssetMetricsDao.t) : list AssetMetricsDao.t :=
  fold_left
    (fun kept m =>
       if existsb (fun k => AssetMetricsDao.assetId k =? AssetMetricsDao.assetId m) kept
       then kept else kept ++ [m])
    added stored.

Definition minedRollup (gasUsed gasPrice : Z) (mined : Date) (ethTxHash : Buffer)
    (interactionResult : list DefiInteractionNote.t) (txIds : list Buffer)
    (assetMetrics : list AssetMetricsDao.t) (dao : RollupDao.t) : RollupDao.t :=
  {| RollupDao.id := RollupDao.id dao;
     RollupDao.dataRoot := RollupDao.dataRoot dao;
     RollupDao.rollupProof := minedProof txIds mined (RollupDao.rollupProof dao);
     RollupDao.ethTxHash := Some ethTxHash;
     RollupDao.mined := Some mined;
     RollupDao.created := RollupDao.created dao;
     RollupDao.interactionResult :=
       Some (Buffer_concat (map DefiInteractionNote.toBuffer interactionResult));
     RollupDao.gasPrice := Some (toBufferBE gasPrice 32);
     RollupDao.gasUsed := Some gasUsed;
     RollupDao.assetMetrics := insertMetrics assetMetrics (RollupDao.assetMetrics dao) |}.

Definition confirmMined (id gasUsed gasPrice : Z) (mined : Date) (ethTxHash : Buffer)
    (interactionResult : list DefiInteractionNote.t) (txIds : list Buffer)
    (assetMetrics : list AssetMetricsDao.t) (db : t) : option RollupDao.t * t :=
  let db' :=
    mk (map (minedProof txIds mined) (rollupProofs db))
       (alter (minedRollup gasUsed gasPrice mined ethTxHash interactionResult txIds assetMetrics)
          id (rollups db))
       (claims db) (accounts db) (pendingTxs db) in
  (rollups db' !! id, db').

Definition addClaim (claim : ClaimDao.t) (db : t) : t :=
  mk (rollupProofs db) (rollups db)
     (match claims db !! ClaimDao.id claim with
      | Some _ => claims db
      | None => <[ClaimDao.id claim := claim]> (claims db)
      end)
     (accounts db) (pendingTxs db).

Definition claimedAt (nullifier : Buffer) (mined : Date) (c : ClaimDao.t) : ClaimDao.t :=
  if Buffer_equals (ClaimDao.nullifier c) nullifier then
    ClaimDao.mk (ClaimDao.id c) (ClaimDao.nullifier c) (ClaimDao.bridgeId c)
      (ClaimDao.depositValue c) (ClaimDao.partialState c)
      (ClaimDao.partialStateSecretEphPubKey c) (ClaimDao.inputNullifier c)
      (ClaimDao.interactionNonce c) (ClaimDao.fee c) (ClaimDao.created c) (Some mined)
      (ClaimDao.interactionResultRollupId c)
  else c.

Definition confirmClaimed (nullifier : Buffer) (mined : Date) (db : t) : t :=
  mk (rollupProofs db) (rollups db) (claimedAt nullifier mined <$> claims db)
     (accounts db) (pendingTxs db).

Definition resultAt (nonce rollupId : Z) (c : ClaimDao.t) : ClaimDao.t :=
  if ClaimDao.interactionNonce c =? nonce then
    ClaimDao.mk (ClaimDao.id c) (ClaimDao.nullifier c) (ClaimDao.bridgeId c)
      (ClaimDao.depositValue c) (ClaimDao.partialState c)
      (ClaimDao.partialStateSecretEphPubKey c) (ClaimDao.inputNullifier c)
      (ClaimDao.interactionNonce c) (ClaimDao.fee c) (ClaimDao.created c) (ClaimDao.claimed c)
      (Some rollupId)
  else c.

Definition updateClaimsWithResultRollupId (nonce rollupId : Z) (db : t) : t :=
  mk (rollupProofs db) (rollups db) (resultAt nonce rollupId <$> claims db)
     (accounts db) (pendingTxs db).

Definition addAccounts (l : list AccountDao.t) (db : t) : t :=
  mk (rollupProofs db) (rollups db) (claims db) (accounts db ++ l) (pendingTxs db).

Definition deleteUnsettledRollups (db : t) : t :=
  mk (rollupProofs db) (filter (fun kv => settled kv.2 = true) (rollups db)) (claims db)
     (accounts db) (pendingTxs db).

Definition referenced (db : t) (p : RollupProofDao.t) : bool :=
  map_fold
    (fun _ dao found =>
       found || Buffer_equals (RollupProofDao.id (RollupDao.rollupProof dao)) (RollupProofDao.id p))
    false (rollups db).

Definition deleteOrphanedRollupProofs (db : t) : t :=
  mk (List.filter (referenced db) (rollupProofs db)) (rollups db) (claims db)
     (accounts db) (pendingTxs db).

Definition deletePendingTxs (db : t) : t :=
  mk (rollupProofs db) (rollups db) (claims db) (accounts db) [].
End Tables.

Definition tables : RollupDb.t Tables.t :=
  {| RollupDb.getNextRollupId := Tables.getNextRollupId;
     RollupDb.getSettledRollups := Tables.getSettledRollups;
     RollupDb.getRollupProof := Tables.getRollupProof;
     RollupDb.getRollup := Tables.getRollup;
     RollupDb.getAssetMetrics := Tables.getAssetMetrics;
     RollupDb.addClaim := Tables.addClaim;
     RollupDb.confirmClaimed := Tables.confirmClaimed;
     RollupDb.updateClaimsWithResultRollupId := Tables.updateClaimsWithResultRollupId;
     RollupDb.confirmMined := Tables.confirmMined;
     RollupDb.addRollup := Tables.addRollup;
     RollupDb.addAccounts := Tables.addAccounts;
     RollupDb.deleteUnsettledRollups := Tables.deleteUnsettledRollups;
     RollupDb.deleteOrphanedRollupProofs := Tables.deleteOrphanedRollupProofs;
     RollupDb.deletePendingTxs := Tables.deletePendingTxs |}.

(** ** Test doubles

    Stand-ins for the collaborators that the examples below run the
    synchronizer against. *)
Module Stub.

Definition Z_of_byte (b : byte) : Z := Z.of_N (Byte.to_N b).

(** A stand-in for the Merkle hash: the number of leaves written to the
    tree, on 32 bytes. *)
Definition treeRoot (tree : RollupTreeId) (leaves : gmap (Z * Z) Buffer) : Buffer :=
  toBufferBE (Z.of_nat (size (filter (fun kv => kv.1.1 = treeCode tree) leaves))) 32.

Definition blockchain : Blockchain.t :=
  {| Blockchain.getChainId := 1;
     Blockchain.getBlocks := fun _ => [];
     Blockchain.getRollupBalance := fun _ => 0 |}.

Definition noteAlgorithms : NoteAlgorithms.t :=
  {| NoteAlgorithms.claimNoteCommitment := TreeClaimNote.inputNullifier;
     NoteAlgorithms.claimNoteNullifier := fun commitment => commitment |}.

(** A two-byte off-chain encoding: the bridge id, then the tx fee. *)
Definition offchainDefiDepositData (buf : Buffer) : option OffchainDefiDepositData.t :=
  match buf with
  | [bridge; txFee] =>
      Some {| OffchainDefiDepositData.bridgeId :=
                {| BridgeId.toBuffer := [bridge];
                   BridgeId.toBigInt := Z_of_byte bridge;
                   BridgeId.outputAssetIdA := 0;
                   BridgeId.outputAssetIdB := 0 |};
              OffchainDefiDepositData.depositValue := 0;
              OffchainDefiDepositData.partialState := [];
              OffchainDefiDepositData.partialStateSecretEphPubKey := [];
              OffchainDefiDepositData.txFee := Z_of_byte txFee |}
  | _ => None
  end.

Definition txType (p : InnerProofData.t) : TxType :=
  match InnerProofData.proofId p with
  | DEPOSIT => TX_DEPOSIT
  | WITHDRAW => TX_WITHDRAW_TO_WALLET
  | ACCOUNT => TX_ACCOUNT
  | DEFI_DEPOSIT => TX_DEFI_DEPOSIT
  | DEFI_CLAIM => TX_DEFI_CLAIM
  | _ => TX_TRANSFER
  end.

Definition noTimeouts : RollupTimeouts.t :=
  {| RollupTimeouts.baseTimeout := None; RollupTimeouts.bridgeTimeouts := ∅ |}.

(** A serializer that throws where the tx hash, the rollup proof data or an
    off-chain blob is missing or the gas used does not fit 32 bits, that
    writes a missing gas used as 0, and that serializes a block to its
    rollup proof data. *)
Definition blockToBuffer (b : BlockArguments.t) : option Buffer :=
  _ ← BlockArguments.txHash b;
  _ ← mapM id (BlockArguments.offchainTxData b);
  let gasUsed := default 0 (BlockArguments.gasUsed b) in
  if (0 <=? gasUsed) && (gasUsed <? 2 ^ 32) then BlockArguments.rollupProofData b else None.

(** Every block decodes to [decoded]; four bridge calls per block; no
    interaction result is parsed out of a buffer, and [undefined] is neither
    parsed nor read as an integer. *)
Definition env (decoded : option RollupProofData.t) : Env.t unit :=
  {| Env.NUM_BRIDGE_CALLS_PER_BLOCK := 4;
     Env.RollupProofData_fromBuffer := fun _ => decoded;
     Env.getTotalDeposited := fun _ _ => 0;
     Env.getTotalWithdrawn := fun _ _ => 0;
     Env.getTotalDefiDeposit := fun _ _ => 0;
     Env.getTotalFees := fun _ _ => 0;
     Env.OffchainDefiDepositData_fromBuffer := offchainDefiDepositData;
     Env.getTxTypeFromInnerProofData := txType;
     Env.parseInteractionResult := fun packed => packed ≫= fun _ => Some [];
     Env.toBigIntBE_undefined := None;
     Env.Block_toBuffer := blockToBuffer;
     Env.dateNow := fun n => 1000 + Z.of_nat n;
     Env.pipelineFactory_create := fun _ => RollupPipeline.mk noTimeouts tt |}.

(** Init helpers that read [accounts] from [file], expect [expected] and
    compute [dataRoot], [rootsRoot] and [nullRoot] without touching the
    trees. *)
Definition initHelpers (file : option string) (accounts : list AccountData.t)
    (expected : InitHelpers.InitRoots) (dataRoot rootsRoot nullRoot : Buffer)
    : InitHelpers.t LayeredTrees.t :=
  {| InitHelpers.getAccountDataFile := fun _ => file;
     InitHelpers.readAccountTreeData := fun _ => accounts;
     InitHelpers.getInitRoots := fun _ => expected;
     InitHelpers.populateDataAndRootsTrees := fun _ t _ _ => ((dataRoot, rootsRoot), t);
     InitHelpers.populateNullifierTree := fun _ t _ => (nullRoot, t) |}.

Definition zeroNote : Buffer := Buffer_alloc 32 x00.

Definition innerProof (proofId : ProofId) (tag : byte) : InnerProofData.t :=
  {| InnerProofData.proofId := proofId;
     InnerProofData.txId := [tag];
     InnerProofData.noteCommitment1 := [tag; x01];
     InnerProofData.noteCommitment2 := [tag; x02];
     InnerProofData.nullifier1 := [tag; x03];
     InnerProofData.nullifier2 := [tag; x04];
     InnerProofData.toBuffer := [tag; tag] |}.

Definition padding : InnerProofData.t :=
  {| InnerProofData.proofId := PADDING;
     InnerProofData.txId := [x00];
     InnerProofData.noteCommitment1 := zeroNote;
     InnerProofData.noteCommitment2 := zeroNote;
     InnerProofData.nullifier1 := zeroNote;
     InnerProofData.nullifier2 := zeroNote;
     InnerProofData.toBuffer := [] |}.

Definition rollup (rollupId dataStartIndex : Z) (bridgeIds defiInteractionNotes : list Buffer)
    (innerProofData : list InnerProofData.t) : RollupProofData.t :=
  {| RollupProofData.rollupId := rollupId;
     RollupProofData.rollupHash := [xaa; byte_of_Z rollupId];
     RollupProofData.rollupSize := Z.of_nat (length innerProofData);
     RollupProofData.dataStartIndex := dataStartIndex;
     RollupProofData.newDataRoot := [x01];
     RollupProofData.newNullRoot := [x02];
     RollupProofData.newDataRootsRoot := [x03];
     RollupProofData.newDefiRoot := [x04];
     RollupProofData.bridgeIds := bridgeIds;
     RollupProofData.assetIds := [0];
     RollupProofData.defiInteractionNotes := defiInteractionNotes;
     RollupProofData.innerProofData := innerProofData |}.

Definition block (rollupId : Z) (offchainTxData : list Buffer)
    (interactionResult : list DefiInteractionNote.t) : Block.t :=
  {| Block.txHash := [xee];
     Block.created := 5000;
     Block.rollupId := rollupId;
     Block.rollupSize := 1;
     Block.rollupProofData := [xbb];
     Block.offchainTxData := offchainTxData;
     Block.interactionResult := interactionResult;
     Block.gasUsed := 1000000;
     Block.gasPrice := 30 |}.

(** A synchronizer just constructed over empty stores. *)
Definition world : WorldState LayeredTrees.t Tables.t unit :=
  newWorldState Tables.empty LayeredTrees.empty.

Definition trees : WorldStateDb.t LayeredTrees.t := layeredTrees treeRoot.

(** The scenario of a DEFI_DEPOSIT on the third of four bridges: rollup 2,
    seven padding inner proofs, then a DEFI_DEPOSIT whose off-chain data
    names the bridge [x12] and a tx fee of 10. *)
Definition bridges : list Buffer := [[x10]; [x11]; [x12]; [x13]].

Definition depositRollup : RollupProofData.t :=
  rollup 2 100 bridges (replicate 4 zeroNote)
    (replicate 7 padding ++ [innerProof DEFI_DEPOSIT x07]).

Definition depositBlock : Block.t := block 2 [[x12; x0a]] [].

(** The same deposit on a bridge that the rollup does not list. *)
Definition strayDepositBlock : Block.t := block 2 [[x77; x0a]] [].

(** A rollup of one padding inner proof and four zero defi interaction
    notes, and a block for it that carries one interaction result paying 5
    of asset 0. *)
Definition paddingRollup : RollupProofData.t :=
  rollup 2 0 bridges (replicate 4 zeroNote) [padding].

Definition interactionResult : DefiInteractionNote.t :=
  {| DefiInteractionNote.bridgeId :=
       {| BridgeId.toBuffer := [x12];
          BridgeId.toBigInt := 18;
          BridgeId.outputAssetIdA := 0;
          BridgeId.outputAssetIdB := 1 |};
     DefiInteractionNote.nonce := 8;
     DefiInteractionNote.totalInputValue := 5;
     DefiInteractionNote.totalOutputValueA := 5;
     DefiInteractionNote.totalOutputValueB := 0;
     DefiInteractionNote.result := true;
     DefiInteractionNote.toBuffer := [x12; x08; x05] |}.

Definition paddingBlock : Block.t := block 2 [] [interactionResult].

(** A rollup without inner proofs, and a block for it. *)
Definition emptyRollup : RollupProofData.t :=
  rollup 2 0 bridges (replicate 4 zeroNote) [].

Definition emptyBlock : Block.t := block 2 [] [].

(** A rollup that publishes the roots of the empty trees. *)
Definition ownRollup : RollupProofData.t :=
  {| RollupProofData.rollupId := 0;
     RollupProofData.rollupHash := [xaa; x00];
     RollupProofData.rollupSize := 1;
     RollupProofData.dataStartIndex := 0;
     RollupProofData.newDataRoot := zeroNote;
     RollupProofData.newNullRoot := zeroNote;
     RollupProofData.newDataRootsRoot := zeroNote;
     RollupProofData.newDefiRoot := zeroNote;
     RollupProofData.bridgeIds := bridges;
     RollupProofData.assetIds := [0];
     RollupProofData.defiInteractionNotes := replicate 4 zeroNote;
     RollupProofData.innerProofData := [padding] |}.

Definition ownBlock : Block.t := block 0 [] [].

(** One account, and the roots expected of the trees that hold it. *)
Definition account : AccountData.t :=
  {| AccountData.alias :=
       {| AccountData.aliasHash := [xa1]; AccountData.address := [xa2];
          AccountData.nonce := 1 |} |}.

Definition initRoots : InitHelpers.InitRoots :=
  {| InitHelpers.initDataRoot := [xd1];
     InitHelpers.initNullRoot := [xd2];
     InitHelpers.initRootsRoot := [xd3] |}.

End Stub.

(** ** Vocabulary of the properties *)

(** The inner proofs that are not padding, in order. *)
Definition nonPadding (proofs : list InnerProofData.t) : list InnerProofData.t :=
  List.filter (fun tx => negb (InnerProofData.isPadding tx)) proofs.

(** The number of inner proofs before position [n] that are not padding. *)
Definition offChainIndexAt (proofs : list InnerProofData.t) (n : nat) : nat :=
  length (nonPadding (take n proofs)).

(** The claims of id [id] among the [addClaim] calls of a log. *)
Definition claimsWithId (id : Z) (calls : list DbCall) : list ClaimDao.t :=
  omap (fun c => match c with
                 | DbAddClaim claim => if ClaimDao.id claim =? id then Some claim else None
                 | _ => None
                 end) calls.

(** The writes of leaves into the tree [tree] in a log, as index and value. *)
Definition putsInto (tree : RollupTreeId) (calls : list TreeCall) : list (Z * Buffer) :=
  omap (fun c => match c with
                 | TreePut t index value =>
                     if bool_decide (t = tree) then Some (index, value) else None
                 | _ => None
                 end) calls.

Definition isTreePut (c : TreeCall) : bool :=
  match c with TreePut _ _ _ => true | _ => false end.

(** The durations that tracking the settlement of [txs] emits: one for each
    inner proof that is not padding and whose tx id is that of one of [txs]. *)
Definition settlementDurations (block : Block.t) (txs : list TxDao.t)
    (proofs : list InnerProofData.t) : list MetricsCall :=
  omap
    (fun inner =>
       (fun tx => TxSettlementDuration (Block.created block - TxDao.created tx))
         <$> List.find (fun tx => Buffer_equals (TxDao.id tx) (InnerProofData.txId inner)) txs)
    (nonPadding proofs).

(** The tree writes that [addRollupToWorldState] makes for a nullifier, for
    the inner proof at position [n], and for the defi interaction note at
    position [n]. *)
Definition nullifierWrites (nullifier : Buffer) : list TreeCall :=
  if toBigIntBE nullifier =? 0 then []
  else [TreePut NULL (toBigIntBE nullifier) (toBufferBE 1 32)].

(** The leaf that a nullifier puts into the NULL tree, if any. *)
Definition nullifierLeaf (nullifier : Buffer) : list (Z * Buffer) :=
  if toBigIntBE nullifier =? 0 then [] else [(toBigIntBE nullifier, toBufferBE 1 32)].

Definition innerProofWritesAt (dataStartIndex n : Z) (tx : InnerProofData.t) : list TreeCall :=
  [TreePut DATA (dataStartIndex + n * 2) (InnerProofData.noteCommitment1 tx);
   TreePut DATA (dataStartIndex + n * 2 + 1) (InnerProofData.noteCommitment2 tx)]
  ++ (if InnerProofData.isPadding tx then []
      else nullifierWrites (InnerProofData.nullifier1 tx)
           ++ nullifierWrites (InnerProofData.nullifier2 tx)).

Definition innerProofWrites (dataStartIndex i : Z) (proofs : list InnerProofData.t)
    : list TreeCall :=
  concat (imap (fun n tx => innerProofWritesAt dataStartIndex (i + Z.of_nat n) tx) proofs).

Definition defiNoteWritesAt (interactionNoteStartIndex n : Z) (note : Buffer) : list TreeCall :=
  if bool_decide (note = []) then [] else [TreePut DEFI (interactionNoteStartIndex + n) note].

Definition defiNoteWrites (interactionNoteStartIndex i : Z) (notes : list Buffer)
    : list TreeCall :=
  concat (imap (fun n note => defiNoteWritesAt interactionNoteStartIndex (i + Z.of_nat n) note)
            notes).

Section Vocabulary.

Context {T D Profile : Type}.
Context {treeDb : WorldStateDb.t T} {env : Env.t Profile}.

Abbreviation W := (WorldState T D Profile).

(** Every DEFI_DEPOSIT among [proofs] finds a blob that decodes at its
    off-chain index, counted from [offChainIndex]. *)
Fixpoint defiBlobsReadable (offchainTxData : list Buffer) (proofs : list InnerProofData.t)
    (offChainIndex : nat) : bool :=
  match proofs with
  | [] => true
  | p :: rest =>
      if InnerProofData.isPadding p then defiBlobsReadable offchainTxData rest offChainIndex
      else
        (if bool_decide (InnerProofData.proofId p = DEFI_DEPOSIT)
         then bool_decide (is_Some (readOffchainDefiDepositData offchainTxData offChainIndex))
         else true)
        && defiBlobsReadable offchainTxData rest (S offChainIndex)
  end.

(** A computation that leaves the tree store and its log as they are. *)
Definition keepsTrees {A} (c : M W A) : Prop :=
  forall w, worldStateDb (final (c w)) = worldStateDb w /\ treeLog (final (c w)) = treeLog w.

(** The tree store after the writes of a log; the calls of the init helpers
    are not writes of the synchronizer and count for nothing here. *)
Definition applyWrites (calls : list TreeCall) (t : T) : T :=
  fold_left
    (fun t call =>
       match call with
       | TreePut tree index value => WorldStateDb.put tree index value t
       | TreeCommit => WorldStateDb.commit t
       | TreeRollback => WorldStateDb.rollback t
       | _ => t
       end)
    calls t.

(** A computation that returns from every state, that logs its calls on the
    tree store, and that changes the tree store by these calls only. *)
Definition tracksTrees {A} (c : M W A) : Prop :=
  forall w, exists a w' calls,
    c w = Returned a w'
    /\ treeLog w' = treeLog w ++ calls
    /\ worldStateDb w' = applyWrites calls (worldStateDb w).

End Vocabulary.

(** ** Further vocabulary *)

(** The claims of the [addClaim] calls of a log, the nullifiers and times of
    its [confirmClaimed] calls, and the nonces and rollup ids of its
    [updateClaimsWithResultRollupId] calls. *)
Definition addedClaims (calls : list DbCall) : list ClaimDao.t :=
  omap (fun c => match c with DbAddClaim claim => Some claim | _ => None end) calls.

Definition confirmedClaims (calls : list DbCall) : list (Buffer * Date) :=
  omap (fun c => match c with
                 | DbConfirmClaimed nullifier mined => Some (nullifier, mined)
                 | _ => None
                 end) calls.

Definition resultUpdates (calls : list DbCall) : list (Z * Z) :=
  omap (fun c => match c with
                 | DbUpdateClaimsWithResultRollupId nonce rollupId => Some (nonce, rollupId)
                 | _ => None
                 end) calls.

(** The calls on the relational store and on the tree store that the
    processing of a block is made of. *)
Definition isBlockDbCall (c : DbCall) : bool :=
  match c with
  | DbAddClaim _ | DbConfirmClaimed _ _ | DbUpdateClaimsWithResultRollupId _ _
  | DbConfirmMined _ _ _ _ _ _ _ _ | DbAddRollup _ => true
  | _ => false
  end.

Definition isTreeWrite (c : TreeCall) : bool :=
  match c with
  | TreePut _ _ _ | TreeCommit | TreeRollback => true
  | _ => false
  end.

Definition isDefiDeposit (p : InnerProofData.t) : bool :=
  bool_decide (InnerProofData.proofId p = DEFI_DEPOSIT).

Definition isDefiClaim (p : InnerProofData.t) : bool :=
  bool_decide (InnerProofData.proofId p = DEFI_CLAIM).

Section FurtherVocabulary.

Context {T D Profile : Type}.

Abbreviation W := (WorldState T D Profile).

(** A computation that leaves the block cache as it is. *)
Definition keepsCache {A} (c : M W A) : Prop :=
  forall w, blockBufferCache (final (c w)) = blockBufferCache w.

(** A computation that leaves the pipeline alone and whose calls on the two
    stores are among those that make up the processing of a block. *)
Definition blockStep {A} (c : M W A) : Prop :=
  forall w,
    pipeline (final (c w)) = pipeline w
    /\ pipelines (final (c w)) = pipelines w
    /\ exists treeCalls dbCalls,
         treeLog (final (c w)) = treeLog w ++ treeCalls
         /\ dbLog (final (c w)) = dbLog w ++ dbCalls
         /\ Forall (fun call => isTreeWrite call = true) treeCalls
         /\ Forall (fun call => isBlockDbCall call = true) dbCalls.

(** Every claim of the nullifier is marked as claimed at the given time, and
    every claim of the interaction nonce carries the given rollup id as that
    of its result. *)
Definition claimedAll (nullifier : Buffer) (mined : Date) (claims : gmap Z ClaimDao.t) : Prop :=
  forall id claim,
    claims !! id = Some claim -> ClaimDao.nullifier claim = nullifier ->
    ClaimDao.claimed claim = Some mined.

Definition resultAll (nonce rollupId : Z) (claims : gmap Z ClaimDao.t) : Prop :=
  forall id claim,
    claims !! id = Some claim -> ClaimDao.interactionNonce claim = nonce ->
    ClaimDao.interactionResultRollupId claim = Some rollupId.

(** A computation that returns from every state and changes nothing but the
    tree store and its log. *)
Definition onlyTrees {A} (c : M W A) : Prop :=
  forall w, exists a t calls,
    c w = Returned a
            (mkWorldState t (rollupDb w) (pipeline w) (blockBufferCache w) calls (dbLog w)
               (metricsLog w) (dates w) (pipelines w)).

End FurtherVocabulary.

(** Further stand-ins: a chain that holds [blocks] and serves them whatever
    the rollup id asked from, and an interaction result that pays 7 of
    asset 1 and 3 of asset 0. *)
Module Scenario.

Definition blockchain (blocks : list Block.t) : Blockchain.t :=
  {| Blockchain.getChainId := 1;
     Blockchain.getBlocks := fun _ => blocks;
     Blockchain.getRollupBalance := fun _ => 0 |}.

Definition otherResult : DefiInteractionNote.t :=
  {| DefiInteractionNote.bridgeId :=
       {| BridgeId.toBuffer := [x13];
          BridgeId.toBigInt := 19;
          BridgeId.outputAssetIdA := 1;
          BridgeId.outputAssetIdB := 0 |};
     DefiInteractionNote.nonce := 9;
     DefiInteractionNote.totalInputValue := 10;
     DefiInteractionNote.totalOutputValueA := 7;
     DefiInteractionNote.totalOutputValueB := 3;
     DefiInteractionNote.result := true;
     DefiInteractionNote.toBuffer := [x13; x09; x0a] |}.

(** The block of the deposit rollup as it arrives a second time, a second
    later, and the rollup proof that the relational store holds by then. *)
Definition laterDepositBlock : Block.t :=
  {| Block.txHash := [xee];
     Block.created := 6000;
     Block.rollupId := 2;
     Block.rollupSize := 1;
     Block.rollupProofData := [xbb];
     Block.offchainTxData := [[x12; x0a]];
     Block.interactionResult := [];
     Block.gasUsed := 1000000;
     Block.gasPrice := 30 |}.

Definition depositProof : RollupProofDao.t :=
  {| RollupProofDao.id := [xaa; x02];
     RollupProofDao.txs :=
       [innerProofDataToTxDao (Stub.innerProof DEFI_DEPOSIT x07) (Some [x12; x0a]) 5000
          TX_DEFI_DEPOSIT];
     RollupProofDao.rollupSize := 8;
     RollupProofDao.dataStartIndex := 100;
     RollupProofDao.proofData := Some [xbb];
     RollupProofDao.created := 5000 |}.

(** A rollup of two DEFI_DEPOSITs. *)
Definition twoDepositsRollup : RollupProofData.t :=
  Stub.rollup 2 100 Stub.bridges (replicate 4 Stub.zeroNote)
    [Stub.innerProof DEFI_DEPOSIT x07; Stub.innerProof DEFI_DEPOSIT x08].

(** The rollup after the deposit rollup: a DEFI_CLAIM that spends the claim
    of that deposit, then a DEFI_DEPOSIT on the same bridge; and its block,
    which carries the result of the interaction of nonce 10 and one
    off-chain blob per inner proof. *)
Definition claimRollup : RollupProofData.t :=
  Stub.rollup 3 116 Stub.bridges (replicate 4 Stub.zeroNote)
    [Stub.innerProof DEFI_CLAIM x07; Stub.innerProof DEFI_DEPOSIT x09].

Definition depositResult : DefiInteractionNote.t :=
  {| DefiInteractionNote.bridgeId :=
       {| BridgeId.toBuffer := [x12];
          BridgeId.toBigInt := 18;
          BridgeId.outputAssetIdA := 0;
          BridgeId.outputAssetIdB := 1 |};
     DefiInteractionNote.nonce := 10;
     DefiInteractionNote.totalInputValue := 5;
     DefiInteractionNote.totalOutputValueA := 5;
     DefiInteractionNote.totalOutputValueB := 0;
     DefiInteractionNote.result := true;
     DefiInteractionNote.toBuffer := [x12; x0a; x05] |}.

Definition claimBlock : Block.t :=
  {| Block.txHash := [xef];
     Block.created := 7000;
     Block.rollupId := 3;
     Block.rollupSize := 2;
     Block.rollupProofData := [xbc];
     Block.offchainTxData := [[x00; x00]; [x12; x0a]];
     Block.interactionResult := [depositResult];
     Block.gasUsed := 1000000;
     Block.gasPrice := 30 |}.

(** Init helpers that have an account data file, one account and roots that
    the trees would match. *)
Definition initFiles : InitHelpers.t LayeredTrees.t :=
  Stub.initHelpers (Some "accounts"%string) [Stub.account] Stub.initRoots [xd1] [xd3] [xd2].

(** Init helpers for a chain that has no account data file. *)
Definition noInitFiles : InitHelpers.t LayeredTrees.t :=
  Stub.initHelpers None [] Stub.initRoots [] [] [].

End Scenario.

(** * Properties *)

Section Properties.

Context {T D Profile : Type}.
Context {treeDb : WorldStateDb.t T} {relDb : RollupDb.t D} {chain : Blockchain.t}
        {noteAlgo : NoteAlgorithms.t} {initHelpers : InitHelpers.t T} {env : Env.t Profile}.

Abbreviation W := (WorldState T D Profile).

(** ** Sequencing *)

Lemma bind_Returned {A B} (c : M W A) (k : A -> M W B) w a w' :
  c w = Returned a w' -> bind c k w = k a w'.
Proof. intros Hc. unfold bind. now rewrite Hc. Qed.

Lemma bind_Thrown {A B} (c : M W A) (k : A -> M W B) w e w' :
  c w = Thrown e w' -> bind c k w = Thrown e w'.
Proof. intros Hc. unfold bind. now rewrite Hc. Qed.

Lemma keepsTrees_ret {A} (a : A) : keepsTrees (ret a : M W A).
Proof. intros w. now split. Qed.

Lemma keepsTrees_throw {A} e : keepsTrees (throw e : M W A).
Proof. intros w. now split. Qed.

Lemma keepsTrees_bind {A B} (c : M W A) (k : A -> M W B) :
  keepsTrees c -> (forall a, keepsTrees (k a)) -> keepsTrees (bind c k).
Proof.
  intros Hc Hk w. unfold bind. specialize (Hc w).
  destruct (c w) as [a w1|e w1]; simpl in Hc.
  - destruct Hc as [Hc1 Hc2], (Hk a w1) as [Hk1 Hk2]. split; congruence.
  - exact Hc.
Qed.

Lemma keepsTrees_onDb f calls : keepsTrees (onDb f calls : M W unit).
Proof. intros w. now split. Qed.

Lemma keepsTrees_onMetrics call : keepsTrees (onMetrics call : M W unit).
Proof. intros w. now split. Qed.

Lemma keepsTrees_readDb {A} (f : D -> A) : keepsTrees (readDb f : M W A).
Proof. intros w. now split. Qed.

Lemma keepsTrees_newDate : keepsTrees (newDate : M W Date).
Proof. intros w. now split. Qed.

Lemma keepsTrees_pushBlockBuffer buf : keepsTrees (pushBlockBuffer buf : M W unit).
Proof. intros w. now split. Qed.

Lemma keepsTrees_confirmMined id gasUsed gasPrice mined ethTxHash ir txIds am :
  keepsTrees (rollupDb_confirmMined id gasUsed gasPrice mined ethTxHash ir txIds am : M W _).
Proof. intros w. now split. Qed.

Create HintDb frame.

#[local] Hint Resolve keepsTrees_ret keepsTrees_throw keepsTrees_bind keepsTrees_onDb
  keepsTrees_onMetrics keepsTrees_readDb keepsTrees_newDate keepsTrees_pushBlockBuffer
  keepsTrees_confirmMined : frame.

Lemma keepsTrees_processDefiProof rollup offchainTxData block proofData i k :
  keepsTrees (processDefiProof rollup offchainTxData block proofData i k : M W unit).
Proof.
  unfold processDefiProof.
  destruct (InnerProofData.proofId proofData); auto with frame.
  destruct (readOffchainDefiDepositData offchainTxData k); auto with frame.
Qed.

Lemma keepsTrees_processInnerProofs rollup offchainTxData block proofs :
  forall i k, keepsTrees (processInnerProofs rollup offchainTxData block proofs i k : M W unit).
Proof.
  induction proofs as [|p rest IH]; intros i k; simpl.
  - auto with frame.
  - destruct (InnerProofData.isPadding p); [apply IH|].
    apply keepsTrees_bind; [apply keepsTrees_processDefiProof|auto].
Qed.

Lemma keepsTrees_updateClaimsWithResults rollupId results :
  keepsTrees (updateClaimsWithResults rollupId results : M W unit).
Proof. induction results as [|r rest IH]; simpl; auto with frame. Qed.

Lemma keepsTrees_processDefiProofs rollup offchainTxData block :
  keepsTrees (processDefiProofs rollup offchainTxData block : M W unit).
Proof.
  unfold processDefiProofs. apply keepsTrees_bind.
  - apply keepsTrees_processInnerProofs.
  - intros _. apply keepsTrees_updateClaimsWithResults.
Qed.

Lemma keepsTrees_trackSettlementTimes block txs proofs :
  keepsTrees (trackSettlementTimes block txs proofs : M W unit).
Proof.
  induction proofs as [|p rest IH]; simpl; auto with frame.
  apply keepsTrees_bind; [|auto].
  destruct (InnerProofData.isPadding p); auto with frame.
  destruct (List.find _ txs); auto with frame.
Qed.

Lemma keepsTrees_confirmOrAddRollupToDb rollup offchainTxData block :
  keepsTrees (confirmOrAddRollupToDb rollup offchainTxData block : M W unit).
Proof.
  unfold confirmOrAddRollupToDb.
  apply keepsTrees_bind; [auto with frame|]. intros am.
  apply keepsTrees_bind; [auto with frame|]. intros [rp|].
  - apply keepsTrees_bind.
    + apply keepsTrees_bind; [auto with frame|]. intros dao.
      apply keepsTrees_bind; [apply keepsTrees_trackSettlementTimes|auto with frame].
    + intros _. apply keepsTrees_bind; [auto with frame|]. intros dao.
      destruct (dao ≫= rollupDaoToBlockBuffer); auto with frame.
  - apply keepsTrees_bind; [auto with frame|].
    intros _. apply keepsTrees_bind; [auto with frame|]. intros dao.
    destruct (dao ≫= rollupDaoToBlockBuffer); auto with frame.
Qed.

Lemma final_bind_keepsTrees {A B} (c : M W A) (k : A -> M W B) :
  (forall a, keepsTrees (k a)) ->
  forall w, worldStateDb (final (bind c k w)) = worldStateDb (final (c w))
            /\ treeLog (final (bind c k w)) = treeLog (final (c w)).
Proof.
  intros Hk w. unfold bind. destruct (c w) as [a w1|e w1]; simpl; [apply Hk|now split].
Qed.

Lemma rootsMatch_true rollup (t : T) :
  rootsMatch rollup t = true <->
  RollupProofData.newDataRoot rollup = WorldStateDb.getRoot t DATA
  /\ RollupProofData.newNullRoot rollup = WorldStateDb.getRoot t NULL
  /\ RollupProofData.newDataRootsRoot rollup = WorldStateDb.getRoot t ROOT
  /\ RollupProofData.newDefiRoot rollup = WorldStateDb.getRoot t DEFI.
Proof.
  unfold rootsMatch, Buffer_equals.
  rewrite !andb_true_iff, !bool_decide_eq_true. tauto.
Qed.

(** The tree phase of [updateDbs] decides what the trees and their log look
    like when [updateDbs] ends. *)
Lemma updateDbs_trees block rollup (w : W) :
  Env.RollupProofData_fromBuffer (Block.rollupProofData block) = Some rollup ->
  let reconcile : M W unit :=
    let! ours := readTrees (rootsMatch rollup) in
    if ours then worldStateDb_commit
    else worldStateDb_rollback >>; addRollupToWorldState rollup in
  worldStateDb (final (updateDbs block w)) = worldStateDb (final (reconcile w))
  /\ treeLog (final (updateDbs block w)) = treeLog (final (reconcile w)).
Proof.
  intros Hdec reconcile. unfold updateDbs. rewrite Hdec.
  apply final_bind_keepsTrees. intros _.
  apply keepsTrees_bind; [apply keepsTrees_processDefiProofs|].
  intros _. apply keepsTrees_confirmOrAddRollupToDb.
Qed.

(** C1. For a block that decodes to [rollup]: if the four new roots of the
    rollup equal the current roots of the DATA, NULL, ROOT and DEFI trees,
    [updateDbs] calls [commit] on the tree store and makes no other call on
    it (no leaf is written); otherwise it calls [rollback] and then runs
    [addRollupToWorldState] on the rollup, from the rolled-back state. *)
Theorem updateDbs_commit_or_apply block rollup (w : W) :
  Env.RollupProofData_fromBuffer (Block.rollupProofData block) = Some rollup ->
  let ours :=
    RollupProofData.newDataRoot rollup = WorldStateDb.getRoot (worldStateDb w) DATA
    /\ RollupProofData.newNullRoot rollup = WorldStateDb.getRoot (worldStateDb w) NULL
    /\ RollupProofData.newDataRootsRoot rollup = WorldStateDb.getRoot (worldStateDb w) ROOT
    /\ RollupProofData.newDefiRoot rollup = WorldStateDb.getRoot (worldStateDb w) DEFI in
  let w' := final (updateDbs block w) in
  (ours ->
     treeLog w' = treeLog w ++ [TreeCommit]
     /\ worldStateDb w' = WorldStateDb.commit (worldStateDb w))
  /\ (~ ours ->
      let w1 := final (worldStateDb_rollback w) in
      let w2 := final (addRollupToWorldState rollup w1) in
      treeLog w1 = treeLog w ++ [TreeRollback]
      /\ worldStateDb w1 = WorldStateDb.rollback (worldStateDb w)
      /\ treeLog w' = treeLog w2
      /\ worldStateDb w' = worldStateDb w2).
Proof.
  intros Hdec ours w'. subst w'.
  destruct (updateDbs_trees block rollup w Hdec) as [Ht Hl].
  rewrite Ht, Hl. clear Ht Hl.
  unfold bind, readTrees. split.
  - intros Hours. apply rootsMatch_true in Hours. rewrite Hours. now split.
  - intros Hnot.
    destruct (rootsMatch rollup (worldStateDb w)) eqn:E.
    + exfalso. apply Hnot. now apply rootsMatch_true.
    + simpl. repeat split.
Qed.

(** C9. While no pipeline has been created, [getNextPublishTime] does not
    throw and answers the default timeouts, with no base timeout and no
    bridge timeouts, whereas [getTxPoolProfile] throws on the missing
    pipeline. *)
Theorem getNextPublishTime_without_pipeline (w : W) :
  pipeline w = None ->
  getNextPublishTime w
  = {| RollupTimeouts.baseTimeout := None; RollupTimeouts.bridgeTimeouts := ∅ |}
  /\ getTxPoolProfile w = Thrown "TypeError" w.
Proof.
  intros Hp. unfold getNextPublishTime, getTxPoolProfile. now rewrite Hp.
Qed.

(** ** [addRollupToWorldState] *)

Lemma innerProofWrites_cons dataStartIndex i tx rest :
  innerProofWrites dataStartIndex i (tx :: rest)
  = innerProofWritesAt dataStartIndex i tx ++ innerProofWrites dataStartIndex (i + 1) rest.
Proof.
  unfold innerProofWrites. rewrite imap_cons. cbn [concat].
  change (Z.of_nat 0) with 0. rewrite Z.add_0_r. f_equal. f_equal.
  apply imap_ext. intros n x _. unfold compose. f_equal. lia.
Qed.

Lemma defiNoteWrites_cons start i note rest :
  defiNoteWrites start i (note :: rest)
  = defiNoteWritesAt start i note ++ defiNoteWrites start (i + 1) rest.
Proof.
  unfold defiNoteWrites. rewrite imap_cons. cbn [concat].
  change (Z.of_nat 0) with 0. rewrite Z.add_0_r. f_equal. f_equal.
  apply imap_ext. intros n x _. unfold compose. f_equal. lia.
Qed.

Ltac case_empty note :=
  let E := fresh "E" in
  destruct (decide (note = [])) as [E|E];
  [rewrite !bool_decide_eq_true_2 by exact E | rewrite !bool_decide_eq_false_2 by exact E].

Lemma bind_readTrees {A B} (f : T -> A) (k : A -> M W B) (w : W) :
  bind (readTrees f) k w = k (f (worldStateDb w)) w.
Proof. reflexivity. Qed.

Lemma bind_readDb {A B} (f : D -> A) (k : A -> M W B) (w : W) :
  bind (readDb f) k w = k (f (rollupDb w)) w.
Proof. reflexivity. Qed.

Lemma onTrees_eq f calls (w : W) :
  exists w', onTrees f calls w = Returned tt w'
             /\ worldStateDb w' = f (worldStateDb w)
             /\ treeLog w' = treeLog w ++ calls.
Proof. eexists. repeat split. Qed.

Lemma putNullifier_log nullifier (w : W) :
  exists w', putNullifier nullifier w = Returned tt w'
             /\ treeLog w' = treeLog w ++ nullifierWrites nullifier.
Proof.
  unfold putNullifier, nullifierWrites.
  destruct (toBigIntBE nullifier =? 0).
  - exists w. split; [reflexivity|]. now rewrite app_nil_r.
  - eexists. split; reflexivity.
Qed.

Lemma putInnerProofs_log dataStartIndex proofs :
  forall i (w : W),
  exists w', putInnerProofs dataStartIndex proofs i w = Returned tt w'
             /\ treeLog w' = treeLog w ++ innerProofWrites dataStartIndex i proofs.
Proof.
  induction proofs as [|tx rest IH]; intros i w.
  - exists w. split; [reflexivity|]. unfold innerProofWrites. simpl. now rewrite app_nil_r.
  - simpl putInnerProofs.
    destruct (onTrees_eq (WorldStateDb.put DATA (dataStartIndex + i * 2)
                (InnerProofData.noteCommitment1 tx))
                [TreePut DATA (dataStartIndex + i * 2) (InnerProofData.noteCommitment1 tx)] w)
      as (w1 & E1 & _ & L1).
    destruct (onTrees_eq (WorldStateDb.put DATA (dataStartIndex + i * 2 + 1)
                (InnerProofData.noteCommitment2 tx))
                [TreePut DATA (dataStartIndex + i * 2 + 1) (InnerProofData.noteCommitment2 tx)] w1)
      as (w2 & E2 & _ & L2).
    unfold worldStateDb_put.
    rewrite (bind_Returned _ _ _ _ _ E1), (bind_Returned _ _ _ _ _ E2).
    assert (exists w3,
      (if negb (InnerProofData.isPadding tx)
       then putNullifier (InnerProofData.nullifier1 tx) >>;
            putNullifier (InnerProofData.nullifier2 tx)
       else ret tt) w2 = Returned tt w3
      /\ treeLog w3 = treeLog w2
           ++ (if InnerProofData.isPadding tx then []
               else nullifierWrites (InnerProofData.nullifier1 tx)
                    ++ nullifierWrites (InnerProofData.nullifier2 tx))) as (w3 & E3 & L3).
    { destruct (InnerProofData.isPadding tx); simpl.
      - exists w2. split; [reflexivity|]. now rewrite app_nil_r.
      - destruct (putNullifier_log (InnerProofData.nullifier1 tx) w2) as (wa & Ea & La).
        destruct (putNullifier_log (InnerProofData.nullifier2 tx) wa) as (wb & Eb & Lb).
        exists wb. rewrite (bind_Returned _ _ _ _ _ Ea). split; [exact Eb|].
        rewrite Lb, La. now rewrite app_assoc. }
    rewrite (bind_Returned _ _ _ _ _ E3).
    destruct (IH (i + 1) w3) as (w4 & E4 & L4).
    exists w4. split; [exact E4|].
    rewrite L4, L3, L2, L1, innerProofWrites_cons. unfold innerProofWritesAt.
    rewrite <- !app_assoc. reflexivity.
Qed.

Lemma putDefiInteractionNotes_log start notes :
  forall i (w : W),
  exists w', putDefiInteractionNotes start notes i w = Returned tt w'
             /\ treeLog w' = treeLog w ++ defiNoteWrites start i notes.
Proof.
  induction notes as [|note rest IH]; intros i w.
  - exists w. split; [reflexivity|]. unfold defiNoteWrites. simpl. now rewrite app_nil_r.
  - simpl putDefiInteractionNotes.
    assert (exists w1,
      (if Buffer_equals note (Buffer_alloc 0 x20) then ret tt
       else worldStateDb_put DEFI (start + i) note) w = Returned tt w1
      /\ treeLog w1 = treeLog w ++ defiNoteWritesAt start i note) as (w1 & E1 & L1).
    { unfold defiNoteWritesAt, Buffer_equals, Buffer_alloc.
      change (replicate 0 x20) with (@nil byte).
      case_empty note.
      - exists w. split; [reflexivity|]. now rewrite app_nil_r.
      - eexists. split; reflexivity. }
    rewrite (bind_Returned _ _ _ _ _ E1).
    destruct (IH (i + 1) w1) as (w2 & E2 & L2).
    exists w2. split; [exact E2|].
    rewrite L2, L1, defiNoteWrites_cons, <- app_assoc. reflexivity.
Qed.

(** What [addRollupToWorldState] does to the log of the tree store. *)
Lemma addRollupToWorldState_log rollup (w : W) :
  let dataStartIndex := RollupProofData.dataStartIndex rollup in
  let rollupId := RollupProofData.rollupId rollup in
  if WorldStateDb.getSize (worldStateDb w) DATA >? dataStartIndex then
    addRollupToWorldState rollup w = Returned tt w
  else
    exists w' dataRoot,
      addRollupToWorldState rollup w = Returned tt w'
      /\ treeLog w' =
           treeLog w
           ++ innerProofWrites dataStartIndex 0 (RollupProofData.innerProofData rollup)
           ++ [TreePut ROOT (rollupId + 1) dataRoot]
           ++ defiNoteWrites (rollupId * Env.NUM_BRIDGE_CALLS_PER_BLOCK) 0
                (RollupProofData.defiInteractionNotes rollup)
           ++ [TreeCommit].
Proof.
  intros dataStartIndex rollupId. unfold addRollupToWorldState.
  fold dataStartIndex rollupId. rewrite bind_readTrees.
  destruct (WorldStateDb.getSize (worldStateDb w) DATA >? dataStartIndex); [reflexivity|].
  destruct (putInnerProofs_log dataStartIndex (RollupProofData.innerProofData rollup) 0 w)
    as (w1 & E1 & L1).
  rewrite (bind_Returned _ _ _ _ _ E1).
  rewrite (bind_Returned _ _ w1 tt
             (final (worldStateDb_put ROOT (rollupId + 1)
                       (WorldStateDb.getRoot (worldStateDb w1) DATA) w1))) by reflexivity.
  unfold worldStateDb_put.
  destruct (onTrees_eq (WorldStateDb.put ROOT (rollupId + 1) (WorldStateDb.getRoot (worldStateDb w1) DATA))
              [TreePut ROOT (rollupId + 1) (WorldStateDb.getRoot (worldStateDb w1) DATA)] w1)
    as (w2 & E2 & _ & L2).
  rewrite E2. cbn [final].
  destruct (putDefiInteractionNotes_log (rollupId * Env.NUM_BRIDGE_CALLS_PER_BLOCK)
              (RollupProofData.defiInteractionNotes rollup) 0 w2) as (w3 & E3 & L3).
  rewrite (bind_Returned _ _ _ _ _ E3).
  eexists _, (WorldStateDb.getRoot (worldStateDb w1) DATA). split; [reflexivity|].
  simpl. rewrite L3, L2, L1, <- !app_assoc. reflexivity.
Qed.

Lemma putsInto_app tree l1 l2 :
  putsInto tree (l1 ++ l2) = putsInto tree l1 ++ putsInto tree l2.
Proof. apply omap_app. Qed.

Lemma putsInto_nullifierWrites_DATA nullifier : putsInto DATA (nullifierWrites nullifier) = [].
Proof. unfold nullifierWrites. now destruct (toBigIntBE nullifier =? 0). Qed.

Lemma putsInto_DATA_innerProofWrites dataStartIndex proofs :
  forall i,
  putsInto DATA (innerProofWrites dataStartIndex i proofs)
  = concat (imap (fun n tx =>
                    [(dataStartIndex + 2 * (i + Z.of_nat n), InnerProofData.noteCommitment1 tx);
                     (dataStartIndex + 2 * (i + Z.of_nat n) + 1,
                      InnerProofData.noteCommitment2 tx)]) proofs).
Proof.
  induction proofs as [|tx rest IH]; intros i; [reflexivity|].
  rewrite innerProofWrites_cons, putsInto_app, IH, imap_cons. cbn [concat].
  unfold innerProofWritesAt. rewrite putsInto_app.
  replace (putsInto DATA (if InnerProofData.isPadding tx then []
             else nullifierWrites (InnerProofData.nullifier1 tx)
                  ++ nullifierWrites (InnerProofData.nullifier2 tx))) with (@nil (Z * Buffer)).
  2:{ destruct (InnerProofData.isPadding tx); [reflexivity|].
      now rewrite putsInto_app, !putsInto_nullifierWrites_DATA. }
  cbn [putsInto omap list_omap bool_decide decide_rel RollupTreeId_eq_dec app].
  change (Z.of_nat 0) with 0. rewrite Z.add_0_r.
  replace (dataStartIndex + i * 2) with (dataStartIndex + 2 * i) by lia.
  simpl. f_equal. f_equal. f_equal.
  apply imap_ext. intros n x _. unfold compose.
  replace (i + Z.of_nat (S n)) with (i + 1 + Z.of_nat n) by lia. reflexivity.
Qed.

Lemma putsInto_DATA_defiNoteWrites start notes :
  forall i, putsInto DATA (defiNoteWrites start i notes) = [].
Proof.
  induction notes as [|note rest IH]; intros i; [reflexivity|].
  rewrite defiNoteWrites_cons, putsInto_app, IH. unfold defiNoteWritesAt.
  case_empty note; reflexivity.
Qed.

Lemma putsInto_NULL_nullifierWrites nullifier :
  putsInto NULL (nullifierWrites nullifier) = nullifierLeaf nullifier.
Proof. unfold nullifierWrites, nullifierLeaf. now destruct (toBigIntBE nullifier =? 0). Qed.

Lemma putsInto_NULL_innerProofWrites dataStartIndex proofs :
  forall i,
  putsInto NULL (innerProofWrites dataStartIndex i proofs)
  = flat_map (fun tx => nullifierLeaf (InnerProofData.nullifier1 tx)
                        ++ nullifierLeaf (InnerProofData.nullifier2 tx))
      (nonPadding proofs).
Proof.
  induction proofs as [|tx rest IH]; intros i; [reflexivity|].
  rewrite innerProofWrites_cons, putsInto_app, IH.
  unfold innerProofWritesAt, nonPadding. rewrite putsInto_app. cbn [List.filter].
  destruct (InnerProofData.isPadding tx); [reflexivity|].
  cbn [negb flat_map]. rewrite putsInto_app, !putsInto_NULL_nullifierWrites. reflexivity.
Qed.

Lemma putsInto_NULL_defiNoteWrites start notes :
  forall i, putsInto NULL (defiNoteWrites start i notes) = [].
Proof.
  induction notes as [|note rest IH]; intros i; [reflexivity|].
  rewrite defiNoteWrites_cons, putsInto_app, IH. unfold defiNoteWritesAt.
  case_empty note; reflexivity.
Qed.

Lemma putsInto_DEFI_nullifierWrites nullifier : putsInto DEFI (nullifierWrites nullifier) = [].
Proof. unfold nullifierWrites. now destruct (toBigIntBE nullifier =? 0). Qed.

Lemma putsInto_DEFI_innerProofWrites dataStartIndex proofs :
  forall i, putsInto DEFI (innerProofWrites dataStartIndex i proofs) = [].
Proof.
  induction proofs as [|tx rest IH]; intros i; [reflexivity|].
  rewrite innerProofWrites_cons, putsInto_app, IH.
  unfold innerProofWritesAt. rewrite putsInto_app.
  destruct (InnerProofData.isPadding tx); [reflexivity|].
  now rewrite putsInto_app, !putsInto_DEFI_nullifierWrites.
Qed.

Lemma putsInto_DEFI_defiNoteWrites start notes :
  forall i,
  putsInto DEFI (defiNoteWrites start i notes)
  = concat (imap (fun n note =>
                    if bool_decide (note = []) then []
                    else [(start + (i + Z.of_nat n), note)]) notes).
Proof.
  induction notes as [|note rest IH]; intros i; [reflexivity|].
  rewrite defiNoteWrites_cons, putsInto_app, IH, imap_cons. cbn [concat].
  change (Z.of_nat 0) with 0. rewrite Z.add_0_r. f_equal.
  - unfold defiNoteWritesAt. case_empty note; reflexivity.
  - f_equal. apply imap_ext. intros n x _. unfold compose.
    replace (i + Z.of_nat (S n)) with (i + 1 + Z.of_nat n) by lia. reflexivity.
Qed.

(** C2, as the code has it. When the guard on the size of the DATA tree does
    not fire, [addRollupToWorldState] writes the note commitments of every
    inner proof, padding or not: those of the inner proof at position [n] go
    to the leaves [dataStartIndex + 2n] and [dataStartIndex + 2n + 1] of the
    DATA tree, in order of position, and the DATA tree receives no other
    write.  What is left out for a padding inner proof is the writing of its
    nullifiers into the NULL tree. *)
Theorem addRollupToWorldState_note_commitments rollup (w : W) :
  WorldStateDb.getSize (worldStateDb w) DATA <= RollupProofData.dataStartIndex rollup ->
  exists w' calls,
    addRollupToWorldState rollup w = Returned tt w'
    /\ treeLog w' = treeLog w ++ calls
    /\ putsInto DATA calls
       = concat (imap (fun n tx =>
                   [(RollupProofData.dataStartIndex rollup + 2 * Z.of_nat n,
                     InnerProofData.noteCommitment1 tx);
                    (RollupProofData.dataStartIndex rollup + 2 * Z.of_nat n + 1,
                     InnerProofData.noteCommitment2 tx)])
                 (RollupProofData.innerProofData rollup))
    /\ putsInto NULL calls
       = flat_map (fun tx => nullifierLeaf (InnerProofData.nullifier1 tx)
                             ++ nullifierLeaf (InnerProofData.nullifier2 tx))
           (nonPadding (RollupProofData.innerProofData rollup)).
Proof.
  intros Hsize. pose proof (addRollupToWorldState_log rollup w) as Hlog. cbv zeta in Hlog.
  destruct (WorldStateDb.getSize (worldStateDb w) DATA >? RollupProofData.dataStartIndex rollup)
    eqn:E; [apply Z.gtb_lt in E; lia|].
  destruct Hlog as (w' & dataRoot & Hrun & Hl).
  eexists w', _. split; [exact Hrun|]. split; [exact Hl|]. split.
  - rewrite !putsInto_app, putsInto_DATA_innerProofWrites, putsInto_DATA_defiNoteWrites.
    cbn [putsInto omap list_omap]. simpl. rewrite app_nil_r. reflexivity.
  - rewrite !putsInto_app, putsInto_NULL_innerProofWrites, putsInto_NULL_defiNoteWrites.
    simpl. rewrite app_nil_r. reflexivity.
Qed.

(** The writes into the DEFI tree: a defi interaction note is left out only
    when it is the buffer of length zero. *)
Lemma addRollupToWorldState_defi_notes rollup (w : W) :
  WorldStateDb.getSize (worldStateDb w) DATA <= RollupProofData.dataStartIndex rollup ->
  exists w' calls,
    addRollupToWorldState rollup w = Returned tt w'
    /\ treeLog w' = treeLog w ++ calls
    /\ putsInto DEFI calls
       = concat (imap (fun n note =>
                   if bool_decide (note = []) then []
                   else [(RollupProofData.rollupId rollup * Env.NUM_BRIDGE_CALLS_PER_BLOCK
                          + Z.of_nat n, note)])
                 (RollupProofData.defiInteractionNotes rollup)).
Proof.
  intros Hsize. pose proof (addRollupToWorldState_log rollup w) as Hlog. cbv zeta in Hlog.
  destruct (WorldStateDb.getSize (worldStateDb w) DATA >? RollupProofData.dataStartIndex rollup)
    eqn:E; [apply Z.gtb_lt in E; lia|].
  destruct Hlog as (w' & dataRoot & Hrun & Hl).
  eexists w', _. split; [exact Hrun|]. split; [exact Hl|].
  rewrite !putsInto_app, putsInto_DEFI_innerProofWrites, putsInto_DEFI_defiNoteWrites.
  simpl. rewrite app_nil_r. reflexivity.
Qed.

(** ** [processDefiProofs] *)

Lemma findIndexFrom_first {A} (f : A -> bool) (l : list A) :
  forall (k : Z) (j : nat) (x : A),
  l !! j = Some x -> f x = true ->
  (forall (j' : nat) y, (j' < j)%nat -> l !! j' = Some y -> f y = false) ->
  findIndexFrom f l k = k + Z.of_nat j.
Proof.
  induction l as [|a l IH]; intros k j x Hj Hx Hbefore; [discriminate|].
  destruct j as [|j]; simpl in *.
  - injection Hj as ->. rewrite Hx. lia.
  - rewrite (Hbefore 0%nat a); [|lia|reflexivity].
    rewrite (IH (k + 1) j x Hj Hx); [lia|].
    intros j' y Hlt Hy. apply (Hbefore (S j') y); [lia|exact Hy].
Qed.

Lemma findIndexFrom_none {A} (f : A -> bool) (l : list A) :
  forall k, (forall y, y ∈ l -> f y = false) -> findIndexFrom f l k = -1.
Proof.
  induction l as [|a l IH]; intros k Hall; [reflexivity|]. simpl.
  rewrite (Hall a) by apply list_elem_of_here.
  apply IH. intros y Hy. apply Hall. now apply list_elem_of_further.
Qed.

Lemma onDb_eq f calls (w : W) :
  exists w', onDb f calls w = Returned tt w'
             /\ rollupDb w' = f (rollupDb w)
             /\ dbLog w' = dbLog w ++ calls.
Proof. eexists. repeat split. Qed.

(** The relational calls of the [switch] on one inner proof. *)
Lemma processDefiProof_log rollup offchainTxData block p i k (w : W) :
  (InnerProofData.proofId p = DEFI_DEPOSIT ->
   is_Some (readOffchainDefiDepositData offchainTxData k)) ->
  exists w',
    processDefiProof rollup offchainTxData block p i k w = Returned tt w'
    /\ dbLog w' = dbLog w ++
         match InnerProofData.proofId p with
         | DEFI_DEPOSIT =>
             match readOffchainDefiDepositData offchainTxData k with
             | Some data => [DbAddClaim (defiDepositClaim rollup p i data (Env.dateNow (dates w)))]
             | None => []
             end
         | DEFI_CLAIM =>
             [DbConfirmClaimed (InnerProofData.nullifier1 p) (Block.created block)]
         | _ => []
         end.
Proof.
  intros Hread. unfold processDefiProof.
  destruct (InnerProofData.proofId p);
    try (exists w; split; [reflexivity|now rewrite app_nil_r]).
  - destruct Hread as [data Hdata]; [reflexivity|]. rewrite Hdata.
    eexists. split; reflexivity.
  - eexists. split; reflexivity.
Qed.

Lemma claimsWithId_app id l1 l2 :
  claimsWithId id (l1 ++ l2) = claimsWithId id l1 ++ claimsWithId id l2.
Proof. apply omap_app. Qed.

Lemma claimsWithId_none id calls :
  (forall c, DbAddClaim c ∈ calls -> ClaimDao.id c <> id) -> claimsWithId id calls = [].
Proof.
  induction calls as [|call calls IH]; intros Hall; [reflexivity|].
  unfold claimsWithId in *. cbn [omap list_omap].
  rewrite IH by (intros c Hc; apply Hall; now apply list_elem_of_further).
  destruct call; try reflexivity.
  destruct (ClaimDao.id claim =? id) eqn:E; [|reflexivity].
  apply Z.eqb_eq in E. exfalso. apply (Hall claim); [apply list_elem_of_here|exact E].
Qed.

Lemma claimsWithId_elem id calls claim :
  claimsWithId id calls = [claim] -> DbAddClaim claim ∈ calls.
Proof.
  intros Hc.
  assert (Hin : claim ∈ claimsWithId id calls) by (rewrite Hc; apply list_elem_of_here).
  unfold claimsWithId in Hin. apply list_elem_of_omap in Hin as (call & Hcall & Hsome).
  destruct call; try discriminate.
  destruct (ClaimDao.id claim0 =? id); [|discriminate].
  now injection Hsome as ->.
Qed.

Lemma offChainIndexAt_cons p rest n :
  offChainIndexAt (p :: rest) (S n)
  = if InnerProofData.isPadding p then offChainIndexAt rest n else S (offChainIndexAt rest n).
Proof.
  unfold offChainIndexAt, nonPadding. cbn [take List.filter].
  now destruct (InnerProofData.isPadding p).
Qed.

Lemma padding_not_defi_deposit p :
  InnerProofData.isPadding p = true -> InnerProofData.proofId p <> DEFI_DEPOSIT.
Proof.
  unfold InnerProofData.isPadding. intros E%bool_decide_eq_true. now rewrite E.
Qed.

(** The claims that the loop over the inner proofs adds: every claim it adds
    from position [i] on has an id of at least [dataStartIndex + 2i], and the
    DEFI_DEPOSIT at position [i + n] accounts for exactly one claim, of id
    [dataStartIndex + 2(i + n)], built from the blob at its off-chain
    index. *)
Lemma processInnerProofs_claims rollup offchainTxData block proofs :
  forall i k (w : W),
  defiBlobsReadable offchainTxData proofs k = true ->
  exists w' calls,
    processInnerProofs rollup offchainTxData block proofs i k w = Returned tt w'
    /\ dbLog w' = dbLog w ++ calls
    /\ (forall c, DbAddClaim c ∈ calls ->
          RollupProofData.dataStartIndex rollup + i * 2 <= ClaimDao.id c)
    /\ (forall (n : nat) p,
          proofs !! n = Some p -> InnerProofData.proofId p = DEFI_DEPOSIT ->
          exists data created,
            readOffchainDefiDepositData offchainTxData (k + offChainIndexAt proofs n) = Some data
            /\ claimsWithId (RollupProofData.dataStartIndex rollup + (i + Z.of_nat n) * 2) calls
               = [defiDepositClaim rollup p (i + Z.of_nat n) data created]).
Proof.
  induction proofs as [|p rest IH]; intros i k w Hread.
  - exists w, []. split; [reflexivity|]. split; [now rewrite app_nil_r|].
    split; [intros c Hc; inversion Hc|intros n p Hn; discriminate].
  - simpl in Hread. simpl processInnerProofs.
    destruct (InnerProofData.isPadding p) eqn:Hpad.
    + destruct (IH (i + 1) k w Hread) as (w' & calls & Hrun & Hlog & Hids & Hclaims).
      exists w', calls. split; [exact Hrun|]. split; [exact Hlog|]. split.
      * intros c Hc. specialize (Hids c Hc). lia.
      * intros [|n] q Hq Hdefi; simpl in Hq.
        -- injection Hq as <-. now apply padding_not_defi_deposit in Hpad.
        -- rewrite offChainIndexAt_cons, Hpad.
           destruct (Hclaims n q Hq Hdefi) as (data & created & Hdata & Hc).
           exists data, created. split; [exact Hdata|].
           replace (i + Z.of_nat (S n)) with (i + 1 + Z.of_nat n) by lia. exact Hc.
    + apply andb_true_iff in Hread as [Hhere Hrest].
      destruct (processDefiProof_log rollup offchainTxData block p i k w) as (w1 & E1 & L1).
      { intros Hdefi. rewrite bool_decide_eq_true_2 in Hhere by exact Hdefi.
        now apply bool_decide_eq_true in Hhere. }
      destruct (IH (i + 1) (S k) w1 Hrest) as (w2 & calls2 & E2 & L2 & Hids & Hclaims).
      rewrite (bind_Returned _ _ _ _ _ E1).
      eexists w2, (_ ++ calls2). split; [exact E2|].
      split; [rewrite L2, L1, <- app_assoc; reflexivity|].
      assert (Hhead : forall c,
        DbAddClaim c ∈
          match InnerProofData.proofId p with
          | DEFI_DEPOSIT =>
              match readOffchainDefiDepositData offchainTxData k with
              | Some data =>
                  [DbAddClaim (defiDepositClaim rollup p i data (Env.dateNow (dates w)))]
              | None => []
              end
          | DEFI_CLAIM =>
              [DbConfirmClaimed (InnerProofData.nullifier1 p) (Block.created block)]
          | _ => []
          end ->
        ClaimDao.id c = RollupProofData.dataStartIndex rollup + i * 2).
      { intros c Hc. destruct (InnerProofData.proofId p); try (now inversion Hc);
          try (apply list_elem_of_singleton in Hc; discriminate).
        destruct (readOffchainDefiDepositData offchainTxData k); [|now inversion Hc].
        apply list_elem_of_singleton in Hc. injection Hc as ->. reflexivity. }
      split.
      * intros c [Hc|Hc]%elem_of_app.
        -- rewrite (Hhead c Hc). lia.
        -- specialize (Hids c Hc). lia.
      * intros [|n] q Hq Hdefi; simpl in Hq.
        -- injection Hq as <-. rewrite Hdefi in *.
           unfold offChainIndexAt. simpl. rewrite Nat.add_0_r.
           destruct (readOffchainDefiDepositData offchainTxData k) as [data|] eqn:Hdata.
           2:{ rewrite bool_decide_eq_true_2 in Hhere by reflexivity.
               apply bool_decide_eq_true in Hhere. now destruct Hhere. }
           exists data, (Env.dateNow (dates w)). split; [reflexivity|].
           rewrite claimsWithId_app, Z.add_0_r.
           rewrite (claimsWithId_none _ calls2).
           2:{ intros c Hc. specialize (Hids c Hc). lia. }
           unfold claimsWithId. simpl. now rewrite Z.eqb_refl.
        -- rewrite offChainIndexAt_cons, Hpad.
           destruct (Hclaims n q Hq Hdefi) as (data & created & Hdata & Hc).
           exists data, created.
           split; [now rewrite <- Nat.add_succ_comm|].
           rewrite claimsWithId_app.
           rewrite claimsWithId_none.
           2:{ intros c Hcin. rewrite (Hhead c Hcin). lia. }
           replace (i + Z.of_nat (S n)) with (i + 1 + Z.of_nat n) by lia. exact Hc.
Qed.

Lemma updateClaimsWithResults_log rollupId results :
  forall w : W,
  exists w',
    updateClaimsWithResults rollupId results w = Returned tt w'
    /\ dbLog w' = dbLog w ++
         map (fun defiNote =>
                DbUpdateClaimsWithResultRollupId (DefiInteractionNote.nonce defiNote) rollupId)
           results.
Proof.
  induction results as [|r rest IH]; intros w.
  - exists w. split; [reflexivity|]. now rewrite app_nil_r.
  - simpl updateClaimsWithResults.
    destruct (onDb_eq (RollupDb.updateClaimsWithResultRollupId (DefiInteractionNote.nonce r)
                rollupId)
                [DbUpdateClaimsWithResultRollupId (DefiInteractionNote.nonce r) rollupId] w)
      as (w1 & E1 & _ & L1).
    rewrite (bind_Returned _ _ _ _ _ E1).
    destruct (IH w1) as (w2 & E2 & L2).
    exists w2. split; [exact E2|]. rewrite L2, L1, <- app_assoc. reflexivity.
Qed.

Lemma claimsWithId_updates id rollupId (results : list DefiInteractionNote.t) :
  claimsWithId id
    (map (fun defiNote =>
            DbUpdateClaimsWithResultRollupId (DefiInteractionNote.nonce defiNote) rollupId)
       results) = [].
Proof. induction results as [|r rest IH]; [reflexivity|exact IH]. Qed.

(** The claims that [processDefiProofs] adds. *)
Lemma processDefiProofs_claims rollup offchainTxData block (w : W) :
  defiBlobsReadable offchainTxData (RollupProofData.innerProofData rollup) 0 = true ->
  exists w' calls,
    processDefiProofs rollup offchainTxData block w = Returned tt w'
    /\ dbLog w' = dbLog w ++ calls
    /\ (forall (n : nat) p,
          RollupProofData.innerProofData rollup !! n = Some p ->
          InnerProofData.proofId p = DEFI_DEPOSIT ->
          exists data created,
            readOffchainDefiDepositData offchainTxData
              (offChainIndexAt (RollupProofData.innerProofData rollup) n) = Some data
            /\ claimsWithId (RollupProofData.dataStartIndex rollup + 2 * Z.of_nat n) calls
               = [defiDepositClaim rollup p (Z.of_nat n) data created]).
Proof.
  intros Hread. unfold processDefiProofs.
  destruct (processInnerProofs_claims rollup offchainTxData block
              (RollupProofData.innerProofData rollup) 0 0%nat w Hread)
    as (w1 & calls1 & E1 & L1 & _ & Hclaims).
  destruct (updateClaimsWithResults_log (RollupProofData.rollupId rollup)
              (Block.interactionResult block) w1) as (w2 & E2 & L2).
  rewrite (bind_Returned _ _ _ _ _ E1).
  eexists w2, (calls1 ++ _). split; [exact E2|].
  split; [rewrite L2, L1, <- app_assoc; reflexivity|].
  intros n p Hn Hdefi.
  destruct (Hclaims n p Hn Hdefi) as (data & created & Hdata & Hc).
  exists data, created. split; [exact Hdata|].
  rewrite claimsWithId_app, claimsWithId_updates, app_nil_r.
  replace (RollupProofData.dataStartIndex rollup + 2 * Z.of_nat n)
    with (RollupProofData.dataStartIndex rollup + (0 + Z.of_nat n) * 2) by lia.
  exact Hc.
Qed.

(** C5. Let the inner proof at position [n] be a DEFI_DEPOSIT whose off-chain
    data names a bridge id that occurs in [bridgeIds], first at index [j].
    Then, every DEFI_DEPOSIT of the rollup finding its off-chain data,
    [processDefiProofs] returns and adds exactly one claim of id
    [dataStartIndex + 2n]; its fee is [txFee - (txFee >> 1)] and its
    interaction nonce is [j + rollupId * NUM_BRIDGE_CALLS_PER_BLOCK]. *)
Theorem processDefiProofs_defi_deposit_claim rollup offchainTxData block (w : W)
    (n : nat) p data (j : nat) :
  RollupProofData.innerProofData rollup !! n = Some p ->
  InnerProofData.proofId p = DEFI_DEPOSIT ->
  defiBlobsReadable offchainTxData (RollupProofData.innerProofData rollup) 0 = true ->
  readOffchainDefiDepositData offchainTxData
    (offChainIndexAt (RollupProofData.innerProofData rollup) n) = Some data ->
  RollupProofData.bridgeIds rollup !! j
    = Some (BridgeId.toBuffer (OffchainDefiDepositData.bridgeId data)) ->
  (forall j' : nat, (j' < j)%nat ->
     RollupProofData.bridgeIds rollup !! j'
     <> Some (BridgeId.toBuffer (OffchainDefiDepositData.bridgeId data))) ->
  exists w' calls claim,
    processDefiProofs rollup offchainTxData block w = Returned tt w'
    /\ dbLog w' = dbLog w ++ calls
    /\ claimsWithId (RollupProofData.dataStartIndex rollup + 2 * Z.of_nat n) calls = [claim]
    /\ ClaimDao.id claim = RollupProofData.dataStartIndex rollup + 2 * Z.of_nat n
    /\ ClaimDao.fee claim
       = OffchainDefiDepositData.txFee data - Z.shiftr (OffchainDefiDepositData.txFee data) 1
    /\ ClaimDao.interactionNonce claim
       = Z.of_nat j + RollupProofData.rollupId rollup * Env.NUM_BRIDGE_CALLS_PER_BLOCK.
Proof.
  intros Hn Hdefi Hread Hdata Hj Hfirst.
  destruct (processDefiProofs_claims rollup offchainTxData block w Hread)
    as (w' & calls & Hrun & Hlog & Hclaims).
  destruct (Hclaims n p Hn Hdefi) as (data' & created & Hdata' & Hc).
  rewrite Hdata in Hdata'. injection Hdata' as <-.
  exists w', calls, (defiDepositClaim rollup p (Z.of_nat n) data created).
  split; [exact Hrun|]. split; [exact Hlog|]. split; [exact Hc|].
  split; [simpl; lia|]. split; [reflexivity|].
  simpl. f_equal. unfold findIndex.
  rewrite (findIndexFrom_first _ _ 0 j _ Hj); [lia| |].
  - unfold Buffer_equals. now apply bool_decide_eq_true.
  - intros j' y Hlt Hy. unfold Buffer_equals. apply bool_decide_eq_false.
    intros ->. now apply (Hfirst j' Hlt).
Qed.

(** C10. Let the inner proof at position [n] be a DEFI_DEPOSIT whose
    off-chain data names a bridge id that occurs nowhere in [bridgeIds].
    Then, every DEFI_DEPOSIT of the rollup finding its off-chain data,
    [processDefiProofs] still returns (no error is raised) and adds a claim
    of id [dataStartIndex + 2n], whose interaction nonce is
    [rollupId * NUM_BRIDGE_CALLS_PER_BLOCK - 1]. *)
Theorem processDefiProofs_unknown_bridge rollup offchainTxData block (w : W)
    (n : nat) p data :
  RollupProofData.innerProofData rollup !! n = Some p ->
  InnerProofData.proofId p = DEFI_DEPOSIT ->
  defiBlobsReadable offchainTxData (RollupProofData.innerProofData rollup) 0 = true ->
  readOffchainDefiDepositData offchainTxData
    (offChainIndexAt (RollupProofData.innerProofData rollup) n) = Some data ->
  BridgeId.toBuffer (OffchainDefiDepositData.bridgeId data) ∉ RollupProofData.bridgeIds rollup ->
  exists w' calls claim,
    processDefiProofs rollup offchainTxData block w = Returned tt w'
    /\ dbLog w' = dbLog w ++ calls
    /\ claimsWithId (RollupProofData.dataStartIndex rollup + 2 * Z.of_nat n) calls = [claim]
    /\ DbAddClaim claim ∈ calls
    /\ ClaimDao.interactionNonce claim
       = RollupProofData.rollupId rollup * Env.NUM_BRIDGE_CALLS_PER_BLOCK - 1.
Proof.
  intros Hn Hdefi Hread Hdata Hnotin.
  destruct (processDefiProofs_claims rollup offchainTxData block w Hread)
    as (w' & calls & Hrun & Hlog & Hclaims).
  destruct (Hclaims n p Hn Hdefi) as (data' & created & Hdata' & Hc).
  rewrite Hdata in Hdata'. injection Hdata' as <-.
  exists w', calls, (defiDepositClaim rollup p (Z.of_nat n) data created).
  split; [exact Hrun|]. split; [exact Hlog|]. split; [exact Hc|]. split.
  - apply (claimsWithId_elem _ _ _ Hc).
  - simpl. unfold findIndex. rewrite findIndexFrom_none; [lia|].
    intros y Hy. unfold Buffer_equals. apply bool_decide_eq_false.
    intros ->. now apply Hnotin.
Qed.

(** ** [confirmOrAddRollupToDb] *)

Lemma settlementDurations_cons block txs p rest :
  settlementDurations block txs (p :: rest)
  = (if InnerProofData.isPadding p then []
     else match List.find (fun tx => Buffer_equals (TxDao.id tx) (InnerProofData.txId p)) txs with
          | Some tx => [TxSettlementDuration (Block.created block - TxDao.created tx)]
          | None => []
          end)
    ++ settlementDurations block txs rest.
Proof.
  unfold settlementDurations, nonPadding. cbn [List.filter].
  destruct (InnerProofData.isPadding p); [reflexivity|].
  cbn [negb omap list_omap].
  now destruct (List.find _ txs).
Qed.

Lemma trackSettlementTimes_log block txs proofs :
  forall w : W,
  exists w',
    trackSettlementTimes block txs proofs w = Returned tt w'
    /\ metricsLog w' = metricsLog w ++ settlementDurations block txs proofs
    /\ dbLog w' = dbLog w
    /\ rollupDb w' = rollupDb w.
Proof.
  induction proofs as [|p rest IH]; intros w.
  - exists w. repeat split. unfold settlementDurations. simpl. now rewrite app_nil_r.
  - simpl trackSettlementTimes. rewrite settlementDurations_cons.
    assert (exists w1,
      (if InnerProofData.isPadding p then ret tt
       else match List.find (fun tx => Buffer_equals (TxDao.id tx) (InnerProofData.txId p)) txs with
            | Some tx => onMetrics (TxSettlementDuration (Block.created block - TxDao.created tx))
            | None => ret tt
            end) w = Returned tt w1
      /\ metricsLog w1 = metricsLog w ++
           (if InnerProofData.isPadding p then []
            else match List.find (fun tx => Buffer_equals (TxDao.id tx) (InnerProofData.txId p)) txs with
                 | Some tx => [TxSettlementDuration (Block.created block - TxDao.created tx)]
                 | None => []
                 end)
      /\ dbLog w1 = dbLog w /\ rollupDb w1 = rollupDb w) as (w1 & E1 & L1 & Hd1 & Hr1).
    { destruct (InnerProofData.isPadding p).
      - exists w. repeat split. now rewrite app_nil_r.
      - destruct (List.find _ txs).
        + eexists. repeat split.
        + exists w. repeat split. now rewrite app_nil_r. }
    rewrite (bind_Returned _ _ _ _ _ E1).
    destruct (IH w1) as (w2 & E2 & L2 & Hd2 & Hr2).
    exists w2. split; [exact E2|]. repeat split; [|congruence|congruence].
    rewrite L2, L1, <- app_assoc. reflexivity.
Qed.

Lemma onMetrics_eq call (w : W) :
  exists w', onMetrics call w = Returned tt w'
             /\ metricsLog w' = metricsLog w ++ [call]
             /\ dbLog w' = dbLog w
             /\ rollupDb w' = rollupDb w.
Proof. eexists. repeat split. Qed.

Lemma rollupDb_confirmMined_eq id gasUsed gasPrice mined ethTxHash ir txIds am (w : W) :
  exists w',
    rollupDb_confirmMined id gasUsed gasPrice mined ethTxHash ir txIds am w
    = Returned (RollupDb.confirmMined id gasUsed gasPrice mined ethTxHash ir txIds am
                  (rollupDb w)).1 w'
    /\ dbLog w' = dbLog w ++ [DbConfirmMined id gasUsed gasPrice mined ethTxHash ir txIds am]
    /\ metricsLog w' = metricsLog w.
Proof. eexists. repeat split. Qed.

(** Appending the settled block to the block cache writes to neither the
    relational store nor the metrics. *)
Lemma cacheBlock_logs rollupId (w : W) :
  let cache : M W unit :=
    let! rollupDao := readDb (fun db => RollupDb.getRollup db rollupId) in
    match rollupDao ≫= rollupDaoToBlockBuffer with
    | Some buf => pushBlockBuffer buf
    | None => throw "rollupDaoToBlockBuffer"
    end in
  dbLog (final (cache w)) = dbLog w /\ metricsLog (final (cache w)) = metricsLog w.
Proof.
  intros cache. subst cache. rewrite bind_readDb.
  destruct (RollupDb.getRollup (rollupDb w) rollupId ≫= rollupDaoToBlockBuffer); now split.
Qed.

(** What [confirmOrAddRollupToDb] writes to the relational store and to the
    metrics, according to whether the relational store knows a rollup proof
    of the hash of the rollup. *)
Lemma confirmOrAddRollupToDb_log rollup offchainTxData block (w : W) :
  let assetMetrics := getAssetMetrics rollup (Block.interactionResult block) (rollupDb w) in
  let w' := final (confirmOrAddRollupToDb rollup offchainTxData block w) in
  match RollupDb.getRollupProof (rollupDb w) (RollupProofData.rollupHash rollup) true with
  | Some rollupProof =>
      let txIds := map TxDao.id (RollupProofDao.txs rollupProof) in
      dbLog w' = dbLog w ++
        [DbConfirmMined (RollupProofData.rollupId rollup) (Block.gasUsed block)
           (Block.gasPrice block) (Block.created block) (Block.txHash block)
           (Block.interactionResult block) txIds assetMetrics]
      /\ metricsLog w' = metricsLog w
           ++ settlementDurations block (RollupProofDao.txs rollupProof)
                (RollupProofData.innerProofData rollup)
           ++ [RollupReceived
                 (RollupDb.confirmMined (RollupProofData.rollupId rollup) (Block.gasUsed block)
                    (Block.gasPrice block) (Block.created block) (Block.txHash block)
                    (Block.interactionResult block) txIds assetMetrics (rollupDb w)).1]
  | None =>
      let rollupDao := rebuiltRollupDao rollup offchainTxData block assetMetrics in
      dbLog w' = dbLog w ++ [DbAddRollup rollupDao]
      /\ metricsLog w' = metricsLog w ++ [RollupReceived (Some rollupDao)]
  end.
Proof.
  intros assetMetrics w'. subst w'. unfold confirmOrAddRollupToDb.
  rewrite !bind_readDb. fold assetMetrics.
  destruct (RollupDb.getRollupProof (rollupDb w) (RollupProofData.rollupHash rollup) true)
    as [rollupProof|].
  - set (txIds := map TxDao.id (RollupProofDao.txs rollupProof)).
    destruct (rollupDb_confirmMined_eq (RollupProofData.rollupId rollup) (Block.gasUsed block)
                (Block.gasPrice block) (Block.created block) (Block.txHash block)
                (Block.interactionResult block) txIds assetMetrics w) as (w1 & E1 & Hd1 & Hm1).
    destruct (trackSettlementTimes_log block (RollupProofDao.txs rollupProof)
                (RollupProofData.innerProofData rollup) w1) as (w2 & E2 & Hm2 & Hd2 & _).
    destruct (onMetrics_eq
                (RollupReceived
                   (RollupDb.confirmMined (RollupProofData.rollupId rollup) (Block.gasUsed block)
                      (Block.gasPrice block) (Block.created block) (Block.txHash block)
                      (Block.interactionResult block) txIds assetMetrics (rollupDb w)).1) w2)
      as (w3 & E3 & Hm3 & Hd3 & _).
    erewrite (bind_Returned _ _ w tt w3).
    2:{ rewrite (bind_Returned _ _ _ _ _ E1), (bind_Returned _ _ _ _ _ E2). exact E3. }
    destruct (cacheBlock_logs (RollupProofData.rollupId rollup) w3) as [Hd Hm].
    rewrite Hd, Hm, Hd3, Hd2, Hd1, Hm3, Hm2, Hm1, <- app_assoc. now split.
  - set (rollupDao := rebuiltRollupDao rollup offchainTxData block assetMetrics).
    destruct (onDb_eq (RollupDb.addRollup rollupDao) [DbAddRollup rollupDao] w)
      as (w1 & E1 & _ & Hd1).
    destruct (onMetrics_eq (RollupReceived (Some rollupDao)) w1) as (w2 & E2 & Hm2 & Hd2 & _).
    erewrite (bind_Returned _ _ w tt w2).
    2:{ rewrite (bind_Returned _ _ _ _ _ E1). exact E2. }
    destruct (cacheBlock_logs (RollupProofData.rollupId rollup) w2) as [Hd Hm].
    rewrite Hd, Hm, Hd2, Hd1, Hm2.
    assert (metricsLog w1 = metricsLog w) as ->; [|now split].
    unfold onDb in E1. now injection E1 as <-.
Qed.

Lemma rebuiltTxs_lookup rollup offchainTxData created (k : nat) :
  rebuiltTxs rollup offchainTxData created !! k
  = (fun p => innerProofDataToTxDao p (offchainTxData !! k) created
                (Env.getTxTypeFromInnerProofData p))
      <$> nonPadding (RollupProofData.innerProofData rollup) !! k.
Proof. unfold rebuiltTxs. apply list_lookup_imap. Qed.

Lemma map_imap {A B C} (g : B -> C) (f : nat -> A -> B) (l : list A) :
  map g (imap f l) = imap (fun n x => g (f n x)) l.
Proof.
  revert f. induction l as [|x l IH]; intros f; [reflexivity|].
  rewrite !imap_cons. cbn [map]. now rewrite IH.
Qed.

Lemma imap_ignoring {A B} (f : A -> B) (l : list A) : imap (fun _ x => f x) l = map f l.
Proof.
  induction l as [|x l IH]; [reflexivity|]. rewrite imap_cons. cbn [map]. now rewrite <- IH.
Qed.

(** C7. [confirmOrAddRollupToDb] looks the rollup proof up by the hash of the
    rollup.  If the relational store has it, [confirmMined] is called with
    the rollup id, the gas used, the gas price, the creation time and the tx
    hash of the block, its interaction results, the ids of the txs of the
    proof and the asset metrics, and one settlement duration,
    [block.created - tx.created], is emitted for each inner proof that is
    not padding and whose tx is among those of the proof.  If not,
    [addRollup] is called with a rollup that carries the gas used and gas
    price of the block, its packed interaction results and the asset
    metrics, and whose proof, of the hash of the rollup, holds one tx per
    inner proof that is not padding, in order: the tx has the id and the
    proof data of the inner proof, the tx type derived from the inner proof,
    the blob of [offchainTxData] at its position among the txs, and the
    creation time of the block as its creation and mined time. *)
Theorem confirmOrAddRollupToDb_by_hash rollup offchainTxData block (w : W) :
  let assetMetrics := getAssetMetrics rollup (Block.interactionResult block) (rollupDb w) in
  let w' := final (confirmOrAddRollupToDb rollup offchainTxData block w) in
  let proofs := nonPadding (RollupProofData.innerProofData rollup) in
  (forall rollupProof,
     RollupDb.getRollupProof (rollupDb w) (RollupProofData.rollupHash rollup) true
     = Some rollupProof ->
     dbLog w' = dbLog w ++
       [DbConfirmMined (RollupProofData.rollupId rollup) (Block.gasUsed block)
          (Block.gasPrice block) (Block.created block) (Block.txHash block)
          (Block.interactionResult block) (map TxDao.id (RollupProofDao.txs rollupProof))
          assetMetrics]
     /\ exists received,
         metricsLog w' = metricsLog w
           ++ settlementDurations block (RollupProofDao.txs rollupProof)
                (RollupProofData.innerProofData rollup)
           ++ [RollupReceived received])
  /\ (RollupDb.getRollupProof (rollupDb w) (RollupProofData.rollupHash rollup) true = None ->
      exists rollupDao,
        dbLog w' = dbLog w ++ [DbAddRollup rollupDao]
        /\ RollupDao.id rollupDao = RollupProofData.rollupId rollup
        /\ RollupDao.gasUsed rollupDao = Some (Block.gasUsed block)
        /\ RollupDao.gasPrice rollupDao = Some (toBufferBE (Block.gasPrice block) 32)
        /\ RollupDao.interactionResult rollupDao
           = Some (Buffer_concat (map DefiInteractionNote.toBuffer
                                    (Block.interactionResult block)))
        /\ RollupDao.assetMetrics rollupDao = assetMetrics
        /\ RollupProofDao.id (RollupDao.rollupProof rollupDao) = RollupProofData.rollupHash rollup
        /\ RollupProofDao.txs (RollupDao.rollupProof rollupDao)
           = imap (fun k p =>
                     innerProofDataToTxDao p (offchainTxData !! k) (Block.created block)
                       (Env.getTxTypeFromInnerProofData p))
               proofs
        /\ map TxDao.id (RollupProofDao.txs (RollupDao.rollupProof rollupDao))
           = map InnerProofData.txId proofs
        /\ map TxDao.proofData (RollupProofDao.txs (RollupDao.rollupProof rollupDao))
           = map InnerProofData.toBuffer proofs
        /\ map TxDao.txType (RollupProofDao.txs (RollupDao.rollupProof rollupDao))
           = map Env.getTxTypeFromInnerProofData proofs
        /\ map TxDao.offchainTxData (RollupProofDao.txs (RollupDao.rollupProof rollupDao))
           = imap (fun k _ => offchainTxData !! k) proofs
        /\ Forall (fun tx => TxDao.created tx = Block.created block
                             /\ TxDao.mined tx = Some (Block.created block))
             (RollupProofDao.txs (RollupDao.rollupProof rollupDao))).
Proof.
  intros assetMetrics w' proofs.
  pose proof (confirmOrAddRollupToDb_log rollup offchainTxData block w) as Hlog.
  cbv zeta in Hlog. fold assetMetrics w' in Hlog. split.
  - intros rollupProof Hfound. rewrite Hfound in Hlog. destruct Hlog as [Hd Hm].
    split; [exact Hd|]. eexists. exact Hm.
  - intros Hnone. rewrite Hnone in Hlog. destruct Hlog as [Hd _].
    eexists. split; [exact Hd|].
    cbn [rebuiltRollupDao RollupDao.id RollupDao.gasUsed RollupDao.gasPrice
         RollupDao.interactionResult RollupDao.assetMetrics RollupDao.rollupProof
         RollupProofDao.id RollupProofDao.txs].
    unfold rebuiltTxs. fold (nonPadding (RollupProofData.innerProofData rollup)). fold proofs.
    rewrite !map_imap.
    cbn [innerProofDataToTxDao TxDao.id TxDao.proofData TxDao.txType TxDao.offchainTxData].
    rewrite !imap_ignoring.
    repeat split.
    apply Forall_forall. intros tx Hin.
    apply elem_of_lookup_imap_1 in Hin as (k & p & -> & _). now split.
Qed.

Lemma nonPadding_lookup proofs :
  forall (n : nat) p,
  proofs !! n = Some p -> InnerProofData.isPadding p = false ->
  nonPadding proofs !! offChainIndexAt proofs n = Some p.
Proof.
  induction proofs as [|q rest IH]; intros n p Hn Hp; [discriminate|].
  destruct n as [|n]; simpl in Hn.
  - injection Hn as ->. unfold offChainIndexAt, nonPadding. simpl. now rewrite Hp.
  - rewrite offChainIndexAt_cons. unfold nonPadding. cbn [List.filter].
    destruct (InnerProofData.isPadding q); simpl; now apply IH.
Qed.

(** C6. The inner proof at position [n] that is not padding is the [k]-th
    of the inner proofs that are not padding, where [k] counts those before
    it, and it is paired with [offchainTxData[k]]: if it is a DEFI_DEPOSIT,
    the claim that [processDefiProofs] adds for it is built from the decoding
    of that blob, and when the rollup is not in the relational store, the
    [k]-th tx of the rollup proof that [confirmOrAddRollupToDb] adds is built
    from this inner proof and that blob: it carries the id and the proof
    data of the inner proof, its tx type, and, as its off-chain data,
    [offchainTxData[k]]. *)
Theorem offchainTxData_paired_by_non_padding_count rollup offchainTxData block
    (w : W) (n : nat) p :
  RollupProofData.innerProofData rollup !! n = Some p ->
  InnerProofData.isPadding p = false ->
  let k := offChainIndexAt (RollupProofData.innerProofData rollup) n in
  nonPadding (RollupProofData.innerProofData rollup) !! k = Some p
  /\ (InnerProofData.proofId p = DEFI_DEPOSIT ->
      defiBlobsReadable offchainTxData (RollupProofData.innerProofData rollup) 0 = true ->
      exists w' calls data created,
        processDefiProofs rollup offchainTxData block w = Returned tt w'
        /\ dbLog w' = dbLog w ++ calls
        /\ offchainTxData !! k ≫= Env.OffchainDefiDepositData_fromBuffer = Some data
        /\ claimsWithId (RollupProofData.dataStartIndex rollup + 2 * Z.of_nat n) calls
           = [defiDepositClaim rollup p (Z.of_nat n) data created])
  /\ (RollupDb.getRollupProof (rollupDb w) (RollupProofData.rollupHash rollup) true = None ->
      exists rollupDao tx,
        dbLog (final (confirmOrAddRollupToDb rollup offchainTxData block w))
        = dbLog w ++ [DbAddRollup rollupDao]
        /\ RollupProofDao.txs (RollupDao.rollupProof rollupDao) !! k = Some tx
        /\ tx = innerProofDataToTxDao p (offchainTxData !! k) (Block.created block)
                  (Env.getTxTypeFromInnerProofData p)
        /\ TxDao.id tx = InnerProofData.txId p
        /\ TxDao.proofData tx = InnerProofData.toBuffer p
        /\ TxDao.offchainTxData tx = offchainTxData !! k
        /\ TxDao.txType tx = Env.getTxTypeFromInnerProofData p).
Proof.
  intros Hn Hp k. pose proof (nonPadding_lookup _ n p Hn Hp) as Hk. fold k in Hk.
  split; [exact Hk|]. split.
  - intros Hdefi Hread.
    destruct (processDefiProofs_claims rollup offchainTxData block w Hread)
      as (w' & calls & Hrun & Hlog & Hclaims).
    destruct (Hclaims n p Hn Hdefi) as (data & created & Hdata & Hc).
    exists w', calls, data, created. repeat split; assumption.
  - intros Hnone.
    pose proof (confirmOrAddRollupToDb_log rollup offchainTxData block w) as Hlog.
    cbv zeta in Hlog. rewrite Hnone in Hlog. destruct Hlog as [Hd _].
    eexists _, _. split; [exact Hd|].
    cbn [rebuiltRollupDao RollupDao.rollupProof RollupProofDao.txs].
    rewrite rebuiltTxs_lookup. fold k. rewrite Hk. cbn [fmap option_fmap option_map].
    split; [reflexivity|]. repeat split.
Qed.

(** ** Start-up *)

Lemma Buffer_length_zero (b : Buffer) : (Buffer_length b =? 0) = bool_decide (b = []).
Proof.
  unfold Buffer_length. destruct b as [|x b].
  - reflexivity.
  - rewrite bool_decide_eq_false_2 by discriminate. apply Z.eqb_neq. simpl length. lia.
Qed.

Lemma syncState_aborts (w : W) e w' :
  RollupDb.getNextRollupId (rollupDb w) = 0 ->
  syncStateFromInitFiles w = Thrown e w' ->
  syncState w = Thrown e w'.
Proof.
  intros Hnext Hthrow. unfold syncState. rewrite bind_readDb, Hnext. simpl.
  now rewrite (bind_Thrown _ _ _ _ _ Hthrow).
Qed.

(** [syncStateFromInitFiles] once it has decided to populate the trees. *)
Lemma syncStateFromInitFiles_populates (w : W) :
  let chainId := Blockchain.getChainId in
  let accountDataFile := InitHelpers.getAccountDataFile chainId in
  let accounts := InitHelpers.readAccountTreeData (default EmptyString accountDataFile) in
  let roots := InitHelpers.getInitRoots chainId in
  let w1 := final (populateDataAndRootsTrees accounts w) in
  let w2 := final (populateNullifierTree accounts w1) in
  let populated :=
    InitHelpers.populateDataAndRootsTrees accounts (worldStateDb w) DATA ROOT in
  let nullified := InitHelpers.populateNullifierTree accounts populated.2 NULL in
  noAccountDataFile accountDataFile = false ->
  accounts <> [] ->
  InitHelpers.initDataRoot roots <> [] ->
  InitHelpers.initNullRoot roots <> [] ->
  InitHelpers.initRootsRoot roots <> [] ->
  syncStateFromInitFiles w
  = if negb (Buffer_equals (InitHelpers.initDataRoot roots) populated.1.1) then
      Thrown "New data root different to init file" w2
    else if negb (Buffer_equals (InitHelpers.initRootsRoot roots) populated.1.2) then
      Thrown "New roots root different to init file" w2
    else if negb (Buffer_equals (InitHelpers.initNullRoot roots) nullified.1) then
      Thrown "New null root different to init file" w2
    else
      onDb (RollupDb.addAccounts (map accountDaoOf accounts))
        [DbAddAccounts (map accountDaoOf accounts)] w2.
Proof.
  intros chainId accountDataFile accounts roots w1 w2 populated nullified
    Hfile Haccounts Hdata Hnull Hroots.
  unfold syncStateFromInitFiles.
  fold chainId accountDataFile accounts roots.
  rewrite !Buffer_length_zero, Hfile.
  assert ((Z.of_nat (length accounts) =? 0) = false) as ->.
  { apply Z.eqb_neq. destruct accounts; [contradiction|simpl length; lia]. }
  rewrite !bool_decide_eq_false_2 by assumption. cbn [orb].
  unfold bind, populateDataAndRootsTrees, populateNullifierTree. cbn [worldStateDb].
  fold populated. fold nullified.
  destruct (negb (Buffer_equals (InitHelpers.initDataRoot roots) populated.1.1));
    [reflexivity|].
  destruct (negb (Buffer_equals (InitHelpers.initRootsRoot roots) populated.1.2));
    [reflexivity|].
  destruct (negb (Buffer_equals (InitHelpers.initNullRoot roots) nullified.1)); reflexivity.
Qed.

(** C8. [syncStateFromInitFiles] returns in the state in which it was
    called, with neither store written, when there is no account data file,
    when no account is read from it, or when one of the three expected roots
    is empty.  Otherwise it populates the trees; if then one of the three
    computed roots differs from the expected one it throws, without a write
    to the relational store (and [syncState], run for the first rollup,
    throws with it); if the three roots match, it returns after adding to
    the relational store the accounts derived from the file. *)
Theorem syncStateFromInitFiles_cases (w : W) :
  let chainId := Blockchain.getChainId in
  let accountDataFile := InitHelpers.getAccountDataFile chainId in
  let accounts := InitHelpers.readAccountTreeData (default EmptyString accountDataFile) in
  let roots := InitHelpers.getInitRoots chainId in
  let populated :=
    InitHelpers.populateDataAndRootsTrees accounts (worldStateDb w) DATA ROOT in
  let nullified := InitHelpers.populateNullifierTree accounts populated.2 NULL in
  let dataRoot := populated.1.1 in
  let rootsRoot := populated.1.2 in
  let newNullRoot := nullified.1 in
  (noAccountDataFile accountDataFile = true
   \/ accounts = []
   \/ InitHelpers.initDataRoot roots = []
   \/ InitHelpers.initNullRoot roots = []
   \/ InitHelpers.initRootsRoot roots = [] ->
   syncStateFromInitFiles w = Returned tt w)
  /\ (noAccountDataFile accountDataFile = false ->
      accounts <> [] ->
      InitHelpers.initDataRoot roots <> [] ->
      InitHelpers.initNullRoot roots <> [] ->
      InitHelpers.initRootsRoot roots <> [] ->
      (InitHelpers.initDataRoot roots <> dataRoot
       \/ InitHelpers.initRootsRoot roots <> rootsRoot
       \/ InitHelpers.initNullRoot roots <> newNullRoot ->
       exists e w',
         syncStateFromInitFiles w = Thrown e w'
         /\ rollupDb w' = rollupDb w
         /\ dbLog w' = dbLog w
         /\ (RollupDb.getNextRollupId (rollupDb w) = 0 -> syncState w = Thrown e w'))
      /\ (InitHelpers.initDataRoot roots = dataRoot
          /\ InitHelpers.initRootsRoot roots = rootsRoot
          /\ InitHelpers.initNullRoot roots = newNullRoot ->
          exists w',
            syncStateFromInitFiles w = Returned tt w'
            /\ rollupDb w' = RollupDb.addAccounts (map accountDaoOf accounts) (rollupDb w)
            /\ dbLog w' = dbLog w ++ [DbAddAccounts (map accountDaoOf accounts)]
            /\ worldStateDb w' = nullified.2)).
Proof.
  intros chainId accountDataFile accounts roots populated nullified dataRoot rootsRoot
    newNullRoot.
  split.
  - intros Hskip. unfold syncStateFromInitFiles.
    fold chainId accountDataFile accounts roots.
    rewrite !Buffer_length_zero.
    destruct (noAccountDataFile accountDataFile); [reflexivity|].
    destruct accounts as [|a accounts']; [reflexivity|].
    change (Z.of_nat (length (a :: accounts')) =? 0) with false. cbv iota.
    destruct Hskip as [Hf|[Ha|[Hr|[Hr|Hr]]]]; try discriminate; rewrite Hr;
      rewrite ?orb_true_r; reflexivity.
  - intros Hfile Haccounts Hdata Hnull Hroots.
    pose proof (syncStateFromInitFiles_populates w Hfile Haccounts Hdata Hnull Hroots) as Hrun.
    cbv zeta in Hrun.
    fold chainId accountDataFile accounts roots in Hrun.
    fold populated in Hrun. fold nullified in Hrun.
    fold dataRoot rootsRoot newNullRoot in Hrun.
    unfold Buffer_equals in Hrun. split.
    + intros Hmismatch.
      assert (exists e w', syncStateFromInitFiles w = Thrown e w'
                           /\ rollupDb w' = rollupDb w /\ dbLog w' = dbLog w)
        as (e & w' & Hthrow & Hdb & Hlog).
      { destruct (decide (InitHelpers.initDataRoot roots = dataRoot)) as [E1|E1].
        2:{ rewrite (bool_decide_eq_false_2 _ E1) in Hrun. cbn [negb] in Hrun.
            eexists _, _. split; [exact Hrun|now split]. }
        destruct (decide (InitHelpers.initRootsRoot roots = rootsRoot)) as [E2|E2].
        2:{ rewrite (bool_decide_eq_true_2 _ E1), (bool_decide_eq_false_2 _ E2) in Hrun.
            cbn [negb] in Hrun. eexists _, _. split; [exact Hrun|now split]. }
        destruct (decide (InitHelpers.initNullRoot roots = newNullRoot)) as [E3|E3].
        2:{ rewrite (bool_decide_eq_true_2 _ E1), (bool_decide_eq_true_2 _ E2),
              (bool_decide_eq_false_2 _ E3) in Hrun.
            cbn [negb] in Hrun. eexists _, _. split; [exact Hrun|now split]. }
        exfalso. destruct Hmismatch as [Hm|[Hm|Hm]]; contradiction. }
      exists e, w'. repeat split; try assumption.
      intros Hnext. now apply syncState_aborts.
    + intros (E1 & E2 & E3).
      rewrite (bool_decide_eq_true_2 _ E1), (bool_decide_eq_true_2 _ E2),
        (bool_decide_eq_true_2 _ E3) in Hrun.
      cbn [negb] in Hrun. eexists. split; [exact Hrun|]. repeat split.
Qed.

End Properties.

(** ** The tree store follows its log *)

Section Tracking.

Context {T D Profile : Type}.
Context {treeDb : WorldStateDb.t T} {env : Env.t Profile}.

Abbreviation W := (WorldState T D Profile).

Lemma applyWrites_app calls1 calls2 (t : T) :
  applyWrites (calls1 ++ calls2) t = applyWrites calls2 (applyWrites calls1 t).
Proof. apply fold_left_app. Qed.

Lemma defiNoteWrites_puts start notes :
  forall i, Forall (fun call => isTreePut call = true) (defiNoteWrites start i notes).
Proof.
  induction notes as [|note rest IH]; intros i; [constructor|].
  rewrite defiNoteWrites_cons. apply Forall_app. split; [|apply IH].
  unfold defiNoteWritesAt. destruct (bool_decide (note = [])); now repeat constructor.
Qed.

Lemma innerProofWrites_puts dataStartIndex proofs :
  forall i, Forall (fun call => isTreePut call = true) (innerProofWrites dataStartIndex i proofs).
Proof.
  induction proofs as [|tx rest IH]; intros i; [constructor|].
  rewrite innerProofWrites_cons. apply Forall_app. split; [|apply IH].
  unfold innerProofWritesAt, nullifierWrites.
  destruct (InnerProofData.isPadding tx), (toBigIntBE (InnerProofData.nullifier1 tx) =? 0),
    (toBigIntBE (InnerProofData.nullifier2 tx) =? 0); now repeat constructor.
Qed.

Lemma tracksTrees_ret {A} (a : A) : tracksTrees (ret a : M W A).
Proof. intros w. exists a, w, []. repeat split. now rewrite app_nil_r. Qed.

Lemma tracksTrees_bind {A B} (c : M W A) (k : A -> M W B) :
  tracksTrees c -> (forall a, tracksTrees (k a)) -> tracksTrees (bind c k).
Proof.
  intros Hc Hk w.
  destruct (Hc w) as (a & w1 & calls1 & E1 & L1 & S1).
  destruct (Hk a w1) as (b & w2 & calls2 & E2 & L2 & S2).
  exists b, w2, (calls1 ++ calls2). unfold bind. rewrite E1. split; [exact E2|].
  split; [now rewrite L2, L1, app_assoc|].
  now rewrite S2, S1, applyWrites_app.
Qed.

Lemma tracksTrees_readTrees {A} (f : T -> A) : tracksTrees (readTrees f : M W A).
Proof. intros w. exists (f (worldStateDb w)), w, []. repeat split. now rewrite app_nil_r. Qed.

Lemma tracksTrees_put tree index value :
  tracksTrees (worldStateDb_put tree index value : M W unit).
Proof. intros w. eexists tt, _, [TreePut tree index value]. repeat split. Qed.

Lemma tracksTrees_commit : tracksTrees (worldStateDb_commit : M W unit).
Proof. intros w. eexists tt, _, [TreeCommit]. repeat split. Qed.

Lemma tracksTrees_rollback : tracksTrees (worldStateDb_rollback : M W unit).
Proof. intros w. eexists tt, _, [TreeRollback]. repeat split. Qed.

Create HintDb tracking.

#[local] Hint Resolve tracksTrees_ret tracksTrees_bind tracksTrees_readTrees tracksTrees_put
  tracksTrees_commit tracksTrees_rollback : tracking.

Lemma tracksTrees_putNullifier nullifier : tracksTrees (putNullifier nullifier : M W unit).
Proof. unfold putNullifier. destruct (toBigIntBE nullifier =? 0); auto with tracking. Qed.

Lemma tracksTrees_putInnerProofs dataStartIndex proofs :
  forall i, tracksTrees (putInnerProofs dataStartIndex proofs i : M W unit).
Proof.
  induction proofs as [|tx rest IH]; intros i; simpl; [auto with tracking|].
  repeat (apply tracksTrees_bind; [auto with tracking|intros _]); [|apply IH].
  destruct (negb (InnerProofData.isPadding tx)); [|auto with tracking].
  apply tracksTrees_bind; [|intros _]; apply tracksTrees_putNullifier.
Qed.

Lemma tracksTrees_putDefiInteractionNotes start notes :
  forall i, tracksTrees (putDefiInteractionNotes start notes i : M W unit).
Proof.
  induction notes as [|note rest IH]; intros i; simpl; [auto with tracking|].
  apply tracksTrees_bind; [|intros _; apply IH].
  destruct (Buffer_equals note (Buffer_alloc 0 x20)); auto with tracking.
Qed.

Lemma tracksTrees_addRollupToWorldState rollup :
  tracksTrees (addRollupToWorldState rollup : M W unit).
Proof.
  unfold addRollupToWorldState.
  apply tracksTrees_bind; [auto with tracking|]. intros currentSize.
  destruct (currentSize >? RollupProofData.dataStartIndex rollup); [auto with tracking|].
  apply tracksTrees_bind; [apply tracksTrees_putInnerProofs|intros _].
  apply tracksTrees_bind; [auto with tracking|intros _].
  apply tracksTrees_bind; [apply tracksTrees_putDefiInteractionNotes|intros _].
  auto with tracking.
Qed.

(** The tree store after [addRollupToWorldState] has gone past its guard. *)
Lemma addRollupToWorldState_trees rollup (w : W) :
  WorldStateDb.getSize (worldStateDb w) DATA <= RollupProofData.dataStartIndex rollup ->
  exists writes,
    worldStateDb (final (addRollupToWorldState rollup w))
    = WorldStateDb.commit
        (applyWrites
           (innerProofWrites (RollupProofData.dataStartIndex rollup) 0
              (RollupProofData.innerProofData rollup) ++ writes)
           (worldStateDb w))
    /\ Forall (fun call => isTreePut call = true) writes.
Proof.
  intros Hsize.
  destruct (tracksTrees_addRollupToWorldState rollup w) as ([] & w' & calls & E & L & S).
  pose proof (addRollupToWorldState_log rollup w) as Hlog. cbv zeta in Hlog.
  destruct (WorldStateDb.getSize (worldStateDb w) DATA >? RollupProofData.dataStartIndex rollup)
    eqn:Hguard; [apply Z.gtb_lt in Hguard; lia|].
  destruct Hlog as (w'' & dataRoot & E' & L').
  rewrite E in E'. injection E' as <-. rewrite L in L'. apply app_inv_head in L'.
  rewrite E. cbn [final]. rewrite S, L'.
  exists ([TreePut ROOT (RollupProofData.rollupId rollup + 1) dataRoot]
          ++ defiNoteWrites (RollupProofData.rollupId rollup * Env.NUM_BRIDGE_CALLS_PER_BLOCK) 0
               (RollupProofData.defiInteractionNotes rollup)).
  split.
  - rewrite !app_assoc, applyWrites_app. reflexivity.
  - apply Forall_app. split; [now constructor|apply defiNoteWrites_puts].
Qed.

End Tracking.

(** ** Replaying a block on the layered tree store *)

Section LayeredReplay.

Context {D Profile : Type}.
Context {relDb : RollupDb.t D} {chain : Blockchain.t} {noteAlgo : NoteAlgorithms.t} {env : Env.t Profile}.
Variable treeRoot : RollupTreeId -> gmap (Z * Z) Buffer -> Buffer.

Abbreviation W := (WorldState LayeredTrees.t D Profile).
Abbreviation layered := (layeredTrees treeRoot).

Lemma view_commit s : LayeredTrees.view (LayeredTrees.commit s) = LayeredTrees.view s.
Proof.
  unfold LayeredTrees.commit, LayeredTrees.view. simpl.
  now rewrite !(left_id_L ∅ (∪)).
Qed.

Lemma commit_clean s :
  LayeredTrees.staged s = LayeredTrees.noWrites -> LayeredTrees.commit s = s.
Proof.
  destruct s as [[cl cs] st]. simpl. intros ->.
  unfold LayeredTrees.commit, LayeredTrees.view. simpl.
  now rewrite !(left_id_L ∅ (∪)).
Qed.

Lemma rollback_clean s :
  LayeredTrees.staged s = LayeredTrees.noWrites -> LayeredTrees.rollback s = s.
Proof. destruct s as [c st]. simpl. now intros ->. Qed.

Lemma getSize_commit s tree :
  LayeredTrees.getSize (LayeredTrees.commit s) tree = LayeredTrees.getSize s tree.
Proof. unfold LayeredTrees.getSize. now rewrite view_commit. Qed.

Lemma getRoot_commit s tree :
  LayeredTrees.getRoot treeRoot (LayeredTrees.commit s) tree = LayeredTrees.getRoot treeRoot s tree.
Proof. unfold LayeredTrees.getRoot. now rewrite view_commit. Qed.

Lemma treeCode_inj t1 t2 : treeCode t1 = treeCode t2 -> t1 = t2.
Proof. now destruct t1, t2. Qed.

Lemma getSize_put s tree index value tree' :
  LayeredTrees.getSize (LayeredTrees.put tree index value s) tree'
  = if bool_decide (tree = tree') then Z.max (LayeredTrees.getSize s tree) (index + 1)
    else LayeredTrees.getSize s tree'.
Proof.
  unfold LayeredTrees.getSize at 1. unfold LayeredTrees.put, LayeredTrees.view. simpl.
  rewrite <- insert_union_l. case_bool_decide as E.
  - subst tree'. now rewrite lookup_insert_eq.
  - rewrite lookup_insert_ne by (intros E'; now apply treeCode_inj in E').
    reflexivity.
Qed.

Lemma getSize_put_grows s tree index value tree' :
  LayeredTrees.getSize s tree' <= LayeredTrees.getSize (LayeredTrees.put tree index value s) tree'.
Proof. rewrite getSize_put. case_bool_decide as E; [subst; lia|lia]. Qed.

Lemma getSize_puts_grow calls :
  Forall (fun call => isTreePut call = true) calls ->
  forall s tree,
  LayeredTrees.getSize s tree
  <= LayeredTrees.getSize (applyWrites (treeDb := layered) calls s) tree.
Proof.
  induction 1 as [|call calls Hcall _ IH]; intros s tree; [reflexivity|].
  destruct call; try discriminate. simpl.
  etransitivity; [|apply IH]. apply getSize_put_grows.
Qed.

Lemma getSize_after_inner_proofs dataStartIndex tx rest writes s :
  Forall (fun call => isTreePut call = true) writes ->
  dataStartIndex
  < LayeredTrees.getSize
      (applyWrites (treeDb := layered) (innerProofWrites dataStartIndex 0 (tx :: rest) ++ writes) s) DATA.
Proof.
  intros Hwrites. rewrite innerProofWrites_cons. unfold innerProofWritesAt.
  rewrite <- !app_assoc. cbn [app applyWrites fold_left].
  eapply Z.lt_le_trans; [|apply getSize_puts_grow].
  - eapply Z.lt_le_trans; [|apply getSize_put_grows].
    rewrite getSize_put, bool_decide_eq_true_2 by reflexivity. lia.
  - apply Forall_app. split; [|apply Forall_app; split];
      [|apply innerProofWrites_puts|exact Hwrites].
    unfold nullifierWrites.
    destruct (InnerProofData.isPadding tx), (toBigIntBE (InnerProofData.nullifier1 tx) =? 0),
      (toBigIntBE (InnerProofData.nullifier2 tx) =? 0); now repeat constructor.
Qed.

Lemma rootsMatch_commit rollup s :
  rootsMatch (treeDb := layered) rollup (LayeredTrees.commit s) = rootsMatch (treeDb := layered) rollup s.
Proof. unfold rootsMatch. cbn [WorldStateDb.getRoot layeredTrees]. now rewrite !getRoot_commit. Qed.

(** After [updateDbs] has run on a block whose rollup has an inner proof,
    nothing is staged, and the roots of the rollup are those of the trees or
    the DATA tree extends past the start index of the rollup. *)
Lemma updateDbs_leaves_trees_settled block rollup (w : W) :
  Env.RollupProofData_fromBuffer (Block.rollupProofData block) = Some rollup ->
  RollupProofData.innerProofData rollup <> [] ->
  let t1 := worldStateDb (final (updateDbs (treeDb := layered) block w)) in
  LayeredTrees.staged t1 = LayeredTrees.noWrites
  /\ (rootsMatch (treeDb := layered) rollup t1 = true
      \/ RollupProofData.dataStartIndex rollup < LayeredTrees.getSize t1 DATA).
Proof.
  intros Hdec Hinner t1. subst t1.
  destruct (updateDbs_trees (treeDb := layered) block rollup w Hdec) as [-> _].
  rewrite bind_readTrees.
  destruct (rootsMatch rollup (worldStateDb w)) eqn:Hours.
  - simpl. split; [reflexivity|]. left. now rewrite rootsMatch_commit.
  - rewrite (bind_Returned _ _ w tt (final (worldStateDb_rollback (treeDb := layered) w)))
      by reflexivity.
    set (w0 := final (worldStateDb_rollback (treeDb := layered) w)).
    destruct (Z_le_gt_dec (LayeredTrees.getSize (worldStateDb w0) DATA)
                (RollupProofData.dataStartIndex rollup)) as [Hsize|Hsize].
    + destruct (addRollupToWorldState_trees (treeDb := layered) rollup w0 Hsize)
        as (writes & -> & Hwrites).
      split; [reflexivity|]. right.
      cbn [WorldStateDb.commit layeredTrees]. rewrite getSize_commit.
      destruct (RollupProofData.innerProofData rollup) as [|tx rest]; [contradiction|].
      now apply getSize_after_inner_proofs.
    + pose proof (addRollupToWorldState_log (treeDb := layered) rollup w0) as Hlog.
      cbv zeta in Hlog.
      match type of Hlog with
      | if ?c then _ else _ => destruct c eqn:Hguard
      end.
      2:{ rewrite Z.gtb_ltb in Hguard. apply Z.ltb_ge in Hguard.
          change (LayeredTrees.getSize (worldStateDb w0) DATA
                  <= RollupProofData.dataStartIndex rollup) in Hguard. lia. }
      rewrite Hlog. split; [reflexivity|]. right. cbn [final]. simpl in Hsize |- *. lia.
Qed.

(** On trees so settled, [updateDbs] changes nothing in the tree store, and
    all it calls on it is [commit] or [rollback]. *)
Lemma updateDbs_on_settled_trees block rollup (w : W) :
  Env.RollupProofData_fromBuffer (Block.rollupProofData block) = Some rollup ->
  LayeredTrees.staged (worldStateDb w) = LayeredTrees.noWrites ->
  rootsMatch (treeDb := layered) rollup (worldStateDb w) = true
  \/ RollupProofData.dataStartIndex rollup < LayeredTrees.getSize (worldStateDb w) DATA ->
  let w' := final (updateDbs (treeDb := layered) block w) in
  worldStateDb w' = worldStateDb w
  /\ (treeLog w' = treeLog w ++ [TreeCommit] \/ treeLog w' = treeLog w ++ [TreeRollback]).
Proof.
  intros Hdec Hclean Hsettled w'. subst w'.
  destruct (updateDbs_trees (treeDb := layered) block rollup w Hdec) as [-> ->].
  rewrite bind_readTrees.
  destruct (rootsMatch rollup (worldStateDb w)) eqn:Hours.
  - simpl. split; [now apply commit_clean|now left].
  - destruct Hsettled as [?|Hsize]; [discriminate|].
    rewrite (bind_Returned _ _ w tt (final (worldStateDb_rollback (treeDb := layered) w)))
      by reflexivity.
    set (w0 := final (worldStateDb_rollback (treeDb := layered) w)).
    assert (Hw0 : worldStateDb w0 = worldStateDb w) by (now apply rollback_clean).
    pose proof (addRollupToWorldState_log (treeDb := layered) rollup w0) as Hlog.
    cbv zeta in Hlog. rewrite Hw0 in Hlog.
    match type of Hlog with
    | if ?c then _ else _ => destruct c eqn:Hguard
    end.
    2:{ rewrite Z.gtb_ltb in Hguard. apply Z.ltb_ge in Hguard.
        change (LayeredTrees.getSize (worldStateDb w) DATA
                <= RollupProofData.dataStartIndex rollup) in Hguard. lia. }
    rewrite Hlog. cbn [final]. split; [exact Hw0|now right].
Qed.

(** X19. On the layered tree store, whatever the relational store,
    running [updateDbs] a second time on a block whose rollup has an inner
    proof leaves the tree store as the first run left it, hence every tree
    size and every tree root; the second run writes no leaf: all it calls on
    the tree store is [commit], when the roots match, or [rollback], after
    which the guard on the size of the DATA tree makes
    [addRollupToWorldState] return at once. *)
Theorem updateDbs_replay_trees block rollup (w : W) :
  Env.RollupProofData_fromBuffer (Block.rollupProofData block) = Some rollup ->
  RollupProofData.innerProofData rollup <> [] ->
  let w1 := final (updateDbs (treeDb := layered) block w) in
  let w2 := final (updateDbs (treeDb := layered) block w1) in
  worldStateDb w2 = worldStateDb w1
  /\ (forall tree, LayeredTrees.getSize (worldStateDb w2) tree
                   = LayeredTrees.getSize (worldStateDb w1) tree)
  /\ (forall tree, LayeredTrees.getRoot treeRoot (worldStateDb w2) tree
                   = LayeredTrees.getRoot treeRoot (worldStateDb w1) tree)
  /\ (treeLog w2 = treeLog w1 ++ [TreeCommit] \/ treeLog w2 = treeLog w1 ++ [TreeRollback]).
Proof.
  intros Hdec Hinner w1 w2.
  destruct (updateDbs_leaves_trees_settled block rollup w Hdec Hinner) as [Hclean Hsettled].
  destruct (updateDbs_on_settled_trees block rollup w1 Hdec Hclean Hsettled) as [Hsame Hlog].
  fold w2 in Hsame, Hlog. rewrite Hsame. repeat split; [exact Hlog].
Qed.

End LayeredReplay.

(** * The properties on concrete rollups *)

Section Examples.

Ltac feed H tac :=
  match type of H with
  | ?A -> _ => let Ha := fresh in assert (Ha : A) by tac; specialize (H Ha); clear Ha
  end.

#[local] Existing Instance tables.
#[local] Existing Instance Stub.trees.
#[local] Existing Instance Stub.blockchain.
#[local] Existing Instance Stub.noteAlgorithms.

(** [updateDbs_commit_or_apply] on a rollup that publishes the roots of the
    trees, and on one that does not. *)
Lemma updateDbs_commit_or_apply_witness :
  (Env.RollupProofData_fromBuffer (t := Stub.env (Some Stub.ownRollup))
     (Block.rollupProofData Stub.ownBlock) = Some Stub.ownRollup
   /\ treeLog (final (updateDbs (env := Stub.env (Some Stub.ownRollup)) Stub.ownBlock Stub.world))
      = [TreeCommit])
  /\ (Env.RollupProofData_fromBuffer (t := Stub.env (Some Stub.paddingRollup))
        (Block.rollupProofData Stub.paddingBlock) = Some Stub.paddingRollup
      /\ treeLog (final (worldStateDb_rollback Stub.world)) = [TreeRollback]
      /\ treeLog
           (final (updateDbs (env := Stub.env (Some Stub.paddingRollup)) Stub.paddingBlock
                     Stub.world))
         = treeLog
             (final (addRollupToWorldState (env := Stub.env (Some Stub.paddingRollup))
                       Stub.paddingRollup (final (worldStateDb_rollback Stub.world))))).
Proof.
  split.
  - split; [reflexivity|].
    apply (updateDbs_commit_or_apply (env := Stub.env (Some Stub.ownRollup))
             Stub.ownBlock Stub.ownRollup Stub.world eq_refl).
    repeat split; vm_compute; reflexivity.
  - split; [reflexivity|].
    pose proof (proj2 (updateDbs_commit_or_apply (env := Stub.env (Some Stub.paddingRollup))
                         Stub.paddingBlock Stub.paddingRollup Stub.world eq_refl)) as Happly.
    cbv zeta in Happly.
    destruct Happly as (Hlog & _ & Hsame & _).
    + intros (Hroot & _). vm_compute in Hroot. discriminate.
    + split; [exact Hlog|exact Hsame].
Defined.

(** [getNextPublishTime_without_pipeline] on the synchronizer as the
    constructor leaves it. *)
Lemma getNextPublishTime_without_pipeline_witness :
  pipeline Stub.world = None
  /\ getNextPublishTime Stub.world = Stub.noTimeouts
  /\ getTxPoolProfile Stub.world = Thrown "TypeError" Stub.world.
Proof.
  split; [reflexivity|].
  apply (getNextPublishTime_without_pipeline Stub.world eq_refl).
Defined.

(** C2, as the claim states it, fails: the rollup has a single inner proof,
    which is padding, the DATA tree is empty, so that the guard does not
    fire, and the two note commitments of the padding inner proof are
    written to the leaves 0 and 1 of the DATA tree. *)
Lemma padding_note_commitments_are_written :
  RollupProofData.innerProofData Stub.paddingRollup = [Stub.padding]
  /\ InnerProofData.isPadding Stub.padding = true
  /\ LayeredTrees.getSize (worldStateDb Stub.world) DATA
     <= RollupProofData.dataStartIndex Stub.paddingRollup
  /\ putsInto DATA
       (treeLog (final (addRollupToWorldState (env := Stub.env None) Stub.paddingRollup
                          Stub.world)))
     = [(RollupProofData.dataStartIndex Stub.paddingRollup + 0,
         InnerProofData.noteCommitment1 Stub.padding);
        (RollupProofData.dataStartIndex Stub.paddingRollup + 1,
         InnerProofData.noteCommitment2 Stub.padding)].
Proof. repeat split. vm_compute. discriminate. Qed.

(** [addRollupToWorldState_note_commitments] on the deposit rollup. *)
Lemma addRollupToWorldState_note_commitments_witness :
  LayeredTrees.getSize (worldStateDb Stub.world) DATA
  <= RollupProofData.dataStartIndex Stub.depositRollup
  /\ exists w' calls,
       addRollupToWorldState (env := Stub.env None) Stub.depositRollup Stub.world
       = Returned tt w'
       /\ treeLog w' = treeLog Stub.world ++ calls
       /\ putsInto DATA calls
          = concat (imap (fun n tx =>
                      [(100 + 2 * Z.of_nat n, InnerProofData.noteCommitment1 tx);
                       (100 + 2 * Z.of_nat n + 1, InnerProofData.noteCommitment2 tx)])
                    (RollupProofData.innerProofData Stub.depositRollup))
       /\ putsInto NULL calls
          = flat_map (fun tx => nullifierLeaf (InnerProofData.nullifier1 tx)
                                ++ nullifierLeaf (InnerProofData.nullifier2 tx))
              (nonPadding (RollupProofData.innerProofData Stub.depositRollup)).
Proof.
  assert (Hsize : LayeredTrees.getSize (worldStateDb Stub.world) DATA
                  <= RollupProofData.dataStartIndex Stub.depositRollup)
    by (vm_compute; discriminate).
  split; [exact Hsize|].
  exact (addRollupToWorldState_note_commitments (env := Stub.env None) Stub.depositRollup
           Stub.world Hsize).
Defined.

(** C3 fails on a rollup whose four defi interaction notes are all the zero
    note of 32 bytes: with four bridge calls per block, rollup 2 writes each
    of them to the DEFI tree, at the indices 8 to 11. *)
Lemma zero_defi_interaction_notes_are_written :
  RollupProofData.defiInteractionNotes Stub.paddingRollup = replicate 4 (Buffer_alloc 32 x00)
  /\ putsInto DEFI
       (treeLog (final (addRollupToWorldState (env := Stub.env None) Stub.paddingRollup
                          Stub.world)))
     = [(8, Buffer_alloc 32 x00); (9, Buffer_alloc 32 x00); (10, Buffer_alloc 32 x00);
        (11, Buffer_alloc 32 x00)].
Proof. split; reflexivity. Qed.

(** [updateDbs_replay_trees] on the block of the padding rollup. *)
Lemma updateDbs_replay_trees_witness :
  let run :=
    updateDbs (treeDb := layeredTrees Stub.treeRoot)
      (env := Stub.env (Some Stub.paddingRollup)) Stub.paddingBlock in
  let w1 := final (run Stub.world) in
  let w2 := final (run w1) in
  Env.RollupProofData_fromBuffer (t := Stub.env (Some Stub.paddingRollup))
    (Block.rollupProofData Stub.paddingBlock) = Some Stub.paddingRollup
  /\ RollupProofData.innerProofData Stub.paddingRollup <> []
  /\ worldStateDb w2 = worldStateDb w1
  /\ (treeLog w2 = treeLog w1 ++ [TreeCommit] \/ treeLog w2 = treeLog w1 ++ [TreeRollback]).
Proof.
  intros run w1 w2.
  assert (Hinner : RollupProofData.innerProofData Stub.paddingRollup <> []) by discriminate.
  split; [reflexivity|]. split; [exact Hinner|].
  destruct (updateDbs_replay_trees Stub.treeRoot (env := Stub.env (Some Stub.paddingRollup))
              Stub.paddingBlock Stub.paddingRollup Stub.world eq_refl Hinner)
    as (Hsame & _ & _ & Hlog).
  split; [exact Hsame|exact Hlog].
Defined.

(** [processDefiProofs_defi_deposit_claim] on the deposit scenario: the
    claim has the id 114, the fee 5 and the interaction nonce 10. *)
Lemma processDefiProofs_defi_deposit_claim_witness :
  exists data,
    RollupProofData.innerProofData Stub.depositRollup !! 7%nat
    = Some (Stub.innerProof DEFI_DEPOSIT x07)
    /\ defiBlobsReadable (env := Stub.env None) (Block.offchainTxData Stub.depositBlock)
         (RollupProofData.innerProofData Stub.depositRollup) 0 = true
    /\ readOffchainDefiDepositData (env := Stub.env None) (Block.offchainTxData Stub.depositBlock)
         (offChainIndexAt (RollupProofData.innerProofData Stub.depositRollup) 7) = Some data
    /\ RollupProofData.bridgeIds Stub.depositRollup !! 2%nat
       = Some (BridgeId.toBuffer (OffchainDefiDepositData.bridgeId data))
    /\ exists w' calls claim,
         processDefiProofs (env := Stub.env None) Stub.depositRollup
           (Block.offchainTxData Stub.depositBlock) Stub.depositBlock Stub.world
         = Returned tt w'
         /\ dbLog w' = dbLog Stub.world ++ calls
         /\ claimsWithId 114 calls = [claim]
         /\ ClaimDao.id claim = 114
         /\ ClaimDao.fee claim = 5
         /\ ClaimDao.interactionNonce claim = 10.
Proof.
  eexists. split; [reflexivity|]. split; [reflexivity|]. split; [reflexivity|].
  split; [reflexivity|].
  apply (processDefiProofs_defi_deposit_claim (env := Stub.env None) Stub.depositRollup
           (Block.offchainTxData Stub.depositBlock) Stub.depositBlock Stub.world 7
           (Stub.innerProof DEFI_DEPOSIT x07) _ 2 eq_refl eq_refl eq_refl eq_refl eq_refl).
  intros [|[|j']] Hlt; [discriminate|discriminate|lia].
Defined.

(** [processDefiProofs_unknown_bridge] on the deposit on a bridge that the
    rollup does not list: the interaction nonce is 2 * 4 - 1. *)
Lemma processDefiProofs_unknown_bridge_witness :
  exists data,
    RollupProofData.innerProofData Stub.depositRollup !! 7%nat
    = Some (Stub.innerProof DEFI_DEPOSIT x07)
    /\ defiBlobsReadable (env := Stub.env None) (Block.offchainTxData Stub.strayDepositBlock)
         (RollupProofData.innerProofData Stub.depositRollup) 0 = true
    /\ readOffchainDefiDepositData (env := Stub.env None)
         (Block.offchainTxData Stub.strayDepositBlock)
         (offChainIndexAt (RollupProofData.innerProofData Stub.depositRollup) 7) = Some data
    /\ (BridgeId.toBuffer (OffchainDefiDepositData.bridgeId data)
        ∉ RollupProofData.bridgeIds Stub.depositRollup)
    /\ exists w' calls claim,
         processDefiProofs (env := Stub.env None) Stub.depositRollup
           (Block.offchainTxData Stub.strayDepositBlock) Stub.strayDepositBlock Stub.world
         = Returned tt w'
         /\ dbLog w' = dbLog Stub.world ++ calls
         /\ claimsWithId 114 calls = [claim]
         /\ DbAddClaim claim ∈ calls
         /\ ClaimDao.interactionNonce claim = 7.
Proof.
  eexists. split; [reflexivity|]. split; [reflexivity|]. split; [reflexivity|].
  assert (Hstray : [x77] ∉ RollupProofData.bridgeIds Stub.depositRollup).
  { intros Hin. apply list_elem_of_In in Hin. simpl in Hin.
    repeat (destruct Hin as [Hin|Hin]; [discriminate|]). exact Hin. }
  split; [exact Hstray|].
  exact (processDefiProofs_unknown_bridge (env := Stub.env None) Stub.depositRollup
           (Block.offchainTxData Stub.strayDepositBlock) Stub.strayDepositBlock Stub.world 7
           (Stub.innerProof DEFI_DEPOSIT x07) _ eq_refl eq_refl eq_refl eq_refl Hstray).
Defined.

(** [offchainTxData_paired_by_non_padding_count] on the deposit scenario:
    the inner proof at position 7 is the first that is not padding and is
    paired with the first blob. *)
Lemma offchainTxData_paired_by_non_padding_count_witness :
  let p := Stub.innerProof DEFI_DEPOSIT x07 in
  let offchainTxData := Block.offchainTxData Stub.depositBlock in
  RollupProofData.innerProofData Stub.depositRollup !! 7%nat = Some p
  /\ InnerProofData.isPadding p = false
  /\ offChainIndexAt (RollupProofData.innerProofData Stub.depositRollup) 7 = 0%nat
  /\ nonPadding (RollupProofData.innerProofData Stub.depositRollup) !! 0%nat = Some p
  /\ (exists w' calls data created,
        processDefiProofs (env := Stub.env None) Stub.depositRollup offchainTxData
          Stub.depositBlock Stub.world = Returned tt w'
        /\ dbLog w' = dbLog Stub.world ++ calls
        /\ offchainTxData !! 0%nat ≫= Stub.offchainDefiDepositData = Some data
        /\ claimsWithId 114 calls
           = [defiDepositClaim (env := Stub.env None) Stub.depositRollup p 7 data created])
  /\ (exists rollupDao tx,
        dbLog (final (confirmOrAddRollupToDb (env := Stub.env None) Stub.depositRollup
                        offchainTxData Stub.depositBlock Stub.world))
        = dbLog Stub.world ++ [DbAddRollup rollupDao]
        /\ RollupProofDao.txs (RollupDao.rollupProof rollupDao) !! 0%nat = Some tx
        /\ TxDao.id tx = [x07]
        /\ TxDao.proofData tx = [x07; x07]
        /\ TxDao.offchainTxData tx = Some [x12; x0a]
        /\ TxDao.txType tx = TX_DEFI_DEPOSIT).
Proof.
  intros p offchainTxData.
  destruct (offchainTxData_paired_by_non_padding_count (env := Stub.env None)
              Stub.depositRollup offchainTxData Stub.depositBlock Stub.world 7 p
              eq_refl eq_refl) as (Hk & Hdefi & Hrebuilt).
  split; [reflexivity|]. split; [reflexivity|]. split; [reflexivity|].
  split; [exact Hk|]. split; [exact (Hdefi eq_refl eq_refl)|].
  destruct (Hrebuilt eq_refl) as (rollupDao & tx & Hlog & Htx & _ & Hid & Hdata & Hblob & Htype).
  exists rollupDao, tx.
  exact (conj Hlog (conj Htx (conj Hid (conj Hdata (conj Hblob Htype))))).
Defined.

(** [confirmOrAddRollupToDb_by_hash] on the deposit rollup, seven padding
    inner proofs and a DEFI_DEPOSIT: first with a relational store that does
    not know it, then, once [updateDbs] has added it, for the block arriving
    again a second later. *)
Lemma confirmOrAddRollupToDb_by_hash_witness :
  let offchainTxData := Block.offchainTxData Stub.depositBlock in
  let w1 :=
    final (updateDbs (env := Stub.env (Some Stub.depositRollup)) Stub.depositBlock Stub.world) in
  let added :=
    final (confirmOrAddRollupToDb (env := Stub.env None) Stub.depositRollup offchainTxData
             Stub.depositBlock Stub.world) in
  let confirmed :=
    final (confirmOrAddRollupToDb (env := Stub.env None) Stub.depositRollup offchainTxData
             Scenario.laterDepositBlock w1) in
  (RollupDb.getRollupProof (rollupDb Stub.world) (RollupProofData.rollupHash Stub.depositRollup)
     true = None
   /\ exists rollupDao,
       dbLog added = dbLog Stub.world ++ [DbAddRollup rollupDao]
       /\ RollupDao.id rollupDao = 2
       /\ RollupDao.gasUsed rollupDao = Some 1000000
       /\ RollupProofDao.id (RollupDao.rollupProof rollupDao) = [xaa; x02]
       /\ map TxDao.id (RollupProofDao.txs (RollupDao.rollupProof rollupDao)) = [[x07]]
       /\ map TxDao.txType (RollupProofDao.txs (RollupDao.rollupProof rollupDao))
          = [TX_DEFI_DEPOSIT]
       /\ map TxDao.offchainTxData (RollupProofDao.txs (RollupDao.rollupProof rollupDao))
          = [Some [x12; x0a]])
  /\ (RollupDb.getRollupProof (rollupDb w1) (RollupProofData.rollupHash Stub.depositRollup) true
      = Some Scenario.depositProof
      /\ exists assetMetrics received,
          dbLog confirmed
          = dbLog w1 ++ [DbConfirmMined 2 1000000 30 6000 [xee] [] [[x07]] assetMetrics]
          /\ metricsLog confirmed
             = metricsLog w1 ++ [TxSettlementDuration 1000; RollupReceived received]).
Proof.
  intros offchainTxData w1 added confirmed.
  assert (Hnone : RollupDb.getRollupProof (rollupDb Stub.world)
                    (RollupProofData.rollupHash Stub.depositRollup) true = None)
    by (vm_compute; reflexivity).
  assert (Hfound : RollupDb.getRollupProof (rollupDb w1)
                     (RollupProofData.rollupHash Stub.depositRollup) true
                   = Some Scenario.depositProof)
    by (vm_compute; reflexivity).
  split.
  - split; [exact Hnone|].
    destruct (proj2 (confirmOrAddRollupToDb_by_hash (env := Stub.env None) Stub.depositRollup
                       offchainTxData Stub.depositBlock Stub.world) Hnone)
      as (rollupDao & Hlog & Hid & Hgas & _ & _ & _ & Hhash & _ & Hids & _ & Htypes & Hblobs
          & _).
    exists rollupDao.
    exact (conj Hlog (conj Hid (conj Hgas (conj Hhash (conj Hids (conj Htypes Hblobs)))))).
  - split; [exact Hfound|].
    destruct (proj1 (confirmOrAddRollupToDb_by_hash (env := Stub.env None) Stub.depositRollup
                       offchainTxData Scenario.laterDepositBlock w1) Scenario.depositProof
                Hfound) as (Hlog & received & Hmetrics).
    eexists _, received. exact (conj Hlog Hmetrics).
Defined.

(** [syncStateFromInitFiles_cases] without an account data file, with
    computed roots that are not the expected ones, and with computed roots
    that are. *)
Lemma syncStateFromInitFiles_cases_witness :
  let file := Some "accounts"%string in
  syncStateFromInitFiles
    (initHelpers := Stub.initHelpers None [Stub.account] Stub.initRoots [xd1] [xd3] [xd2])
    Stub.world = Returned tt Stub.world
  /\ (exists e w',
        syncStateFromInitFiles
          (initHelpers := Stub.initHelpers file [Stub.account] Stub.initRoots [xd1] [x00] [xd2])
          Stub.world = Thrown e w'
        /\ rollupDb w' = rollupDb Stub.world)
  /\ (exists w',
        syncStateFromInitFiles
          (initHelpers := Stub.initHelpers file [Stub.account] Stub.initRoots [xd1] [xd3] [xd2])
          Stub.world = Returned tt w'
        /\ dbLog w' = [DbAddAccounts [AccountDao.mk [xa1] [xa2] 1]]).
Proof.
  intros file. split; [|split].
  - apply (proj1 (syncStateFromInitFiles_cases
                    (initHelpers := Stub.initHelpers None [Stub.account] Stub.initRoots
                                      [xd1] [xd3] [xd2])
                    (env := Stub.env None) Stub.world)).
    left. reflexivity.
  - pose proof (proj2 (syncStateFromInitFiles_cases
                         (initHelpers := Stub.initHelpers file [Stub.account] Stub.initRoots
                                           [xd1] [x00] [xd2])
                         (env := Stub.env None) Stub.world)) as Hcases.
    cbv zeta in Hcases.
    feed Hcases ltac:(vm_compute; reflexivity). do 4 feed Hcases ltac:(discriminate).
    destruct Hcases as [Hfatal _].
    feed Hfatal ltac:(right; left; discriminate).
    destruct Hfatal as (e & w' & Hthrow & Hdb & _).
    exists e, w'. exact (conj Hthrow Hdb).
  - pose proof (proj2 (syncStateFromInitFiles_cases
                         (initHelpers := Stub.initHelpers file [Stub.account] Stub.initRoots
                                           [xd1] [xd3] [xd2])
                         (env := Stub.env None) Stub.world)) as Hcases.
    cbv zeta in Hcases.
    feed Hcases ltac:(vm_compute; reflexivity). do 4 feed Hcases ltac:(discriminate).
    destruct Hcases as [_ Hpersist].
    feed Hpersist ltac:(split; [reflexivity|split; reflexivity]).
    destruct Hpersist as (w' & Hrun & _ & Hlog & _).
    exists w'. exact (conj Hrun Hlog).
Defined.

End Examples.

(** * Further properties of the synchronizer *)

(** ** Big-endian integers *)

Section BigEndian.

Lemma Z_of_byte_bounds (b : byte) : 0 <= Z.of_N (Byte.to_N b) < 256.
Proof. pose proof (Byte.to_N_bounded b). lia. Qed.

Lemma Z_of_byte_zero (b : byte) : Z.of_N (Byte.to_N b) = 0 <-> b = x00.
Proof.
  split; [|now intros ->].
  intros Hz. assert (Hn : Byte.to_N b = 0%N) by lia.
  pose proof (Byte.of_to_N b) as Hb. rewrite Hn in Hb. simpl in Hb. now injection Hb.
Qed.

Lemma toBigIntBE_from (buf : Buffer) :
  forall acc,
  fold_left (fun acc b => acc * 256 + Z.of_N (Byte.to_N b)) buf acc
  = acc * 256 ^ Z.of_nat (length buf) + toBigIntBE buf.
Proof.
  unfold toBigIntBE. induction buf as [|b buf IH]; intros acc.
  - simpl. lia.
  - cbn [fold_left length]. rewrite IH, (IH (0 * 256 + _)).
    rewrite Nat2Z.inj_succ, Z.pow_succ_r by lia. ring.
Qed.

Lemma toBigIntBE_cons b (buf : Buffer) :
  toBigIntBE (b :: buf)
  = Z.of_N (Byte.to_N b) * 256 ^ Z.of_nat (length buf) + toBigIntBE buf.
Proof. unfold toBigIntBE at 1. cbn [fold_left]. rewrite toBigIntBE_from. ring. Qed.

Lemma toBigIntBE_snoc (buf : Buffer) b :
  toBigIntBE (buf ++ [b]) = toBigIntBE buf * 256 + Z.of_N (Byte.to_N b).
Proof. unfold toBigIntBE. now rewrite fold_left_app. Qed.

(** The integer read from a buffer of [n] bytes lies in [0, 256^n). *)
Lemma toBigIntBE_bounds (buf : Buffer) :
  0 <= toBigIntBE buf < 256 ^ Z.of_nat (length buf).
Proof.
  induction buf as [|b buf IH] using rev_ind.
  - simpl. unfold toBigIntBE. simpl. lia.
  - rewrite toBigIntBE_snoc, length_app. cbn [length].
    rewrite Nat2Z.inj_add, Z.pow_add_r by lia. change (256 ^ Z.of_nat 1) with 256.
    pose proof (Z_of_byte_bounds b). nia.
Qed.

(** It is zero exactly when every byte of the buffer is zero. *)
Lemma toBigIntBE_zero (buf : Buffer) :
  toBigIntBE buf = 0 <-> Forall (fun b => b = x00) buf.
Proof.
  induction buf as [|b buf IH] using rev_ind.
  - split; [constructor|reflexivity].
  - rewrite toBigIntBE_snoc, Forall_app, Forall_singleton, <- IH, <- Z_of_byte_zero.
    pose proof (Z_of_byte_bounds b). pose proof (toBigIntBE_bounds buf). lia.
Qed.

Lemma Z_of_byte_of_Z (z : Z) : Z.of_N (Byte.to_N (byte_of_Z z)) = z mod 256.
Proof.
  unfold byte_of_Z. pose proof (Z.mod_pos_bound z 256 ltac:(lia)) as Hb.
  destruct (Byte.of_N (Z.to_N (z mod 256))) as [b|] eqn:E.
  - apply Byte.to_of_N in E. rewrite E. lia.
  - apply Byte.of_N_None_iff in E. lia.
Qed.

Lemma length_toBufferBE (n : Z) (width : nat) : length (toBufferBE n width) = width.
Proof.
  revert n. induction width as [|w IH]; intros n; [reflexivity|].
  cbn [toBufferBE]. rewrite length_app, IH. simpl. lia.
Qed.

(** Reading back what [toBufferBE] wrote on [width] bytes gives the integer
    modulo [256^width]. *)
Lemma toBigIntBE_toBufferBE (n : Z) (width : nat) :
  toBigIntBE (toBufferBE n width) = n mod 256 ^ Z.of_nat width.
Proof.
  revert n. induction width as [|w IH]; intros n.
  - simpl. unfold toBigIntBE. simpl. now rewrite Z.mod_1_r.
  - cbn [toBufferBE]. rewrite toBigIntBE_snoc, IH, Z_of_byte_of_Z.
    rewrite Nat2Z.inj_succ, Z.pow_succ_r by lia.
    rewrite (Z.rem_mul_r n 256 (256 ^ Z.of_nat w)) by lia. ring.
Qed.

End BigEndian.

(** ** More on [addRollupToWorldState] *)

Section TreeWrites.

Context {T D Profile : Type}.
Context {treeDb : WorldStateDb.t T} {relDb : RollupDb.t D} {chain : Blockchain.t}
        {noteAlgo : NoteAlgorithms.t} {env : Env.t Profile}.

Abbreviation W := (WorldState T D Profile).

Lemma dataLeaves_indices dataStartIndex (proofs : list InnerProofData.t) :
  forall i,
  map fst
    (concat (imap (fun n tx =>
                     [(dataStartIndex + 2 * (i + Z.of_nat n), InnerProofData.noteCommitment1 tx);
                      (dataStartIndex + 2 * (i + Z.of_nat n) + 1,
                       InnerProofData.noteCommitment2 tx)]) proofs))
  = seqZ (dataStartIndex + 2 * i) (2 * Z.of_nat (length proofs)).
Proof.
  induction proofs as [|tx rest IH]; intros i; [reflexivity|].
  rewrite imap_cons. cbn [concat map app fst length].
  rewrite (imap_ext _ (fun n tx =>
             [(dataStartIndex + 2 * (i + 1 + Z.of_nat n), InnerProofData.noteCommitment1 tx);
              (dataStartIndex + 2 * (i + 1 + Z.of_nat n) + 1,
               InnerProofData.noteCommitment2 tx)])).
  2:{ intros n x _. unfold compose.
      replace (i + Z.of_nat (S n)) with (i + 1 + Z.of_nat n) by lia. reflexivity. }
  rewrite IH. change (Z.of_nat 0) with 0.
  rewrite (seqZ_cons (dataStartIndex + 2 * i)) by lia.
  rewrite (seqZ_cons (Z.succ (dataStartIndex + 2 * i))) by lia.
  f_equal; [f_equal; lia|]. f_equal; [lia|]. f_equal; lia.
Qed.

(** X1. Past its guard, [addRollupToWorldState] writes the DATA tree at the
    indices [dataStartIndex], [dataStartIndex + 1], ... up to
    [dataStartIndex + 2 * innerProofData.length - 1], each once and in
    increasing order: the rollup fills a contiguous range of leaves. *)
Theorem addRollupToWorldState_data_range rollup (w : W) :
  WorldStateDb.getSize (worldStateDb w) DATA <= RollupProofData.dataStartIndex rollup ->
  exists w' calls,
    addRollupToWorldState rollup w = Returned tt w'
    /\ treeLog w' = treeLog w ++ calls
    /\ map fst (putsInto DATA calls)
       = seqZ (RollupProofData.dataStartIndex rollup)
           (2 * Z.of_nat (length (RollupProofData.innerProofData rollup))).
Proof.
  intros Hsize. pose proof (addRollupToWorldState_log rollup w) as Hlog. cbv zeta in Hlog.
  destruct (WorldStateDb.getSize (worldStateDb w) DATA >? RollupProofData.dataStartIndex rollup)
    eqn:E; [apply Z.gtb_lt in E; lia|].
  destruct Hlog as (w' & dataRoot & Hrun & Hl).
  eexists w', _. split; [exact Hrun|]. split; [exact Hl|].
  rewrite !putsInto_app, putsInto_DATA_innerProofWrites, putsInto_DATA_defiNoteWrites.
  cbn [putsInto omap list_omap]. simpl app. rewrite app_nil_r, dataLeaves_indices.
  f_equal. lia.
Qed.

Lemma putInnerProofs_state dataStartIndex proofs i (w : W) :
  exists w',
    putInnerProofs dataStartIndex proofs i w = Returned tt w'
    /\ treeLog w' = treeLog w ++ innerProofWrites dataStartIndex i proofs
    /\ worldStateDb w' = applyWrites (innerProofWrites dataStartIndex i proofs) (worldStateDb w).
Proof.
  destruct (putInnerProofs_log dataStartIndex proofs i w) as (w' & E & L).
  destruct (tracksTrees_putInnerProofs dataStartIndex proofs i w) as ([] & w'' & calls & E' & L' & S).
  rewrite E in E'. injection E' as <-. rewrite L in L'. apply app_inv_head in L'. subst calls.
  exists w'. repeat split; assumption.
Qed.

Lemma putsInto_ROOT_innerProofWrites dataStartIndex proofs :
  forall i, putsInto ROOT (innerProofWrites dataStartIndex i proofs) = [].
Proof.
  induction proofs as [|tx rest IH]; intros i; [reflexivity|].
  rewrite innerProofWrites_cons, putsInto_app, IH.
  unfold innerProofWritesAt, nullifierWrites.
  destruct (InnerProofData.isPadding tx), (toBigIntBE (InnerProofData.nullifier1 tx) =? 0),
    (toBigIntBE (InnerProofData.nullifier2 tx) =? 0); reflexivity.
Qed.

Lemma putsInto_ROOT_defiNoteWrites start notes :
  forall i, putsInto ROOT (defiNoteWrites start i notes) = [].
Proof.
  induction notes as [|note rest IH]; intros i; [reflexivity|].
  rewrite defiNoteWrites_cons, putsInto_app, IH. unfold defiNoteWritesAt.
  destruct (decide (note = [])) as [E|E];
    [rewrite !bool_decide_eq_true_2 by exact E|rewrite !bool_decide_eq_false_2 by exact E];
    reflexivity.
Qed.

(** X2. Past its guard, [addRollupToWorldState] writes the ROOT tree once,
    at index [rollupId + 1], and the value written is the root of the DATA
    tree as it is after the writes for the inner proofs of the rollup. *)
Theorem addRollupToWorldState_root_entry rollup (w : W) :
  WorldStateDb.getSize (worldStateDb w) DATA <= RollupProofData.dataStartIndex rollup ->
  exists w' calls,
    addRollupToWorldState rollup w = Returned tt w'
    /\ treeLog w' = treeLog w ++ calls
    /\ putsInto ROOT calls
       = [(RollupProofData.rollupId rollup + 1,
           WorldStateDb.getRoot
             (applyWrites
                (innerProofWrites (RollupProofData.dataStartIndex rollup) 0
                   (RollupProofData.innerProofData rollup))
                (worldStateDb w)) DATA)].
Proof.
  intros Hsize. unfold addRollupToWorldState. rewrite bind_readTrees.
  destruct (WorldStateDb.getSize (worldStateDb w) DATA >? RollupProofData.dataStartIndex rollup)
    eqn:E; [apply Z.gtb_lt in E; lia|].
  destruct (putInnerProofs_state (RollupProofData.dataStartIndex rollup)
              (RollupProofData.innerProofData rollup) 0 w) as (w1 & E1 & L1 & S1).
  rewrite (bind_Returned _ _ _ _ _ E1).
  set (root := WorldStateDb.getRoot (worldStateDb w1) DATA).
  rewrite (bind_Returned _ _ w1 tt
             (final (worldStateDb_put ROOT (RollupProofData.rollupId rollup + 1) root w1)))
    by reflexivity.
  destruct (putDefiInteractionNotes_log
              (RollupProofData.rollupId rollup * Env.NUM_BRIDGE_CALLS_PER_BLOCK)
              (RollupProofData.defiInteractionNotes rollup) 0
              (final (worldStateDb_put ROOT (RollupProofData.rollupId rollup + 1) root w1)))
    as (w3 & E3 & L3).
  rewrite (bind_Returned _ _ _ _ _ E3).
  eexists _, _. split; [reflexivity|]. split.
  - cbn [worldStateDb_commit onTrees final treeLog]. rewrite L3. cbn [final worldStateDb_put onTrees treeLog].
    rewrite L1, <- !app_assoc. reflexivity.
  - rewrite !putsInto_app, putsInto_ROOT_innerProofWrites, putsInto_ROOT_defiNoteWrites.
    subst root. rewrite S1. reflexivity.
Qed.

End TreeWrites.

Section NullifierWrites.

Context {T D Profile : Type}.
Context {treeDb : WorldStateDb.t T} {env : Env.t Profile}.

Abbreviation W := (WorldState T D Profile).

Lemma nullifierLeaf_elem nullifier leaf :
  leaf ∈ nullifierLeaf nullifier ->
  leaf = (toBigIntBE nullifier, toBufferBE 1 32)
  /\ 0 < toBigIntBE nullifier
  /\ ~ Forall (fun b => b = x00) nullifier.
Proof.
  unfold nullifierLeaf. destruct (toBigIntBE nullifier =? 0) eqn:E; [now intros ?%elem_of_nil|].
  intros ->%list_elem_of_singleton. apply Z.eqb_neq in E.
  pose proof (toBigIntBE_bounds nullifier). split; [reflexivity|]. split; [lia|].
  now rewrite <- toBigIntBE_zero.
Qed.

(** X3. Past its guard, every write of [addRollupToWorldState] into the
    NULL tree comes from a nullifier of an inner proof that is not padding
    and that has a byte other than zero; it goes to the index that the
    nullifier denotes, which is positive (index 0 is never written), and its
    value is the number one on 32 bytes. *)
Theorem addRollupToWorldState_nullifier_writes rollup (w : W) :
  WorldStateDb.getSize (worldStateDb w) DATA <= RollupProofData.dataStartIndex rollup ->
  exists w' calls,
    addRollupToWorldState rollup w = Returned tt w'
    /\ treeLog w' = treeLog w ++ calls
    /\ forall index value,
         (index, value) ∈ putsInto NULL calls ->
         exists tx nullifier,
           tx ∈ RollupProofData.innerProofData rollup
           /\ InnerProofData.isPadding tx = false
           /\ (nullifier = InnerProofData.nullifier1 tx
               \/ nullifier = InnerProofData.nullifier2 tx)
           /\ ~ Forall (fun b => b = x00) nullifier
           /\ index = toBigIntBE nullifier
           /\ 0 < index
           /\ value = toBufferBE 1 32
           /\ length value = 32%nat
           /\ toBigIntBE value = 1.
Proof.
  intros Hsize. pose proof (addRollupToWorldState_log rollup w) as Hlog. cbv zeta in Hlog.
  destruct (WorldStateDb.getSize (worldStateDb w) DATA >? RollupProofData.dataStartIndex rollup)
    eqn:E; [apply Z.gtb_lt in E; lia|].
  destruct Hlog as (w' & dataRoot & Hrun & Hl).
  eexists w', _. split; [exact Hrun|]. split; [exact Hl|].
  intros index value.
  rewrite !putsInto_app, putsInto_NULL_innerProofWrites, putsInto_NULL_defiNoteWrites.
  cbn [putsInto omap list_omap]. simpl app. rewrite app_nil_r.
  intros Hin. apply list_elem_of_In, in_flat_map in Hin as (tx & Htx & Hleaf).
  apply list_elem_of_In in Hleaf.
  unfold nonPadding in Htx. apply filter_In in Htx as [Htx Hpad].
  apply negb_true_iff in Hpad. apply list_elem_of_In in Htx.
  apply elem_of_app in Hleaf as [Hleaf|Hleaf];
    apply nullifierLeaf_elem in Hleaf as (Heq & Hpos & Hnz); injection Heq as -> ->.
  - exists tx, (InnerProofData.nullifier1 tx). repeat split; auto.
  - exists tx, (InnerProofData.nullifier2 tx). repeat split; auto.
Qed.

End NullifierWrites.

Section GuardedReplay.

Context {T D Profile : Type}.
Context {treeDb : WorldStateDb.t T} {relDb : RollupDb.t D} {chain : Blockchain.t}
        {noteAlgo : NoteAlgorithms.t} {env : Env.t Profile}.

Abbreviation W := (WorldState T D Profile).

(** X4. When the roots of the block are not those of the trees and, once the
    staged writes are rolled back, the DATA tree already extends past the
    start index of the rollup, all that [updateDbs] calls on the tree store
    is [rollback]: no leaf is written and nothing is committed. *)
Theorem updateDbs_rolls_back_only block rollup (w : W) :
  Env.RollupProofData_fromBuffer (Block.rollupProofData block) = Some rollup ->
  rootsMatch rollup (worldStateDb w) = false ->
  RollupProofData.dataStartIndex rollup
  < WorldStateDb.getSize (WorldStateDb.rollback (worldStateDb w)) DATA ->
  treeLog (final (updateDbs block w)) = treeLog w ++ [TreeRollback]
  /\ worldStateDb (final (updateDbs block w)) = WorldStateDb.rollback (worldStateDb w).
Proof.
  intros Hdec Hours Hsize.
  destruct (updateDbs_trees block rollup w Hdec) as [-> ->].
  rewrite bind_readTrees, Hours.
  rewrite (bind_Returned _ _ w tt (final (worldStateDb_rollback w))) by reflexivity.
  pose proof (addRollupToWorldState_log rollup (final (worldStateDb_rollback w))) as Hlog.
  cbv zeta in Hlog. cbn [final worldStateDb_rollback onTrees worldStateDb] in Hlog.
  apply Z.gtb_lt in Hsize. rewrite Hsize in Hlog.
  cbn [final worldStateDb_rollback onTrees]. rewrite Hlog. now split.
Qed.

End GuardedReplay.

(** ** More on [processDefiProofs] *)

Section DefiProofs.

Context {T D Profile : Type}.
Context {relDb : RollupDb.t D} {noteAlgo : NoteAlgorithms.t} {env : Env.t Profile}.

Abbreviation W := (WorldState T D Profile).

Lemma bind_assoc_at {A B C} (c : M W A) (k : A -> M W B) (k' : B -> M W C) (w : W) :
  bind (bind c k) k' w = bind c (fun a => bind (k a) k') w.
Proof. unfold bind. now destruct (c w). Qed.

Lemma bind_ext_at {A B} (c : M W A) (k k' : A -> M W B) (w : W) :
  (forall a w', k a w' = k' a w') -> bind c k w = bind c k' w.
Proof. intros Hk. unfold bind. now destruct (c w). Qed.

(** The loop over the inner proofs can be cut at any position: the second
    part starts at the position and the off-chain index that the first part
    has reached. *)
Lemma processInnerProofs_app rollup offchainTxData block pre rest :
  forall i k (w : W),
  processInnerProofs rollup offchainTxData block (pre ++ rest) i k w
  = bind (processInnerProofs rollup offchainTxData block pre i k)
      (fun _ => processInnerProofs rollup offchainTxData block rest
                  (i + Z.of_nat (length pre)) (k + length (nonPadding pre))) w.
Proof.
  induction pre as [|p pre IH]; intros i k w.
  - simpl. unfold bind, ret. now rewrite Z.add_0_r, Nat.add_0_r.
  - cbn [app processInnerProofs]. unfold nonPadding. cbn [List.filter].
    replace (i + Z.of_nat (length (p :: pre))) with (i + 1 + Z.of_nat (length pre))
      by (cbn [length]; lia).
    destruct (InnerProofData.isPadding p); cbn [negb].
    + now rewrite IH.
    + rewrite bind_assoc_at. apply bind_ext_at. intros _ w'. rewrite IH.
      cbn [length]. now rewrite Nat.add_succ_r.
Qed.

Lemma defiBlobsReadable_run rollup offchainTxData block proofs :
  forall i k (w : W),
  defiBlobsReadable offchainTxData proofs k = true ->
  exists w', processInnerProofs rollup offchainTxData block proofs i k w = Returned tt w'.
Proof.
  intros i k w Hread.
  destruct (processInnerProofs_claims rollup offchainTxData block proofs i k w Hread)
    as (w' & _ & Hrun & _).
  now exists w'.
Qed.

(** X5. If a DEFI_DEPOSIT finds no blob that decodes at its off-chain index,
    while those before it do, [processDefiProofs] throws in the state in
    which the processing of the inner proofs before it has ended: what these
    wrote to the relational store stays written, and neither the later inner
    proofs nor the interaction results are processed. *)
Theorem processDefiProofs_throws_at_unreadable rollup offchainTxData block (w : W) pre p post :
  RollupProofData.innerProofData rollup = pre ++ p :: post ->
  InnerProofData.proofId p = DEFI_DEPOSIT ->
  defiBlobsReadable offchainTxData pre 0 = true ->
  readOffchainDefiDepositData offchainTxData (length (nonPadding pre)) = None ->
  exists w',
    processInnerProofs rollup offchainTxData block pre 0 0 w = Returned tt w'
    /\ processDefiProofs rollup offchainTxData block w
       = Thrown "OffchainDefiDepositData.fromBuffer" w'.
Proof.
  intros Hinner Hdefi Hread Hnone.
  destruct (defiBlobsReadable_run rollup offchainTxData block pre 0 0%nat w Hread) as (w' & Hpre).
  exists w'. split; [exact Hpre|].
  unfold processDefiProofs. rewrite Hinner.
  apply bind_Thrown. rewrite processInnerProofs_app, (bind_Returned _ _ _ _ _ Hpre).
  cbn [processInnerProofs].
  assert (InnerProofData.isPadding p = false) as ->.
  { unfold InnerProofData.isPadding. apply bool_decide_eq_false. now rewrite Hdefi. }
  apply bind_Thrown. unfold processDefiProof.
  rewrite Hdefi, Z.add_0_l, Nat.add_0_l, Hnone. reflexivity.
Qed.


Lemma processInnerProofs_calls rollup offchainTxData block proofs :
  forall i k (w : W),
  defiBlobsReadable offchainTxData proofs k = true ->
  exists w' calls,
    processInnerProofs rollup offchainTxData block proofs i k w = Returned tt w'
    /\ dbLog w' = dbLog w ++ calls
    /\ confirmedClaims calls
       = map (fun p => (InnerProofData.nullifier1 p, Block.created block))
           (List.filter isDefiClaim proofs)
    /\ length (addedClaims calls) = length (List.filter isDefiDeposit proofs)
    /\ resultUpdates calls = [].
Proof.
  induction proofs as [|p rest IH]; intros i k w Hread.
  - exists w, []. repeat split. now rewrite app_nil_r.
  - simpl in Hread. simpl processInnerProofs. cbn [List.filter].
    destruct (InnerProofData.isPadding p) eqn:Hpad.
    + destruct (IH (i + 1) k w Hread) as (w' & calls & Hrun & Hlog & Hc & Ha & Hu).
      apply bool_decide_eq_true in Hpad. unfold isDefiClaim, isDefiDeposit.
      rewrite Hpad. rewrite !bool_decide_eq_false_2 by discriminate.
      exists w', calls. repeat split; assumption.
    + apply andb_true_iff in Hread as [Hhere Hrest].
      destruct (processDefiProof_log rollup offchainTxData block p i k w) as (w1 & E1 & L1).
      { intros Hdefi. rewrite bool_decide_eq_true_2 in Hhere by exact Hdefi.
        now apply bool_decide_eq_true in Hhere. }
      destruct (IH (i + 1) (S k) w1 Hrest) as (w2 & calls2 & E2 & L2 & Hc & Ha & Hu).
      rewrite (bind_Returned _ _ _ _ _ E1).
      eexists w2, (_ ++ calls2). split; [exact E2|].
      split; [rewrite L2, L1, <- app_assoc; reflexivity|].
      unfold confirmedClaims, addedClaims, resultUpdates, isDefiClaim, isDefiDeposit in *.
      rewrite !omap_app, Hc, Hu, length_app, Ha.
      destruct (InnerProofData.proofId p) eqn:Hid; try (repeat split; reflexivity).
      destruct (readOffchainDefiDepositData offchainTxData k) eqn:Hdata;
        [repeat split; reflexivity|].
      rewrite bool_decide_eq_true_2 in Hhere by reflexivity.
      apply bool_decide_eq_true in Hhere. now destruct Hhere.
Qed.

(** X6. When every DEFI_DEPOSIT finds its off-chain data, [processDefiProofs]
    returns and its calls on the relational store are, in this order, those
    for the inner proofs and then one [updateClaimsWithResultRollupId] per
    interaction result of the block, with the nonce of the result and the id
    of the rollup.  Among the former there is one [confirmClaimed] per
    DEFI_CLAIM, in order of position, with the first nullifier of the inner
    proof and the creation time of the block, and one [addClaim] per
    DEFI_DEPOSIT. *)
Theorem processDefiProofs_calls rollup offchainTxData block (w : W) :
  defiBlobsReadable offchainTxData (RollupProofData.innerProofData rollup) 0 = true ->
  exists w' calls,
    processDefiProofs rollup offchainTxData block w = Returned tt w'
    /\ dbLog w' = dbLog w ++ calls
         ++ map (fun defiNote =>
                   DbUpdateClaimsWithResultRollupId (DefiInteractionNote.nonce defiNote)
                     (RollupProofData.rollupId rollup))
              (Block.interactionResult block)
    /\ confirmedClaims calls
       = map (fun p => (InnerProofData.nullifier1 p, Block.created block))
           (List.filter isDefiClaim (RollupProofData.innerProofData rollup))
    /\ length (addedClaims calls)
       = length (List.filter isDefiDeposit (RollupProofData.innerProofData rollup))
    /\ resultUpdates calls = [].
Proof.
  intros Hread. unfold processDefiProofs.
  destruct (processInnerProofs_calls rollup offchainTxData block
              (RollupProofData.innerProofData rollup) 0 0%nat w Hread)
    as (w1 & calls & E1 & L1 & Hc & Ha & Hu).
  destruct (updateClaimsWithResults_log (RollupProofData.rollupId rollup)
              (Block.interactionResult block) w1) as (w2 & E2 & L2).
  rewrite (bind_Returned _ _ _ _ _ E1).
  exists w2, calls. split; [exact E2|].
  split; [rewrite L2, L1, <- app_assoc; reflexivity|].
  repeat split; assumption.
Qed.

End DefiProofs.

(** ** What the processing of a block leaves alone *)

Section BlockSteps.

Context {T D Profile : Type}.
Context {treeDb : WorldStateDb.t T} {relDb : RollupDb.t D} {chain : Blockchain.t}
        {noteAlgo : NoteAlgorithms.t} {env : Env.t Profile}.

Abbreviation W := (WorldState T D Profile).

Lemma blockStep_silent {A} (c : M W A) :
  (forall w, pipeline (final (c w)) = pipeline w /\ pipelines (final (c w)) = pipelines w
             /\ treeLog (final (c w)) = treeLog w /\ dbLog (final (c w)) = dbLog w) ->
  blockStep c.
Proof.
  intros Hc w. destruct (Hc w) as (Hp & Hn & Ht & Hd). split; [exact Hp|]. split; [exact Hn|].
  exists [], []. rewrite !app_nil_r. repeat split; auto.
Qed.

Lemma blockStep_ret {A} (a : A) : blockStep (ret a : M W A).
Proof. apply blockStep_silent. intros w. repeat split. Qed.

Lemma blockStep_throw {A} e : blockStep (throw e : M W A).
Proof. apply blockStep_silent. intros w. repeat split. Qed.

Lemma blockStep_bind {A B} (c : M W A) (k : A -> M W B) :
  blockStep c -> (forall a, blockStep (k a)) -> blockStep (bind c k).
Proof.
  intros Hc Hk w. unfold bind. specialize (Hc w).
  destruct (c w) as [a w1|e w1]; [|exact Hc]. cbn [final] in Hc.
  destruct Hc as (Hp & Hn & tc & dc & Ht & Hd & Ft & Fd).
  destruct (Hk a w1) as (Hp' & Hn' & tc' & dc' & Ht' & Hd' & Ft' & Fd').
  split; [congruence|]. split; [congruence|].
  exists (tc ++ tc'), (dc ++ dc'). rewrite Ht', Hd', Ht, Hd, <- !app_assoc.
  repeat split; apply Forall_app; auto.
Qed.

Lemma blockStep_onTrees f calls :
  Forall (fun call => isTreeWrite call = true) calls -> blockStep (onTrees f calls : M W unit).
Proof.
  intros Hcalls w. repeat split. exists calls, []. rewrite app_nil_r. repeat split; auto.
Qed.

Lemma blockStep_onDb f calls :
  Forall (fun call => isBlockDbCall call = true) calls -> blockStep (onDb f calls : M W unit).
Proof.
  intros Hcalls w. repeat split. exists [], calls. rewrite app_nil_r. repeat split; auto.
Qed.

Lemma blockStep_onMetrics call : blockStep (onMetrics call : M W unit).
Proof. apply blockStep_silent. intros w. repeat split. Qed.

Lemma blockStep_readTrees {A} (f : T -> A) : blockStep (readTrees f : M W A).
Proof. apply blockStep_silent. intros w. repeat split. Qed.

Lemma blockStep_readDb {A} (f : D -> A) : blockStep (readDb f : M W A).
Proof. apply blockStep_silent. intros w. repeat split. Qed.

Lemma blockStep_newDate : blockStep (newDate : M W Date).
Proof. apply blockStep_silent. intros w. repeat split. Qed.

Lemma blockStep_pushBlockBuffer buf : blockStep (pushBlockBuffer buf : M W unit).
Proof. apply blockStep_silent. intros w. repeat split. Qed.

Lemma blockStep_put tree index value : blockStep (worldStateDb_put tree index value : M W unit).
Proof. apply blockStep_onTrees. now repeat constructor. Qed.

Lemma blockStep_commit : blockStep (worldStateDb_commit : M W unit).
Proof. apply blockStep_onTrees. now repeat constructor. Qed.

Lemma blockStep_rollback : blockStep (worldStateDb_rollback : M W unit).
Proof. apply blockStep_onTrees. now repeat constructor. Qed.

Lemma blockStep_confirmMined id gasUsed gasPrice mined ethTxHash ir txIds am :
  blockStep (rollupDb_confirmMined id gasUsed gasPrice mined ethTxHash ir txIds am : M W _).
Proof.
  intros w. repeat split. eexists [], [_]. rewrite app_nil_r. repeat split; auto.
Qed.

Create HintDb blockstep.

#[local] Hint Resolve blockStep_ret blockStep_throw blockStep_bind blockStep_onMetrics
  blockStep_readTrees blockStep_readDb blockStep_newDate blockStep_pushBlockBuffer
  blockStep_put blockStep_commit blockStep_rollback blockStep_confirmMined : blockstep.

Lemma blockStep_addRollupToWorldState rollup :
  blockStep (addRollupToWorldState rollup : M W unit).
Proof.
  assert (Hn : forall n, blockStep (putNullifier n : M W unit)).
  { intros n. unfold putNullifier. destruct (toBigIntBE n =? 0); auto with blockstep. }
  assert (Hi : forall ds proofs i, blockStep (putInnerProofs ds proofs i : M W unit)).
  { intros ds proofs. induction proofs as [|tx rest IH]; intros i; simpl; [auto with blockstep|].
    repeat (apply blockStep_bind; [auto with blockstep|intros _]); [|apply IH].
    destruct (negb (InnerProofData.isPadding tx)); auto with blockstep. }
  assert (Hd : forall start notes i, blockStep (putDefiInteractionNotes start notes i : M W unit)).
  { intros start notes. induction notes as [|note rest IH]; intros i; simpl;
      [auto with blockstep|].
    apply blockStep_bind; [|intros _; apply IH].
    destruct (Buffer_equals note (Buffer_alloc 0 x20)); auto with blockstep. }
  unfold addRollupToWorldState.
  apply blockStep_bind; [auto with blockstep|]. intros currentSize.
  destruct (currentSize >? RollupProofData.dataStartIndex rollup); [auto with blockstep|].
  repeat (apply blockStep_bind; [auto with blockstep|intros _]). auto with blockstep.
Qed.

Lemma blockStep_processDefiProofs rollup offchainTxData block :
  blockStep (processDefiProofs rollup offchainTxData block : M W unit).
Proof.
  assert (Hp : forall p i k,
            blockStep (processDefiProof rollup offchainTxData block p i k : M W unit)).
  { intros p i k. unfold processDefiProof.
    destruct (InnerProofData.proofId p); auto with blockstep.
    - destruct (readOffchainDefiDepositData offchainTxData k); auto with blockstep.
      apply blockStep_bind; [auto with blockstep|]. intros created.
      apply blockStep_onDb. now repeat constructor.
    - apply blockStep_onDb. now repeat constructor. }
  assert (Hi : forall proofs i k,
            blockStep (processInnerProofs rollup offchainTxData block proofs i k : M W unit)).
  { induction proofs as [|p rest IH]; intros i k; simpl; [auto with blockstep|].
    destruct (InnerProofData.isPadding p); [apply IH|].
    apply blockStep_bind; [apply Hp|intros _; apply IH]. }
  assert (Hu : forall rollupId results,
            blockStep (updateClaimsWithResults rollupId results : M W unit)).
  { intros rollupId results. induction results as [|r rest IH]; simpl; [auto with blockstep|].
    apply blockStep_bind; [|intros _; exact IH]. apply blockStep_onDb. now repeat constructor. }
  unfold processDefiProofs. apply blockStep_bind; [apply Hi|intros _; apply Hu].
Qed.

Lemma blockStep_confirmOrAddRollupToDb rollup offchainTxData block :
  blockStep (confirmOrAddRollupToDb rollup offchainTxData block : M W unit).
Proof.
  assert (Ht : forall txs proofs, blockStep (trackSettlementTimes block txs proofs : M W unit)).
  { intros txs proofs. induction proofs as [|p rest IH]; simpl; [auto with blockstep|].
    apply blockStep_bind; [|intros _; exact IH].
    destruct (InnerProofData.isPadding p); [auto with blockstep|].
    destruct (List.find _ txs); auto with blockstep. }
  assert (Hc : forall o : option RollupDao.t,
            blockStep (match o ≫= rollupDaoToBlockBuffer with
                       | Some buf => pushBlockBuffer buf
                       | None => throw "rollupDaoToBlockBuffer"
                       end : M W unit)).
  { intros o. destruct (o ≫= rollupDaoToBlockBuffer); auto with blockstep. }
  unfold confirmOrAddRollupToDb.
  apply blockStep_bind; [auto with blockstep|]. intros am.
  apply blockStep_bind; [auto with blockstep|]. intros [rp|].
  - apply blockStep_bind; [|intros _; apply blockStep_bind; [auto with blockstep|exact Hc]].
    apply blockStep_bind; [auto with blockstep|]. intros dao.
    apply blockStep_bind; [apply Ht|auto with blockstep].
  - apply blockStep_bind; [|intros _; apply blockStep_bind; [auto with blockstep|exact Hc]].
    apply blockStep_bind; [|auto with blockstep].
    apply blockStep_onDb. now repeat constructor.
Qed.

Lemma blockStep_updateDbs block : blockStep (updateDbs block : M W unit).
Proof.
  unfold updateDbs.
  destruct (Env.RollupProofData_fromBuffer (Block.rollupProofData block)) as [rollup|];
    [|auto with blockstep].
  apply blockStep_bind.
  - apply blockStep_bind; [auto with blockstep|]. intros [|]; [auto with blockstep|].
    apply blockStep_bind; [auto with blockstep|intros _; apply blockStep_addRollupToWorldState].
  - intros _. apply blockStep_bind; [apply blockStep_processDefiProofs|].
    intros _. apply blockStep_confirmOrAddRollupToDb.
Qed.

Lemma blockStep_updateDbsEach blocks : blockStep (updateDbsEach blocks : M W unit).
Proof.
  induction blocks as [|block rest IH]; simpl; [auto with blockstep|].
  apply blockStep_bind; [apply blockStep_updateDbs|intros _; exact IH].
Qed.

End BlockSteps.

(** ** The block cache *)

Section BlockCache.

Context {T D Profile : Type}.
Context {treeDb : WorldStateDb.t T} {relDb : RollupDb.t D} {chain : Blockchain.t}
        {noteAlgo : NoteAlgorithms.t} {env : Env.t Profile}.

Abbreviation W := (WorldState T D Profile).

Lemma keepsCache_ret {A} (a : A) : keepsCache (ret a : M W A).
Proof. intros w. reflexivity. Qed.

Lemma keepsCache_throw {A} e : keepsCache (throw e : M W A).
Proof. intros w. reflexivity. Qed.

Lemma keepsCache_bind {A B} (c : M W A) (k : A -> M W B) :
  keepsCache c -> (forall a, keepsCache (k a)) -> keepsCache (bind c k).
Proof.
  intros Hc Hk w. unfold bind. specialize (Hc w).
  destruct (c w) as [a w1|e w1]; [|exact Hc]. cbn [final] in Hc. now rewrite Hk.
Qed.

Lemma keepsCache_onTrees f calls : keepsCache (onTrees f calls : M W unit).
Proof. intros w. reflexivity. Qed.

Lemma keepsCache_onDb f calls : keepsCache (onDb f calls : M W unit).
Proof. intros w. reflexivity. Qed.

Lemma keepsCache_onMetrics call : keepsCache (onMetrics call : M W unit).
Proof. intros w. reflexivity. Qed.

Lemma keepsCache_readTrees {A} (f : T -> A) : keepsCache (readTrees f : M W A).
Proof. intros w. reflexivity. Qed.

Lemma keepsCache_readDb {A} (f : D -> A) : keepsCache (readDb f : M W A).
Proof. intros w. reflexivity. Qed.

Lemma keepsCache_newDate : keepsCache (newDate : M W Date).
Proof. intros w. reflexivity. Qed.

Lemma keepsCache_confirmMined id gasUsed gasPrice mined ethTxHash ir txIds am :
  keepsCache (rollupDb_confirmMined id gasUsed gasPrice mined ethTxHash ir txIds am : M W _).
Proof. intros w. reflexivity. Qed.

Create HintDb cache.

#[local] Hint Resolve keepsCache_ret keepsCache_throw keepsCache_bind keepsCache_onTrees
  keepsCache_onDb keepsCache_onMetrics keepsCache_readTrees keepsCache_readDb
  keepsCache_newDate keepsCache_confirmMined : cache.

#[local] Hint Unfold worldStateDb_put worldStateDb_commit worldStateDb_rollback : cache.

Lemma keepsCache_addRollupToWorldState rollup :
  keepsCache (addRollupToWorldState rollup : M W unit).
Proof.
  assert (Hn : forall n, keepsCache (putNullifier n : M W unit)).
  { intros n. unfold putNullifier. destruct (toBigIntBE n =? 0); auto with cache. }
  assert (Hi : forall ds proofs i, keepsCache (putInnerProofs ds proofs i : M W unit)).
  { intros ds proofs. induction proofs as [|tx rest IH]; intros i; simpl; [auto with cache|].
    repeat (apply keepsCache_bind; [auto with cache|intros _]); [|apply IH].
    destruct (negb (InnerProofData.isPadding tx)); auto with cache. }
  assert (Hd : forall start notes i, keepsCache (putDefiInteractionNotes start notes i : M W unit)).
  { intros start notes. induction notes as [|note rest IH]; intros i; simpl; [auto with cache|].
    apply keepsCache_bind; [|intros _; apply IH].
    destruct (Buffer_equals note (Buffer_alloc 0 x20)); auto with cache. }
  unfold addRollupToWorldState.
  apply keepsCache_bind; [auto with cache|]. intros currentSize.
  destruct (currentSize >? RollupProofData.dataStartIndex rollup); [auto with cache|].
  repeat (apply keepsCache_bind; [auto with cache|intros _]). auto with cache.
Qed.

Lemma keepsCache_processDefiProofs rollup offchainTxData block :
  keepsCache (processDefiProofs rollup offchainTxData block : M W unit).
Proof.
  assert (Hp : forall p i k,
            keepsCache (processDefiProof rollup offchainTxData block p i k : M W unit)).
  { intros p i k. unfold processDefiProof.
    destruct (InnerProofData.proofId p); auto with cache.
    destruct (readOffchainDefiDepositData offchainTxData k); auto with cache. }
  assert (Hi : forall proofs i k,
            keepsCache (processInnerProofs rollup offchainTxData block proofs i k : M W unit)).
  { induction proofs as [|p rest IH]; intros i k; simpl; [auto with cache|].
    destruct (InnerProofData.isPadding p); [apply IH|].
    apply keepsCache_bind; [apply Hp|intros _; apply IH]. }
  assert (Hu : forall rollupId results,
            keepsCache (updateClaimsWithResults rollupId results : M W unit)).
  { intros rollupId results. induction results as [|r rest IH]; simpl; auto with cache. }
  unfold processDefiProofs. apply keepsCache_bind; [apply Hi|intros _; apply Hu].
Qed.

Lemma keepsCache_trackSettlementTimes block txs proofs :
  keepsCache (trackSettlementTimes block txs proofs : M W unit).
Proof.
  induction proofs as [|p rest IH]; simpl; [auto with cache|].
  apply keepsCache_bind; [|intros _; exact IH].
  destruct (InnerProofData.isPadding p); [auto with cache|].
  destruct (List.find _ txs); auto with cache.
Qed.

(** The part of [updateDbs] that comes before the block is appended to the
    cache, and the rollup id under which the block is then looked up. *)
Lemma updateDbs_split block rollup :
  Env.RollupProofData_fromBuffer (Block.rollupProofData block) = Some rollup ->
  exists before : M W unit,
    keepsCache before
    /\ forall w,
         updateDbs block w
         = bind before
             (fun _ =>
                let! rollupDao :=
                  readDb (fun db => RollupDb.getRollup db (RollupProofData.rollupId rollup)) in
                match rollupDao ≫= rollupDaoToBlockBuffer with
                | Some buf => pushBlockBuffer buf
                | None => throw "rollupDaoToBlockBuffer"
                end) w.
Proof.
  intros Hdecode.
  eexists
    ((let! ours := readTrees (rootsMatch rollup) in
      if ours then worldStateDb_commit
      else worldStateDb_rollback >>; addRollupToWorldState rollup) >>;
     processDefiProofs rollup (Block.offchainTxData block) block >>;
     let! assetMetrics := readDb (getAssetMetrics rollup (Block.interactionResult block)) in
     let! rollupProof :=
       readDb (fun db => RollupDb.getRollupProof db (RollupProofData.rollupHash rollup) true) in
     match rollupProof with
     | Some rollupProof =>
         let txIds := map TxDao.id (RollupProofDao.txs rollupProof) in
         let! rollupDao :=
           rollupDb_confirmMined (RollupProofData.rollupId rollup) (Block.gasUsed block)
             (Block.gasPrice block) (Block.created block) (Block.txHash block)
             (Block.interactionResult block) txIds assetMetrics in
         trackSettlementTimes block (RollupProofDao.txs rollupProof)
           (RollupProofData.innerProofData rollup) >>;
         onMetrics (RollupReceived rollupDao)
     | None =>
         let rollupDao :=
           rebuiltRollupDao rollup (Block.offchainTxData block) block assetMetrics in
         onDb (RollupDb.addRollup rollupDao) [DbAddRollup rollupDao] >>;
         onMetrics (RollupReceived (Some rollupDao))
     end).
  split.
  - apply keepsCache_bind.
    { apply keepsCache_bind; [auto with cache|]. intros [|]; [auto with cache|].
      apply keepsCache_bind; [auto with cache|intros _; apply keepsCache_addRollupToWorldState]. }
    intros _. apply keepsCache_bind; [apply keepsCache_processDefiProofs|]. intros _.
    apply keepsCache_bind; [auto with cache|]. intros am.
    apply keepsCache_bind; [auto with cache|]. intros [rp|].
    + apply keepsCache_bind; [auto with cache|]. intros dao.
      apply keepsCache_bind; [apply keepsCache_trackSettlementTimes|auto with cache].
    + auto with cache.
  - intros w. unfold updateDbs. rewrite Hdecode. unfold confirmOrAddRollupToDb, bind.
    destruct (readTrees (rootsMatch rollup) w) as [ours w0|]; [|reflexivity].
    destruct ((if ours then worldStateDb_commit
               else fun w => match worldStateDb_rollback w with
                             | Returned a w' => addRollupToWorldState rollup w'
                             | Thrown e w' => Thrown e w'
                             end) w0) as [[] w1|]; [|reflexivity].
    destruct (processDefiProofs rollup (Block.offchainTxData block) block w1) as [[] w2|];
      [|reflexivity].
    destruct (readDb (getAssetMetrics rollup (Block.interactionResult block)) w2)
      as [am w3|]; [|reflexivity].
    destruct (readDb (fun db => RollupDb.getRollupProof db (RollupProofData.rollupHash rollup) true)
                w3) as [rp w4|]; [|reflexivity].
    destruct rp as [rp|]; reflexivity.
Qed.

(** X7. A block that [updateDbs] processes to the end adds exactly one buffer
    to the end of the block cache: the serialization of the rollup that the
    relational store then holds under the id of the rollup of the block; so
    [getBlockBuffers], asked from a position within the old cache, returns
    what it returned before followed by that buffer.  A block on which
    [updateDbs] throws leaves the block cache as it was. *)
Theorem updateDbs_block_cache block (w : W) :
  match updateDbs block w with
  | Returned _ w' =>
      exists rollup dao buf,
        Env.RollupProofData_fromBuffer (Block.rollupProofData block) = Some rollup
        /\ RollupDb.getRollup (rollupDb w') (RollupProofData.rollupId rollup) = Some dao
        /\ rollupDaoToBlockBuffer dao = Some buf
        /\ blockBufferCache w' = blockBufferCache w ++ [buf]
        /\ forall from : nat,
             (from <= length (blockBufferCache w))%nat ->
             getBlockBuffers w' from = getBlockBuffers w from ++ [buf]
  | Thrown _ w' => blockBufferCache w' = blockBufferCache w
  end.
Proof.
  destruct (Env.RollupProofData_fromBuffer (Block.rollupProofData block)) as [rollup|] eqn:Hdecode.
  2:{ unfold updateDbs. rewrite Hdecode. reflexivity. }
  destruct (updateDbs_split block rollup Hdecode) as (before & Hkeeps & Hsplit).
  rewrite Hsplit. unfold bind. specialize (Hkeeps w).
  destruct (before w) as [[] w1|e w1]; cbn [final] in Hkeeps; [|exact Hkeeps].
  unfold readDb.
  destruct (RollupDb.getRollup (rollupDb w1) (RollupProofData.rollupId rollup)) as [dao|] eqn:Hdao;
    [|exact Hkeeps].
  cbn [mbind option_bind].
  destruct (rollupDaoToBlockBuffer dao) as [buf|] eqn:Hbuf; [|exact Hkeeps].
  unfold pushBlockBuffer. exists rollup, dao, buf.
  split; [reflexivity|]. split; [exact Hdao|]. split; [exact Hbuf|].
  cbn [blockBufferCache]. rewrite Hkeeps. split; [reflexivity|].
  intros from Hfrom. unfold getBlockBuffers. cbn [blockBufferCache].
  now apply drop_app_le.
Qed.

End BlockCache.

(** ** Blocks in sequence: [handleBlock], [syncStateFromBlockchain],
    [syncState], [start] *)

Section Lifecycle.

Context {T D Profile : Type}.
Context {treeDb : WorldStateDb.t T} {relDb : RollupDb.t D} {chain : Blockchain.t}
        {noteAlgo : NoteAlgorithms.t} {initHelpers : InitHelpers.t T} {env : Env.t Profile}.

Abbreviation W := (WorldState T D Profile).

(** X8. [handleBlock] returns only from a state that has a pipeline and on a
    block that [updateDbs] processes to the end, and then the pipeline is a
    newly created one.  When it throws, no pipeline has been created and the
    field still holds what it held: without a pipeline the error is the
    [TypeError] of the call on [undefined] and nothing at all has changed;
    with one, the error and the state are those of [updateDbs]. *)
Theorem handleBlock_restarts_pipeline block (w : W) :
  match handleBlock block w with
  | Returned _ w' =>
      is_Some (pipeline w)
      /\ (exists w1, updateDbs block w = Returned tt w1 /\ startNewPipeline w1 = Returned tt w')
      /\ pipeline w' = Some (Env.pipelineFactory_create (pipelines w))
      /\ pipelines w' = S (pipelines w)
  | Thrown e w' =>
      pipeline w' = pipeline w
      /\ pipelines w' = pipelines w
      /\ match pipeline w with
         | None => e = "TypeError"%string /\ w' = w
         | Some _ => updateDbs block w = Thrown e w'
         end
  end.
Proof.
  unfold handleBlock, bind, pipeline_stop.
  destruct (pipeline w) as [p|] eqn:Hp.
  2:{ rewrite Hp. repeat split. }
  destruct (blockStep_updateDbs block w) as (Hpipe & Hcount & _).
  destruct (updateDbs block w) as [[] w1|e w1]; cbn [final] in Hpipe, Hcount.
  - split; [now exists p|]. split; [now exists w1|].
    unfold startNewPipeline. cbn [pipeline pipelines]. rewrite Hcount. now split.
  - rewrite Hp in *. repeat split; assumption.
Qed.

Lemma updateDbsEach_app blocks1 blocks2 (w : W) :
  updateDbsEach (blocks1 ++ blocks2) w
  = bind (updateDbsEach blocks1) (fun _ => updateDbsEach blocks2) w.
Proof.
  revert w. induction blocks1 as [|b rest IH]; intros w; [reflexivity|].
  cbn [app updateDbsEach]. unfold bind.
  destruct (updateDbs b w) as [[] w1|]; [|reflexivity]. now rewrite IH.
Qed.

(** X9. [syncStateFromBlockchain] processes the blocks of the chain in order
    and stops at the first one on which [updateDbs] throws: it throws that
    error from the state that block left, and the blocks after it are not
    looked at. *)
Theorem syncStateFromBlockchain_stops_at_first_failure nextRollupId before block after
    (w w1 w2 : W) e :
  Blockchain.getBlocks nextRollupId = before ++ block :: after ->
  updateDbsEach before w = Returned tt w1 ->
  updateDbs block w1 = Thrown e w2 ->
  syncStateFromBlockchain nextRollupId w = Thrown e w2.
Proof.
  intros Hblocks Hbefore Hblock. unfold syncStateFromBlockchain.
  rewrite Hblocks, updateDbsEach_app. unfold bind at 1. rewrite Hbefore.
  cbn [updateDbsEach]. unfold bind. now rewrite Hblock.
Qed.

Lemma updateDbs_cache_grows block (w : W) :
  match updateDbs block w with
  | Returned _ w' => exists buf, blockBufferCache w' = blockBufferCache w ++ [buf]
  | Thrown _ w' => blockBufferCache w' = blockBufferCache w
  end.
Proof.
  destruct (Env.RollupProofData_fromBuffer (Block.rollupProofData block)) as [rollup|] eqn:Hdecode.
  2:{ unfold updateDbs. rewrite Hdecode. reflexivity. }
  destruct (updateDbs_split block rollup Hdecode) as (before & Hkeeps & Hsplit).
  rewrite Hsplit. unfold bind. specialize (Hkeeps w).
  destruct (before w) as [[] w1|e w1]; cbn [final] in Hkeeps; [|exact Hkeeps].
  unfold readDb.
  destruct (RollupDb.getRollup (rollupDb w1) (RollupProofData.rollupId rollup) ≫=
            rollupDaoToBlockBuffer) as [buf|]; [|exact Hkeeps].
  exists buf. unfold pushBlockBuffer. cbn [blockBufferCache]. now rewrite Hkeeps.
Qed.

Lemma updateDbsEach_cache blocks :
  forall w : W,
  exists bufs,
    blockBufferCache (final (updateDbsEach blocks w)) = blockBufferCache w ++ bufs
    /\ if returns (updateDbsEach blocks w) then length bufs = length blocks
       else (length bufs < length blocks)%nat.
Proof.
  induction blocks as [|b rest IH]; intros w.
  - exists []. split; [now rewrite app_nil_r|reflexivity].
  - cbn [updateDbsEach]. unfold bind.
    pose proof (updateDbs_cache_grows b w) as Hb.
    destruct (updateDbs b w) as [[] w1|e w1].
    + destruct Hb as (buf & Hb). destruct (IH w1) as (bufs & Hc & Hlen).
      exists (buf :: bufs). split.
      * rewrite Hc, Hb, <- app_assoc. reflexivity.
      * destruct (returns (updateDbsEach rest w1)); cbn [length]; lia.
    + exists []. split; [now rewrite app_nil_r|]. cbn [returns length]. lia.
Qed.

(** X10. [syncStateFromBlockchain] only ever appends to the block cache: one
    buffer for each block of the chain when it returns, and fewer buffers
    than there are blocks when it throws. *)
Theorem syncStateFromBlockchain_block_cache nextRollupId (w : W) :
  exists bufs,
    blockBufferCache (final (syncStateFromBlockchain nextRollupId w))
    = blockBufferCache w ++ bufs
    /\ if returns (syncStateFromBlockchain nextRollupId w)
       then length bufs = length (Blockchain.getBlocks nextRollupId)
       else (length bufs < length (Blockchain.getBlocks nextRollupId))%nat.
Proof. apply updateDbsEach_cache. Qed.

(** X11. A [syncState] that resumes, the relational store holding rollups
    already, does not go to the init files: all its calls on the tree store
    are puts, commits and rollbacks, and it adds no accounts.  It returns
    exactly when every block of the chain is processed to the end, and then
    its last two calls on the relational store delete the unsettled rollups
    and the orphaned rollup proofs; when it throws, nothing is deleted. *)
Theorem syncState_resumed (w : W) :
  RollupDb.getNextRollupId (rollupDb w) <> 0 ->
  let blocks := Blockchain.getBlocks (RollupDb.getNextRollupId (rollupDb w)) in
  returns (syncState w) = returns (updateDbsEach blocks w)
  /\ exists treeCalls dbCalls,
       treeLog (final (syncState w)) = treeLog w ++ treeCalls
       /\ Forall (fun call => isTreeWrite call = true) treeCalls
       /\ Forall (fun call => isBlockDbCall call = true) dbCalls
       /\ dbLog (final (syncState w))
          = dbLog w ++ dbCalls
            ++ (if returns (syncState w)
                then [DbDeleteUnsettledRollups; DbDeleteOrphanedRollupProofs] else []).
Proof.
  intros Hnext blocks.
  assert (Hrun : syncState w
                 = match updateDbsEach blocks w with
                   | Returned _ w1 =>
                       (onDb RollupDb.deleteUnsettledRollups [DbDeleteUnsettledRollups] >>;
                        onDb RollupDb.deleteOrphanedRollupProofs [DbDeleteOrphanedRollupProofs])
                         w1
                   | Thrown e w1 => Thrown e w1
                   end).
  { unfold syncState. rewrite bind_readDb. apply Z.eqb_neq in Hnext. rewrite Hnext.
    reflexivity. }
  rewrite Hrun.
  destruct (blockStep_updateDbsEach blocks w) as (_ & _ & tc & dc & Ht & Hd & Ft & Fd).
  destruct (updateDbsEach blocks w) as [[] w1|e w1]; cbn [final] in Ht, Hd.
  - split; [reflexivity|]. exists tc, dc. unfold bind, onDb. cbn [final treeLog dbLog returns].
    rewrite Ht, Hd, <- !app_assoc. repeat split; assumption.
  - split; [reflexivity|]. exists tc, dc. cbn [final returns].
    rewrite app_nil_r. repeat split; assumption.
Qed.

Lemma syncStateFromInitFiles_pipeline (w : W) :
  pipeline (final (syncStateFromInitFiles w)) = pipeline w
  /\ pipelines (final (syncStateFromInitFiles w)) = pipelines w.
Proof.
  unfold syncStateFromInitFiles.
  destruct (noAccountDataFile _); [now split|].
  destruct (Z.of_nat _ =? 0); [now split|].
  destruct (_ || _); [now split|].
  unfold bind, populateDataAndRootsTrees, populateNullifierTree.
  destruct (negb _); [now split|].
  destruct (negb _); [now split|].
  destruct (negb _); now split.
Qed.

Lemma syncState_pipeline (w : W) :
  pipeline (final (syncState w)) = pipeline w
  /\ pipelines (final (syncState w)) = pipelines w.
Proof.
  set (next := RollupDb.getNextRollupId (rollupDb w)).
  set (init := (if next =? 0 then syncStateFromInitFiles else ret tt) : M W unit).
  assert (Hrun : syncState w
                 = match init w with
                   | Returned _ w1 =>
                       match updateDbsEach (Blockchain.getBlocks next) w1 with
                       | Returned _ w2 =>
                           (onDb RollupDb.deleteUnsettledRollups [DbDeleteUnsettledRollups] >>;
                            onDb RollupDb.deleteOrphanedRollupProofs
                              [DbDeleteOrphanedRollupProofs]) w2
                       | Thrown e w2 => Thrown e w2
                       end
                   | Thrown e w1 => Thrown e w1
                   end).
  { unfold syncState. rewrite bind_readDb. reflexivity. }
  rewrite Hrun.
  assert (Hinit : pipeline (final (init w)) = pipeline w
                  /\ pipelines (final (init w)) = pipelines w).
  { subst init. destruct (next =? 0); [apply syncStateFromInitFiles_pipeline|now split]. }
  destruct (init w) as [[] w1|e w1]; cbn [final] in Hinit; [|exact Hinit].
  destruct (blockStep_updateDbsEach (Blockchain.getBlocks next) w1) as (Hp & Hn & _).
  destruct (updateDbsEach (Blockchain.getBlocks next) w1) as [[] w2|e w2]; cbn [final] in Hp, Hn.
  - unfold bind, onDb. cbn [final pipeline pipelines]. destruct Hinit. split; congruence.
  - cbn [final]. destruct Hinit. split; congruence.
Qed.

(** X12. [start], no block arriving from the queue while it runs.  When it
    returns, the sync has returned, every settled rollup of the relational
    store has been serialized, the block cache holds these serializations
    and nothing of what it held before or of what the sync appended, and the
    pipeline is a newly created one, so that [getTxPoolProfile] returns its
    profile and [getNextPublishTime] its publish time.  When it throws, no
    pipeline has been created and the field holds what it held: either the
    sync threw, or it returned and a settled rollup could not be serialized,
    and then the state is the one the sync left, the block cache included. *)
Theorem start_loads_cache_and_pipeline (w : W) :
  let w0 := final (onTrees WorldStateDb.start [] w) in
  let created := Env.pipelineFactory_create (pipelines w) in
  match start w with
  | Returned _ w' =>
      exists w1,
        syncState w0 = Returned tt w1
        /\ mapM rollupDaoToBlockBuffer (RollupDb.getSettledRollups (rollupDb w1) 0)
           = Some (blockBufferCache w')
        /\ rollupDb w' = rollupDb w1
        /\ worldStateDb w' = worldStateDb w1
        /\ pipeline w' = Some created
        /\ getTxPoolProfile w' = Returned (RollupPipeline.getTxPoolProfile created) w'
        /\ getNextPublishTime w' = RollupPipeline.getNextPublishTime created
  | Thrown e w' =>
      pipeline w' = pipeline w
      /\ pipelines w' = pipelines w
      /\ (syncState w0 = Thrown e w'
          \/ (syncState w0 = Returned tt w'
              /\ mapM rollupDaoToBlockBuffer (RollupDb.getSettledRollups (rollupDb w') 0)
                 = None))
  end.
Proof.
  intros w0 created.
  assert (Hrun : start w
                 = match syncState w0 with
                   | Returned _ w1 => (loadBlockBufferCache >>; startNewPipeline) w1
                   | Thrown e w1 => Thrown e w1
                   end) by reflexivity.
  rewrite Hrun. clear Hrun.
  destruct (syncState_pipeline w0) as [Hp Hn].
  change (pipeline w0) with (pipeline w) in Hp. change (pipelines w0) with (pipelines w) in Hn.
  destruct (syncState w0) as [[] w1|e w1]; cbn [final] in Hp, Hn.
  2:{ split; [exact Hp|]. split; [exact Hn|]. now left. }
  unfold bind, loadBlockBufferCache.
  destruct (mapM rollupDaoToBlockBuffer (RollupDb.getSettledRollups (rollupDb w1) 0))
    as [bufs|] eqn:Hbufs.
  - exists w1. unfold startNewPipeline, getTxPoolProfile, getNextPublishTime.
    cbn [rollupDb worldStateDb blockBufferCache pipeline pipelines]. rewrite Hn.
    fold created. repeat split. exact Hbufs.
  - split; [exact Hp|]. split; [exact Hn|]. right. now split.
Qed.

End Lifecycle.

(** ** The calls of [updateDbs] on the relational store *)

Section DbCalls.

Context {T D Profile : Type}.
Context {treeDb : WorldStateDb.t T} {relDb : RollupDb.t D} {chain : Blockchain.t}
        {noteAlgo : NoteAlgorithms.t} {env : Env.t Profile}.

Abbreviation W := (WorldState T D Profile).

Lemma onlyTrees_ret {A} (a : A) : onlyTrees (ret a : M W A).
Proof. intros [t d p c tl dl ml n m]. now eexists _, _, _. Qed.

Lemma onlyTrees_bind {A B} (c : M W A) (k : A -> M W B) :
  onlyTrees c -> (forall a, onlyTrees (k a)) -> onlyTrees (bind c k).
Proof.
  intros Hc Hk w. unfold bind. destruct (Hc w) as (a & t & calls & ->).
  destruct (Hk a (mkWorldState t (rollupDb w) (pipeline w) (blockBufferCache w) calls (dbLog w)
                    (metricsLog w) (dates w) (pipelines w))) as (b & t' & calls' & ->).
  now eexists _, _, _.
Qed.

Lemma onlyTrees_onTrees f calls : onlyTrees (onTrees f calls : M W unit).
Proof. intros w. now eexists _, _, _. Qed.

Lemma onlyTrees_readTrees {A} (f : T -> A) : onlyTrees (readTrees f : M W A).
Proof. intros [t d p c tl dl ml n m]. now eexists _, _, _. Qed.

Lemma onlyTrees_addRollupToWorldState rollup :
  onlyTrees (addRollupToWorldState rollup : M W unit).
Proof.
  assert (Hput : forall tree index value,
            onlyTrees (worldStateDb_put tree index value : M W unit))
    by (intros; apply onlyTrees_onTrees).
  assert (Hn : forall n, onlyTrees (putNullifier n : M W unit)).
  { intros n. unfold putNullifier. destruct (toBigIntBE n =? 0); [apply onlyTrees_ret|apply Hput]. }
  assert (Hi : forall ds proofs i, onlyTrees (putInnerProofs ds proofs i : M W unit)).
  { intros ds proofs. induction proofs as [|tx rest IH]; intros i; simpl; [apply onlyTrees_ret|].
    repeat (apply onlyTrees_bind; [apply Hput|intros _]).
    apply onlyTrees_bind; [|intros _; apply IH].
    destruct (negb (InnerProofData.isPadding tx)); [|apply onlyTrees_ret].
    apply onlyTrees_bind; [apply Hn|intros _; apply Hn]. }
  assert (Hd : forall start notes i, onlyTrees (putDefiInteractionNotes start notes i : M W unit)).
  { intros start notes. induction notes as [|note rest IH]; intros i; simpl;
      [apply onlyTrees_ret|].
    apply onlyTrees_bind; [|intros _; apply IH].
    destruct (Buffer_equals note (Buffer_alloc 0 x20)); [apply onlyTrees_ret|apply Hput]. }
  unfold addRollupToWorldState.
  apply onlyTrees_bind; [apply onlyTrees_readTrees|]. intros currentSize.
  destruct (currentSize >? RollupProofData.dataStartIndex rollup); [apply onlyTrees_ret|].
  apply onlyTrees_bind; [apply Hi|intros _].
  apply onlyTrees_bind.
  { apply onlyTrees_bind; [apply onlyTrees_readTrees|intros root; apply Hput]. }
  intros _. apply onlyTrees_bind; [apply Hd|intros _; apply onlyTrees_onTrees].
Qed.

(** [processInnerProofs] returns only if every DEFI_DEPOSIT found its
    off-chain data. *)
Lemma processInnerProofs_returns_readable rollup offchainTxData block proofs :
  forall i k (w w' : W),
  processInnerProofs rollup offchainTxData block proofs i k w = Returned tt w' ->
  defiBlobsReadable offchainTxData proofs k = true.
Proof.
  induction proofs as [|p rest IH]; intros i k w w' Hrun; [reflexivity|].
  simpl in Hrun |- *.
  destruct (InnerProofData.isPadding p); [exact (IH _ _ _ _ Hrun)|].
  unfold bind in Hrun.
  destruct (processDefiProof rollup offchainTxData block p i k w) as [[] w1|e w1] eqn:Hp;
    [|discriminate Hrun].
  rewrite (IH _ _ _ _ Hrun), andb_true_r.
  destruct (decide (InnerProofData.proofId p = DEFI_DEPOSIT)) as [Hid|Hid].
  - rewrite (bool_decide_eq_true_2 _ Hid). apply bool_decide_eq_true.
    unfold processDefiProof in Hp. rewrite Hid in Hp.
    destruct (readOffchainDefiDepositData offchainTxData k); [now eexists|discriminate Hp].
  - now rewrite (bool_decide_eq_false_2 _ Hid).
Qed.

(** X13. The calls that [updateDbs] makes on the relational store for a
    block that it processes to the end come in this order: first those for
    the inner proofs, one [confirmClaimed] per DEFI_CLAIM and one [addClaim]
    per DEFI_DEPOSIT; then one [updateClaimsWithResultRollupId] per
    interaction result of the block; and last a single call that settles the
    rollup, [confirmMined] with the data of the block or [addRollup]. *)
Theorem updateDbs_db_calls_in_order block rollup (w w' : W) :
  Env.RollupProofData_fromBuffer (Block.rollupProofData block) = Some rollup ->
  updateDbs block w = Returned tt w' ->
  exists claimCalls settle,
    dbLog w' = dbLog w ++ claimCalls
         ++ map (fun defiNote =>
                   DbUpdateClaimsWithResultRollupId (DefiInteractionNote.nonce defiNote)
                     (RollupProofData.rollupId rollup))
              (Block.interactionResult block)
         ++ [settle]
    /\ resultUpdates claimCalls = []
    /\ confirmedClaims claimCalls
       = map (fun p => (InnerProofData.nullifier1 p, Block.created block))
           (List.filter isDefiClaim (RollupProofData.innerProofData rollup))
    /\ length (addedClaims claimCalls)
       = length (List.filter isDefiDeposit (RollupProofData.innerProofData rollup))
    /\ ((exists rollupDao, settle = DbAddRollup rollupDao)
        \/ (exists txIds assetMetrics,
              settle = DbConfirmMined (RollupProofData.rollupId rollup) (Block.gasUsed block)
                         (Block.gasPrice block) (Block.created block) (Block.txHash block)
                         (Block.interactionResult block) txIds assetMetrics)).
Proof.
  intros Hdecode Hrun. unfold updateDbs in Hrun. rewrite Hdecode in Hrun.
  unfold bind at 1 in Hrun.
  assert (Htrees : onlyTrees
            (let! ours := readTrees (rootsMatch rollup) in
             if ours then worldStateDb_commit
             else worldStateDb_rollback >>; addRollupToWorldState rollup : M W unit)).
  { apply onlyTrees_bind; [apply onlyTrees_readTrees|]. intros [|]; [apply onlyTrees_onTrees|].
    apply onlyTrees_bind; [apply onlyTrees_onTrees|intros _].
    apply onlyTrees_addRollupToWorldState. }
  destruct (Htrees w) as ([] & t & calls & Et). rewrite Et in Hrun. clear Et Htrees.
  set (w1 := mkWorldState t (rollupDb w) (pipeline w) (blockBufferCache w) calls (dbLog w)
               (metricsLog w) (dates w) (pipelines w)) in *.
  unfold bind at 1 in Hrun.
  destruct (processDefiProofs rollup (Block.offchainTxData block) block w1) as [[] w2|e w2]
    eqn:Hdefi; [|discriminate Hrun].
  unfold processDefiProofs in Hdefi. unfold bind in Hdefi.
  destruct (processInnerProofs rollup (Block.offchainTxData block) block
              (RollupProofData.innerProofData rollup) 0 0%nat w1) as [[] w1'|e w1'] eqn:Hinner;
    [|discriminate Hdefi].
  pose proof (processInnerProofs_returns_readable _ _ _ _ _ _ _ _ Hinner) as Hread.
  destruct (processInnerProofs_calls rollup (Block.offchainTxData block) block
              (RollupProofData.innerProofData rollup) 0 0%nat w1 Hread)
    as (w1'' & claimCalls & E1 & L1 & Hc & Ha & Hu).
  rewrite Hinner in E1. injection E1 as <-.
  destruct (updateClaimsWithResults_log (RollupProofData.rollupId rollup)
              (Block.interactionResult block) w1') as (w2' & E2 & L2).
  rewrite Hdefi in E2. injection E2 as <-.
  pose proof (confirmOrAddRollupToDb_log rollup (Block.offchainTxData block) block w2) as Hlog.
  cbv zeta in Hlog. rewrite Hrun in Hlog. cbn [final] in Hlog.
  assert (Hsettle : exists settle,
            dbLog w' = dbLog w2 ++ [settle]
            /\ ((exists rollupDao, settle = DbAddRollup rollupDao)
                \/ (exists txIds assetMetrics,
                      settle = DbConfirmMined (RollupProofData.rollupId rollup)
                                 (Block.gasUsed block) (Block.gasPrice block)
                                 (Block.created block) (Block.txHash block)
                                 (Block.interactionResult block) txIds assetMetrics))).
  { destruct (RollupDb.getRollupProof (rollupDb w2) (RollupProofData.rollupHash rollup) true);
      destruct Hlog as [Hd _]; eexists; (split; [exact Hd|]); [right|left]; eauto. }
  destruct Hsettle as (settle & Hd & Hkind).
  exists claimCalls, settle. split.
  - rewrite Hd, L2, L1. subst w1. cbn [dbLog]. now rewrite <- !app_assoc.
  - repeat split; assumption.
Qed.

End DbCalls.

(** ** From a block to the relational store and back *)

Section RoundTrip.

Context {T D Profile : Type}.
Context {treeDb : WorldStateDb.t T} {relDb : RollupDb.t D} {chain : Blockchain.t}
        {env : Env.t Profile}.

Abbreviation W := (WorldState T D Profile).

Lemma offchainTxData_of_rebuiltTxs created (txType : InnerProofData.t -> TxType) proofs :
  forall offchainTxData : list Buffer,
  (length proofs <= length offchainTxData)%nat ->
  map TxDao.offchainTxData
    (imap (fun i p => innerProofDataToTxDao p (offchainTxData !! i) created (txType p)) proofs)
  = map Some (take (length proofs) offchainTxData).
Proof.
  induction proofs as [|p rest IH]; intros offchainTxData Hlen; [reflexivity|].
  destruct offchainTxData as [|blob blobs]; [simpl in Hlen; lia|].
  rewrite imap_cons. cbn [map length take]. cbn [innerProofDataToTxDao TxDao.offchainTxData].
  cbn [lookup list_lookup]. f_equal.
  unfold compose. cbn [lookup list_lookup].
  change (fun (i : nat) (p0 : InnerProofData.t) =>
            innerProofDataToTxDao p0 (list_lookup i blobs) created (txType p0))
    with (fun (i : nat) (p0 : InnerProofData.t) =>
            innerProofDataToTxDao p0 (blobs !! i) created (txType p0)).
  apply IH. simpl in Hlen. lia.
Qed.

(** X14. The rollup that [confirmOrAddRollupToDb] builds for a block that is
    not ours is serialized by [rollupDaoToBlockBuffer] as the block with the
    tx hash, creation time, rollup proof data, gas used and gas price of the
    block it was built from, the id and size of its rollup, and the
    interaction results parsed back from their packing, provided the block
    has an off-chain blob for each inner proof that is not padding and its
    gas price fits 32 bytes: it throws where the parsing or the
    serialization of that block throws, and returns its serialization
    otherwise.  The off-chain data of that block are the first blobs of the
    block, one per inner proof that is not padding; blobs beyond these are
    dropped. *)
Theorem rebuiltRollupDao_block_buffer rollup offchainTxData block assetMetrics :
  let n := length (nonPadding (RollupProofData.innerProofData rollup)) in
  (n <= length offchainTxData)%nat ->
  0 <= Block.gasPrice block < 2 ^ 256 ->
  rollupDaoToBlockBuffer (rebuiltRollupDao rollup offchainTxData block assetMetrics)
  = (interactionResult ←
       Env.parseInteractionResult
         (Some (Buffer_concat (map DefiInteractionNote.toBuffer
                                 (Block.interactionResult block))));
     Env.Block_toBuffer
       {| BlockArguments.txHash := Some (Block.txHash block);
          BlockArguments.created := Block.created block;
          BlockArguments.rollupId := RollupProofData.rollupId rollup;
          BlockArguments.rollupSize := RollupProofData.rollupSize rollup;
          BlockArguments.rollupProofData := Some (Block.rollupProofData block);
          BlockArguments.offchainTxData := map Some (take n offchainTxData);
          BlockArguments.interactionResult := interactionResult;
          BlockArguments.gasUsed := Some (Block.gasUsed block);
          BlockArguments.gasPrice := Block.gasPrice block |}).
Proof.
  intros n Hblobs Hprice. unfold rollupDaoToBlockBuffer, rebuiltRollupDao, rebuiltTxs.
  cbn [RollupDao.ethTxHash RollupDao.rollupProof RollupProofDao.txs RollupDao.interactionResult
       RollupDao.gasUsed RollupDao.gasPrice RollupDao.created RollupDao.id
       RollupProofDao.rollupSize RollupProofDao.proofData].
  fold (nonPadding (RollupProofData.innerProofData rollup)).
  rewrite (offchainTxData_of_rebuiltTxs (Block.created block) Env.getTxTypeFromInnerProofData
             (nonPadding (RollupProofData.innerProofData rollup)) offchainTxData Hblobs).
  fold n. rewrite toBigIntBE_toBufferBE.
  change (256 ^ Z.of_nat 32) with (2 ^ 256).
  rewrite Z.mod_small by exact Hprice. reflexivity.
Qed.

Lemma keptNullifiers_leaves created (txType : InnerProofData.t -> TxType) proofs :
  forall blobs : nat -> option Buffer,
  map (fun nullifier => (toBigIntBE nullifier, toBufferBE 1 32))
    (flat_map (fun tx => omap id [TxDao.nullifier1 tx; TxDao.nullifier2 tx])
       (imap (fun i p => innerProofDataToTxDao p (blobs i) created (txType p)) proofs))
  = flat_map (fun p => nullifierLeaf (InnerProofData.nullifier1 p)
                       ++ nullifierLeaf (InnerProofData.nullifier2 p))
      proofs.
Proof.
  induction proofs as [|p rest IH]; intros blobs; [reflexivity|].
  rewrite imap_cons. cbn [flat_map]. rewrite map_app. f_equal.
  - cbn [innerProofDataToTxDao TxDao.nullifier1 TxDao.nullifier2]. unfold nullifierLeaf.
    destruct (toBigIntBE (InnerProofData.nullifier1 p) =? 0);
      destruct (toBigIntBE (InnerProofData.nullifier2 p) =? 0); reflexivity.
  - apply (IH (fun i => blobs (S i))).
Qed.

(** X15. [innerProofDataToTxDao] keeps a nullifier of the inner proof exactly
    when one of its bytes is not zero, and then as the buffer of the inner
    proof, unchanged.  The nullifiers that the txs rebuilt by
    [confirmOrAddRollupToDb] keep are those for which [addRollupToWorldState]
    writes the NULL tree: past its guard, its writes into the NULL tree are,
    in order, one for each nullifier kept by the rebuilt txs, which stand
    for the inner proofs that are not padding, at the index that the
    nullifier denotes and with the number one on 32 bytes as value. *)
Theorem innerProofDataToTxDao_nullifiers rollup offchainTxData created (w : W) :
  (forall tx blob txType,
     (TxDao.nullifier1 (innerProofDataToTxDao tx blob created txType) = None
      <-> Forall (fun b => b = x00) (InnerProofData.nullifier1 tx))
     /\ (TxDao.nullifier2 (innerProofDataToTxDao tx blob created txType) = None
         <-> Forall (fun b => b = x00) (InnerProofData.nullifier2 tx))
     /\ (forall n, TxDao.nullifier1 (innerProofDataToTxDao tx blob created txType) = Some n ->
           n = InnerProofData.nullifier1 tx)
     /\ (forall n, TxDao.nullifier2 (innerProofDataToTxDao tx blob created txType) = Some n ->
           n = InnerProofData.nullifier2 tx))
  /\ (WorldStateDb.getSize (worldStateDb w) DATA <= RollupProofData.dataStartIndex rollup ->
      exists w' calls,
        addRollupToWorldState rollup w = Returned tt w'
        /\ treeLog w' = treeLog w ++ calls
        /\ putsInto NULL calls
           = map (fun nullifier => (toBigIntBE nullifier, toBufferBE 1 32))
               (flat_map (fun tx => omap id [TxDao.nullifier1 tx; TxDao.nullifier2 tx])
                  (rebuiltTxs rollup offchainTxData created))).
Proof.
  split.
  - intros tx blob txType. cbn [innerProofDataToTxDao TxDao.nullifier1 TxDao.nullifier2].
    assert (Hkeep : forall buf : Buffer,
              ((if toBigIntBE buf =? 0 then None else Some buf) = None
               <-> Forall (fun b => b = x00) buf)
              /\ forall n, (if toBigIntBE buf =? 0 then None else Some buf) = Some n -> n = buf).
    { intros buf. rewrite <- toBigIntBE_zero.
      destruct (toBigIntBE buf =? 0) eqn:Hz.
      - apply Z.eqb_eq in Hz. split; [tauto|]. intros n Hn. discriminate Hn.
      - split.
        + split; [intros Hn; discriminate Hn|]. intros Hzero. apply Z.eqb_neq in Hz. lia.
        + intros n Hn. now injection Hn as <-. }
    destruct (Hkeep (InnerProofData.nullifier1 tx)) as [H1 H1'].
    destruct (Hkeep (InnerProofData.nullifier2 tx)) as [H2 H2'].
    repeat split; try apply H1; try apply H2; try (now apply H1'); now apply H2'.
  - intros Hsize. pose proof (addRollupToWorldState_log rollup w) as Hlog. cbv zeta in Hlog.
    destruct (WorldStateDb.getSize (worldStateDb w) DATA
              >? RollupProofData.dataStartIndex rollup) eqn:E; [apply Z.gtb_lt in E; lia|].
    destruct Hlog as (w' & dataRoot & Hrun & Hl).
    eexists w', _. split; [exact Hrun|]. split; [exact Hl|].
    rewrite !putsInto_app, putsInto_NULL_innerProofWrites, putsInto_NULL_defiNoteWrites.
    cbn [putsInto omap list_omap]. simpl app. rewrite app_nil_r.
    unfold rebuiltTxs, nonPadding. symmetry.
    apply (keptNullifiers_leaves created Env.getTxTypeFromInnerProofData _
             (fun i => offchainTxData !! i)).
Qed.

Lemma defiClaimedFor_from assetId results :
  forall acc,
  fold_left
    (fun a v =>
       a
       + (if BridgeId.outputAssetIdA (DefiInteractionNote.bridgeId v) =? assetId
          then DefiInteractionNote.totalOutputValueA v else 0)
       + (if BridgeId.outputAssetIdB (DefiInteractionNote.bridgeId v) =? assetId
          then DefiInteractionNote.totalOutputValueB v else 0))
    results acc
  = acc + defiClaimedFor assetId results.
Proof.
  unfold defiClaimedFor. induction results as [|v rest IH]; intros acc; [simpl; lia|].
  cbn [fold_left]. rewrite IH, (IH (0 + _ + _)). lia.
Qed.

Lemma defiClaimedFor_cons assetId v rest :
  defiClaimedFor assetId (v :: rest)
  = (if BridgeId.outputAssetIdA (DefiInteractionNote.bridgeId v) =? assetId
     then DefiInteractionNote.totalOutputValueA v else 0)
    + (if BridgeId.outputAssetIdB (DefiInteractionNote.bridgeId v) =? assetId
       then DefiInteractionNote.totalOutputValueB v else 0)
    + defiClaimedFor assetId rest.
Proof. unfold defiClaimedFor at 1. cbn [fold_left]. rewrite defiClaimedFor_from. lia. Qed.

(** X16. The amount of an asset claimed from defi interactions, as
    [getAssetMetrics] sums it, does not depend on the order of the
    interaction results, and the amount for any two lists of results put
    together is the sum of their amounts. *)
Theorem defiClaimedFor_order assetId results1 results2 :
  (results1 ≡ₚ results2 ->
   defiClaimedFor assetId results1 = defiClaimedFor assetId results2)
  /\ defiClaimedFor assetId (results1 ++ results2)
     = defiClaimedFor assetId results1 + defiClaimedFor assetId results2.
Proof.
  split.
  - intros Hperm. induction Hperm as [|v l1 l2 _ IH|v v' l|l1 l2 l3 _ IH1 _ IH2].
    + reflexivity.
    + rewrite !defiClaimedFor_cons, IH. reflexivity.
    + rewrite !defiClaimedFor_cons. lia.
    + congruence.
  - induction results1 as [|v rest IH]; [reflexivity|].
    cbn [app]. rewrite !defiClaimedFor_cons, IH. lia.
Qed.

End RoundTrip.

(** ** More on [syncStateFromInitFiles] *)

Section InitFiles.

Context {T D Profile : Type}.
Context {relDb : RollupDb.t D} {chain : Blockchain.t} {initHelpers : InitHelpers.t T}.

Abbreviation W := (WorldState T D Profile).

(** X18. Once [syncStateFromInitFiles] has an account data file, accounts
    and three expected roots, it populates the data and roots trees and then
    the nullifier tree, in this order and before it compares any root: the
    two calls are made, and the trees stay populated, also when it throws.
    The roots are compared in the order data, roots, null, and the error is
    that of the first that differs. *)
Theorem syncStateFromInitFiles_populates_then_compares (w : W) :
  let chainId := Blockchain.getChainId in
  let accountDataFile := InitHelpers.getAccountDataFile chainId in
  let accounts := InitHelpers.readAccountTreeData (default EmptyString accountDataFile) in
  let roots := InitHelpers.getInitRoots chainId in
  let populated :=
    InitHelpers.populateDataAndRootsTrees accounts (worldStateDb w) DATA ROOT in
  let nullified := InitHelpers.populateNullifierTree accounts populated.2 NULL in
  let w' := final (syncStateFromInitFiles w) in
  noAccountDataFile accountDataFile = false ->
  accounts <> [] ->
  InitHelpers.initDataRoot roots <> [] ->
  InitHelpers.initNullRoot roots <> [] ->
  InitHelpers.initRootsRoot roots <> [] ->
  treeLog w' = treeLog w ++ [TreePopulateDataAndRoots accounts; TreePopulateNullifier accounts]
  /\ worldStateDb w' = nullified.2
  /\ (InitHelpers.initDataRoot roots <> populated.1.1 ->
      exists w2, syncStateFromInitFiles w = Thrown "New data root different to init file" w2)
  /\ (InitHelpers.initDataRoot roots = populated.1.1 ->
      InitHelpers.initRootsRoot roots <> populated.1.2 ->
      exists w2, syncStateFromInitFiles w = Thrown "New roots root different to init file" w2)
  /\ (InitHelpers.initDataRoot roots = populated.1.1 ->
      InitHelpers.initRootsRoot roots = populated.1.2 ->
      InitHelpers.initNullRoot roots <> nullified.1 ->
      exists w2, syncStateFromInitFiles w = Thrown "New null root different to init file" w2).
Proof.
  intros chainId accountDataFile accounts roots populated nullified w'
    Hfile Haccounts Hdata Hnull Hroots.
  pose proof (syncStateFromInitFiles_populates w Hfile Haccounts Hdata Hnull Hroots) as Hrun.
  cbv zeta in Hrun.
  fold chainId accountDataFile accounts roots in Hrun.
  fold populated in Hrun. fold nullified in Hrun.
  subst w'. unfold Buffer_equals in Hrun.
  assert (Hlog : forall tl : list TreeCall,
            (tl ++ [TreePopulateDataAndRoots accounts]) ++ [TreePopulateNullifier accounts]
            = tl ++ [TreePopulateDataAndRoots accounts; TreePopulateNullifier accounts])
    by (intros tl; now rewrite <- app_assoc).
  destruct (decide (InitHelpers.initDataRoot roots = populated.1.1)) as [E1|E1].
  2:{ rewrite (bool_decide_eq_false_2 _ E1) in Hrun. cbn [negb] in Hrun. rewrite Hrun.
      split; [apply Hlog|]. split; [reflexivity|]. split; [now eexists|].
      split; intros; contradiction. }
  rewrite (bool_decide_eq_true_2 _ E1) in Hrun. cbn [negb] in Hrun.
  destruct (decide (InitHelpers.initRootsRoot roots = populated.1.2)) as [E2|E2].
  2:{ rewrite (bool_decide_eq_false_2 _ E2) in Hrun. cbn [negb] in Hrun. rewrite Hrun.
      split; [apply Hlog|]. split; [reflexivity|]. split; [intros; contradiction|].
      split; [now eexists|]. intros; contradiction. }
  rewrite (bool_decide_eq_true_2 _ E2) in Hrun. cbn [negb] in Hrun.
  destruct (decide (InitHelpers.initNullRoot roots = nullified.1)) as [E3|E3].
  2:{ rewrite (bool_decide_eq_false_2 _ E3) in Hrun. cbn [negb] in Hrun. rewrite Hrun.
      split; [apply Hlog|]. split; [reflexivity|]. split; [intros; contradiction|].
      split; [intros; contradiction|]. now eexists. }
  rewrite (bool_decide_eq_true_2 _ E3) in Hrun. cbn [negb] in Hrun. rewrite Hrun.
  split; [apply Hlog|]. split; [reflexivity|]. repeat split; intros; contradiction.
Qed.

End InitFiles.

(** ** Replaying a block on the keyed tables *)

Section TablesReplay.

Lemma Tables_eta (db : Tables.t) :
  Tables.mk (Tables.rollupProofs db) (Tables.rollups db) (Tables.claims db)
    (Tables.accounts db) (Tables.pendingTxs db) = db.
Proof. now destruct db. Qed.

(** *** Claims *)

Lemma addClaim_present claim db :
  is_Some (Tables.claims db !! ClaimDao.id claim) -> Tables.addClaim claim db = db.
Proof. intros [x Hx]. unfold Tables.addClaim. rewrite Hx. apply Tables_eta. Qed.

Lemma lookup_addClaim claim db id x :
  Tables.claims (Tables.addClaim claim db) !! id = Some x ->
  Tables.claims db !! id = Some x \/ x = claim.
Proof.
  unfold Tables.addClaim. cbn [Tables.claims].
  destruct (Tables.claims db !! ClaimDao.id claim) eqn:E; [now left|].
  destruct (decide (ClaimDao.id claim = id)) as [<-|Hne].
  - rewrite lookup_insert_eq. intros [= <-]. now right.
  - rewrite lookup_insert_ne by exact Hne. now left.
Qed.

Lemma lookup_addClaim_mono claim db id :
  is_Some (Tables.claims db !! id) ->
  is_Some (Tables.claims (Tables.addClaim claim db) !! id).
Proof.
  unfold Tables.addClaim. cbn [Tables.claims].
  destruct (Tables.claims db !! ClaimDao.id claim) eqn:E; [trivial|].
  intros Hs. destruct (decide (ClaimDao.id claim = id)) as [<-|Hne].
  - rewrite lookup_insert_eq. now eexists.
  - now rewrite lookup_insert_ne.
Qed.

Lemma lookup_addClaim_key claim db :
  is_Some (Tables.claims (Tables.addClaim claim db) !! ClaimDao.id claim).
Proof.
  unfold Tables.addClaim. cbn [Tables.claims].
  destruct (Tables.claims db !! ClaimDao.id claim) eqn:E.
  - rewrite E. now eexists.
  - rewrite lookup_insert_eq. now eexists.
Qed.

Lemma claimedAt_done nullifier mined claim :
  (ClaimDao.nullifier claim = nullifier -> ClaimDao.claimed claim = Some mined) ->
  Tables.claimedAt nullifier mined claim = claim.
Proof.
  intros Hdone. unfold Tables.claimedAt, Buffer_equals.
  destruct (decide (ClaimDao.nullifier claim = nullifier)) as [E|E].
  - rewrite (bool_decide_eq_true_2 _ E). specialize (Hdone E).
    destruct claim. simpl in Hdone |- *. now rewrite Hdone.
  - now rewrite (bool_decide_eq_false_2 _ E).
Qed.

Lemma confirmClaimed_done nullifier mined db :
  claimedAll nullifier mined (Tables.claims db) ->
  Tables.confirmClaimed nullifier mined db = db.
Proof.
  intros Hall. unfold Tables.confirmClaimed.
  replace (Tables.claimedAt nullifier mined <$> Tables.claims db) with (Tables.claims db);
    [apply Tables_eta|].
  apply map_eq. intros id. rewrite lookup_fmap.
  destruct (Tables.claims db !! id) as [claim|] eqn:E; [|reflexivity].
  cbn. f_equal. symmetry. apply claimedAt_done. intros Hn. exact (Hall id claim E Hn).
Qed.

Lemma resultAt_done nonce rollupId claim :
  (ClaimDao.interactionNonce claim = nonce ->
   ClaimDao.interactionResultRollupId claim = Some rollupId) ->
  Tables.resultAt nonce rollupId claim = claim.
Proof.
  intros Hdone. unfold Tables.resultAt.
  destruct (ClaimDao.interactionNonce claim =? nonce) eqn:E; [|reflexivity].
  apply Z.eqb_eq in E. specialize (Hdone E).
  destruct claim. simpl in Hdone |- *. now rewrite Hdone.
Qed.

Lemma updateClaimsWithResultRollupId_done nonce rollupId db :
  resultAll nonce rollupId (Tables.claims db) ->
  Tables.updateClaimsWithResultRollupId nonce rollupId db = db.
Proof.
  intros Hall. unfold Tables.updateClaimsWithResultRollupId.
  replace (Tables.resultAt nonce rollupId <$> Tables.claims db) with (Tables.claims db);
    [apply Tables_eta|].
  apply map_eq. intros id. rewrite lookup_fmap.
  destruct (Tables.claims db !! id) as [claim|] eqn:E; [|reflexivity].
  cbn. f_equal. symmetry. apply resultAt_done. intros Hn. exact (Hall id claim E Hn).
Qed.

Lemma claimedAt_fields nullifier mined claim :
  ClaimDao.nullifier (Tables.claimedAt nullifier mined claim) = ClaimDao.nullifier claim
  /\ ClaimDao.interactionNonce (Tables.claimedAt nullifier mined claim)
     = ClaimDao.interactionNonce claim
  /\ ClaimDao.interactionResultRollupId (Tables.claimedAt nullifier mined claim)
     = ClaimDao.interactionResultRollupId claim
  /\ (ClaimDao.claimed (Tables.claimedAt nullifier mined claim) = Some mined
      \/ (ClaimDao.nullifier claim <> nullifier
          /\ ClaimDao.claimed (Tables.claimedAt nullifier mined claim)
             = ClaimDao.claimed claim)).
Proof.
  unfold Tables.claimedAt, Buffer_equals.
  destruct (decide (ClaimDao.nullifier claim = nullifier)) as [E|E].
  - rewrite (bool_decide_eq_true_2 _ E). repeat split. now left.
  - rewrite (bool_decide_eq_false_2 _ E). repeat split. now right.
Qed.

Lemma resultAt_fields nonce rollupId claim :
  ClaimDao.nullifier (Tables.resultAt nonce rollupId claim) = ClaimDao.nullifier claim
  /\ ClaimDao.claimed (Tables.resultAt nonce rollupId claim) = ClaimDao.claimed claim
  /\ ClaimDao.interactionNonce (Tables.resultAt nonce rollupId claim)
     = ClaimDao.interactionNonce claim
  /\ (ClaimDao.interactionResultRollupId (Tables.resultAt nonce rollupId claim) = Some rollupId
      \/ (ClaimDao.interactionNonce claim <> nonce
          /\ ClaimDao.interactionResultRollupId (Tables.resultAt nonce rollupId claim)
             = ClaimDao.interactionResultRollupId claim)).
Proof.
  unfold Tables.resultAt.
  destruct (ClaimDao.interactionNonce claim =? nonce) eqn:E.
  - repeat split. now left.
  - apply Z.eqb_neq in E. repeat split. now right.
Qed.

Lemma claimedAll_addClaim nullifier mined claim db :
  ClaimDao.nullifier claim <> nullifier ->
  claimedAll nullifier mined (Tables.claims db) ->
  claimedAll nullifier mined (Tables.claims (Tables.addClaim claim db)).
Proof.
  intros Hother Hall id x Hx Hn.
  apply lookup_addClaim in Hx as [Hx| ->]; [exact (Hall id x Hx Hn)|contradiction].
Qed.

Lemma claimedAll_confirmClaimed nullifier other mined db :
  nullifier = other \/ claimedAll nullifier mined (Tables.claims db) ->
  claimedAll nullifier mined (Tables.claims (Tables.confirmClaimed other mined db)).
Proof.
  intros Hcase id x Hx Hn. unfold Tables.confirmClaimed in Hx. cbn [Tables.claims] in Hx.
  rewrite lookup_fmap in Hx.
  destruct (Tables.claims db !! id) as [y|] eqn:E; [|discriminate Hx].
  cbn in Hx. injection Hx as <-.
  destruct (claimedAt_fields other mined y) as (Hnull & _ & _ & [Hc|[Hne Hc]]); [exact Hc|].
  rewrite Hnull in Hn. destruct Hcase as [->|Hall]; [contradiction|].
  rewrite Hc. exact (Hall id y E Hn).
Qed.

Lemma claimedAll_update nullifier mined nonce rollupId db :
  claimedAll nullifier mined (Tables.claims db) ->
  claimedAll nullifier mined
    (Tables.claims (Tables.updateClaimsWithResultRollupId nonce rollupId db)).
Proof.
  intros Hall id x Hx Hn. unfold Tables.updateClaimsWithResultRollupId in Hx.
  cbn [Tables.claims] in Hx. rewrite lookup_fmap in Hx.
  destruct (Tables.claims db !! id) as [y|] eqn:E; [|discriminate Hx].
  cbn in Hx. injection Hx as <-.
  destruct (resultAt_fields nonce rollupId y) as (Hnull & Hc & _).
  rewrite Hnull in Hn. rewrite Hc. exact (Hall id y E Hn).
Qed.

Lemma resultAll_update nonce other rollupId db :
  nonce = other \/ resultAll nonce rollupId (Tables.claims db) ->
  resultAll nonce rollupId
    (Tables.claims (Tables.updateClaimsWithResultRollupId other rollupId db)).
Proof.
  intros Hcase id x Hx Hn. unfold Tables.updateClaimsWithResultRollupId in Hx.
  cbn [Tables.claims] in Hx. rewrite lookup_fmap in Hx.
  destruct (Tables.claims db !! id) as [y|] eqn:E; [|discriminate Hx].
  cbn in Hx. injection Hx as <-.
  destruct (resultAt_fields other rollupId y) as (_ & _ & Hnonce & [Hr|[Hne Hr]]); [exact Hr|].
  rewrite Hnonce in Hn. destruct Hcase as [->|Hall]; [contradiction|].
  rewrite Hr. exact (Hall id y E Hn).
Qed.

Lemma lookup_fmap_mono {A} (f : A -> A) (m : gmap Z A) id :
  is_Some (m !! id) -> is_Some ((f <$> m) !! id).
Proof. intros [x Hx]. rewrite lookup_fmap, Hx. now eexists. Qed.

(** *** Asset metrics *)

Lemma insertMetrics_grows added :
  forall stored (m : AssetMetricsDao.t),
  existsb (fun k => AssetMetricsDao.assetId k =? AssetMetricsDao.assetId m) stored = true ->
  existsb (fun k => AssetMetricsDao.assetId k =? AssetMetricsDao.assetId m)
    (Tables.insertMetrics added stored) = true.
Proof.
  unfold Tables.insertMetrics. induction added as [|a added IH]; intros stored m Hm; [exact Hm|].
  cbn [fold_left]. apply IH.
  destruct (existsb (fun k => AssetMetricsDao.assetId k =? AssetMetricsDao.assetId a) stored);
    [exact Hm|].
  rewrite existsb_app, Hm. reflexivity.
Qed.

Lemma insertMetrics_covers added :
  forall stored m,
  In m added ->
  existsb (fun k => AssetMetricsDao.assetId k =? AssetMetricsDao.assetId m)
    (Tables.insertMetrics added stored) = true.
Proof.
  induction added as [|a added IH]; intros stored m Hin; [destruct Hin|].
  destruct Hin as [->|Hin].
  - unfold Tables.insertMetrics. cbn [fold_left]. apply insertMetrics_grows.
    destruct (existsb _ stored) eqn:E; [exact E|].
    rewrite existsb_app. cbn [existsb]. rewrite Z.eqb_refl. apply orb_true_iff. right. reflexivity.
  - unfold Tables.insertMetrics. cbn [fold_left]. now apply IH.
Qed.

Lemma insertMetrics_present added :
  forall stored,
  (forall m, In m added ->
     existsb (fun k => AssetMetricsDao.assetId k =? AssetMetricsDao.assetId m) stored = true) ->
  Tables.insertMetrics added stored = stored.
Proof.
  unfold Tables.insertMetrics. induction added as [|a added IH]; intros stored Hall; [reflexivity|].
  cbn [fold_left]. rewrite (Hall a (or_introl eq_refl)).
  apply IH. intros m Hm. apply Hall. now right.
Qed.

Lemma same_assets_present (added stored : list AssetMetricsDao.t) :
  map AssetMetricsDao.assetId added = map AssetMetricsDao.assetId stored ->
  forall m, In m added ->
    existsb (fun k => AssetMetricsDao.assetId k =? AssetMetricsDao.assetId m) stored = true.
Proof.
  intros Hsame m Hin. apply existsb_exists.
  assert (Hid : In (AssetMetricsDao.assetId m) (map AssetMetricsDao.assetId stored)).
  { rewrite <- Hsame. now apply in_map. }
  apply in_map_iff in Hid as (k & Hk & Hin'). exists k. split; [exact Hin'|]. now apply Z.eqb_eq.
Qed.

(** *** Mined txs *)

Lemma minedTx_idem ids mined tx :
  Tables.minedTx ids mined (Tables.minedTx ids mined tx) = Tables.minedTx ids mined tx.
Proof.
  unfold Tables.minedTx.
  destruct (decide (TxDao.id tx ∈ ids)) as [E|E].
  - rewrite (bool_decide_eq_true_2 _ E). cbn [TxDao.id]. now rewrite (bool_decide_eq_true_2 _ E).
  - now rewrite !(bool_decide_eq_false_2 _ E).
Qed.

Lemma minedTx_id ids mined tx : TxDao.id (Tables.minedTx ids mined tx) = TxDao.id tx.
Proof. unfold Tables.minedTx. now destruct (bool_decide _). Qed.

Lemma minedProof_idem ids mined p :
  Tables.minedProof ids mined (Tables.minedProof ids mined p) = Tables.minedProof ids mined p.
Proof.
  unfold Tables.minedProof. cbn. f_equal. rewrite map_map.
  apply map_ext. intros tx. apply minedTx_idem.
Qed.

Lemma minedProof_txIds ids mined p :
  map TxDao.id (RollupProofDao.txs (Tables.minedProof ids mined p))
  = map TxDao.id (RollupProofDao.txs p).
Proof.
  unfold Tables.minedProof. cbn. rewrite map_map. apply map_ext. intros tx. apply minedTx_id.
Qed.

Lemma minedProof_done ids mined p :
  Forall (fun tx => TxDao.id tx ∈ ids -> TxDao.mined tx = Some mined) (RollupProofDao.txs p) ->
  Tables.minedProof ids mined p = p.
Proof.
  intros Hdone. unfold Tables.minedProof.
  replace (map (Tables.minedTx ids mined) (RollupProofDao.txs p)) with (RollupProofDao.txs p);
    [now destruct p|].
  induction Hdone as [|tx txs Htx _ IH]; [reflexivity|].
  cbn [map]. rewrite <- IH. f_equal. unfold Tables.minedTx.
  destruct (decide (TxDao.id tx ∈ ids)) as [E|E].
  - rewrite (bool_decide_eq_true_2 _ E). specialize (Htx E).
    destruct tx. simpl in Htx |- *. now rewrite Htx.
  - now rewrite (bool_decide_eq_false_2 _ E).
Qed.

Lemma find_minedProof hash ids mined proofs :
  List.find (fun p => Buffer_equals (RollupProofDao.id p) hash)
    (map (Tables.minedProof ids mined) proofs)
  = Tables.minedProof ids mined
      <$> List.find (fun p => Buffer_equals (RollupProofDao.id p) hash) proofs.
Proof.
  induction proofs as [|p proofs IH]; [reflexivity|].
  cbn [map List.find]. cbn [Tables.minedProof RollupProofDao.id].
  destruct (Buffer_equals (RollupProofDao.id p) hash); [reflexivity|exact IH].
Qed.

End TablesReplay.

Section ClaimsReplay.

Context {T Profile : Type}.
Context {noteAlgo : NoteAlgorithms.t} {env : Env.t Profile}.

#[local] Existing Instance tables.

Abbreviation W := (WorldState T Tables.t Profile).

Lemma processDefiProof_store rollup offchainTxData block p i k (w w' : W) :
  processDefiProof rollup offchainTxData block p i k w = Returned tt w' ->
  match InnerProofData.proofId p with
  | DEFI_DEPOSIT =>
      exists data,
        readOffchainDefiDepositData offchainTxData k = Some data
        /\ rollupDb w'
           = Tables.addClaim (defiDepositClaim rollup p i data (Env.dateNow (dates w)))
               (rollupDb w)
  | DEFI_CLAIM =>
      rollupDb w'
      = Tables.confirmClaimed (InnerProofData.nullifier1 p) (Block.created block) (rollupDb w)
  | _ => rollupDb w' = rollupDb w
  end.
Proof.
  unfold processDefiProof.
  destruct (InnerProofData.proofId p); intros Hrun;
    try (injection Hrun as <-; reflexivity).
  destruct (readOffchainDefiDepositData offchainTxData k) as [data|]; [|discriminate Hrun].
  exists data. split; [reflexivity|]. injection Hrun as <-. reflexivity.
Qed.

(** What a run of the loop over the inner proofs leaves in the table of
    claims: the claims it found are still there, every DEFI_DEPOSIT has a
    claim at its index, and the claims of the nullifier of a DEFI_CLAIM are
    marked as claimed, provided that no claim added has such a nullifier. *)
Lemma processInnerProofs_store rollup offchainTxData block (confirmed : list Buffer) proofs :
  forall i k (w w' : W),
  processInnerProofs rollup offchainTxData block proofs i k w = Returned tt w' ->
  (forall (n : nat) p data j created,
     proofs !! n = Some p -> InnerProofData.proofId p = DEFI_DEPOSIT ->
     readOffchainDefiDepositData offchainTxData (k + offChainIndexAt proofs n) = Some data ->
     forall nullifier,
       nullifier ∈ confirmed ->
       ClaimDao.nullifier (defiDepositClaim rollup p j data created) <> nullifier) ->
  (forall id, is_Some (Tables.claims (rollupDb w) !! id) ->
              is_Some (Tables.claims (rollupDb w') !! id))
  /\ (forall (n : nat) p,
        proofs !! n = Some p -> InnerProofData.proofId p = DEFI_DEPOSIT ->
        is_Some (Tables.claims (rollupDb w')
                   !! (RollupProofData.dataStartIndex rollup + (i + Z.of_nat n) * 2)))
  /\ (forall nullifier,
        nullifier ∈ confirmed ->
        claimedAll nullifier (Block.created block) (Tables.claims (rollupDb w)) ->
        claimedAll nullifier (Block.created block) (Tables.claims (rollupDb w')))
  /\ (forall q,
        q ∈ proofs -> InnerProofData.proofId q = DEFI_CLAIM ->
        InnerProofData.nullifier1 q ∈ confirmed ->
        claimedAll (InnerProofData.nullifier1 q) (Block.created block)
          (Tables.claims (rollupDb w'))).
Proof.
  induction proofs as [|p rest IH]; intros i k w w' Hrun Hfresh.
  - injection Hrun as <-. split; [trivial|]. split; [intros n p Hn; discriminate Hn|].
    split; [trivial|]. intros q Hq. now apply elem_of_nil in Hq.
  - simpl in Hrun. destruct (InnerProofData.isPadding p) eqn:Hpad.
    + assert (Hid : InnerProofData.proofId p = PADDING) by (now apply bool_decide_eq_true in Hpad).
      destruct (IH (i + 1) k w w' Hrun) as (Hmono & Hkeys & Hkeep & Hdone).
      { intros n p' data j created Hn Hdep Hdata. apply (Hfresh (S n) p' data j created Hn Hdep).
        now rewrite offChainIndexAt_cons, Hpad. }
      split; [exact Hmono|]. split; [|split; [exact Hkeep|]].
      * intros [|n] p' Hn Hdep.
        -- injection Hn as <-. congruence.
        -- replace (i + Z.of_nat (S n)) with (i + 1 + Z.of_nat n) by lia. now apply (Hkeys n p').
      * intros q Hq Hclaim Hin. apply elem_of_cons in Hq as [->|Hq]; [congruence|].
        now apply Hdone.
    + unfold bind in Hrun.
      destruct (processDefiProof rollup offchainTxData block p i k w) as [[] w1|e w1] eqn:Hstep;
        [|discriminate Hrun].
      destruct (IH (i + 1) (S k) w1 w' Hrun) as (Hmono & Hkeys & Hkeep & Hdone).
      { intros n p' data j created Hn Hdep Hdata. apply (Hfresh (S n) p' data j created Hn Hdep).
        rewrite offChainIndexAt_cons, Hpad. now rewrite Nat.add_succ_r. }
      apply processDefiProof_store in Hstep.
      assert (Hstep1 :
        (forall id, is_Some (Tables.claims (rollupDb w) !! id) ->
                    is_Some (Tables.claims (rollupDb w1) !! id))
        /\ (InnerProofData.proofId p = DEFI_DEPOSIT ->
            is_Some (Tables.claims (rollupDb w1)
                       !! (RollupProofData.dataStartIndex rollup + i * 2)))
        /\ (forall nullifier,
              nullifier ∈ confirmed ->
              claimedAll nullifier (Block.created block) (Tables.claims (rollupDb w)) ->
              claimedAll nullifier (Block.created block) (Tables.claims (rollupDb w1)))
        /\ (InnerProofData.proofId p = DEFI_CLAIM ->
            claimedAll (InnerProofData.nullifier1 p) (Block.created block)
              (Tables.claims (rollupDb w1)))).
      { destruct (InnerProofData.proofId p) eqn:Hid;
          try (rewrite Hstep; repeat split; try trivial; intros Hc; discriminate Hc).
        - destruct Hstep as (data & Hdata & ->). split; [|split; [|split]].
          + intros id. apply lookup_addClaim_mono.
          + intros _.
            exact (lookup_addClaim_key
                     (defiDepositClaim rollup p i data (Env.dateNow (dates w))) (rollupDb w)).
          + intros nullifier Hin Hall. apply claimedAll_addClaim; [|exact Hall].
            apply (Hfresh 0%nat p data i (Env.dateNow (dates w)) eq_refl Hid); [|exact Hin].
            change (offChainIndexAt (p :: rest) 0) with 0%nat. now rewrite Nat.add_0_r.
          + intros Hc. discriminate Hc.
        - rewrite Hstep. split; [|split; [|split]].
          + intros id. apply lookup_fmap_mono.
          + intros Hc. discriminate Hc.
          + intros nullifier _ Hall. apply claimedAll_confirmClaimed. now right.
          + intros _. apply claimedAll_confirmClaimed. now left. }
      destruct Hstep1 as (Hmono1 & Hkey1 & Hkeep1 & Hdone1).
      split; [intros id Hs; apply Hmono, Hmono1, Hs|]. split; [|split].
      * intros [|n] p' Hn Hdep.
        -- injection Hn as <-. apply Hmono. rewrite Z.add_0_r. now apply Hkey1.
        -- replace (i + Z.of_nat (S n)) with (i + 1 + Z.of_nat n) by lia. now apply (Hkeys n p').
      * intros nullifier Hin Hall. apply Hkeep; [exact Hin|]. now apply Hkeep1.
      * intros q Hq Hclaim Hin. apply elem_of_cons in Hq as [->|Hq]; [|now apply Hdone].
        apply Hkeep; [exact Hin|]. now apply Hdone1.
Qed.

(** The loop over the inner proofs on a table of claims that has a claim at
    the index of every DEFI_DEPOSIT and in which the claims of the nullifier
    of every DEFI_CLAIM are marked: it returns and leaves the relational
    store as it is. *)
Lemma processInnerProofs_replayed rollup offchainTxData block proofs :
  forall i k (w : W),
  defiBlobsReadable offchainTxData proofs k = true ->
  (forall (n : nat) p,
     proofs !! n = Some p -> InnerProofData.proofId p = DEFI_DEPOSIT ->
     is_Some (Tables.claims (rollupDb w)
                !! (RollupProofData.dataStartIndex rollup + (i + Z.of_nat n) * 2))) ->
  (forall q,
     q ∈ proofs -> InnerProofData.proofId q = DEFI_CLAIM ->
     claimedAll (InnerProofData.nullifier1 q) (Block.created block)
       (Tables.claims (rollupDb w))) ->
  exists w',
    processInnerProofs rollup offchainTxData block proofs i k w = Returned tt w'
    /\ rollupDb w' = rollupDb w.
Proof.
  induction proofs as [|p rest IH]; intros i k w Hread Hkeys Hdone.
  - now exists w.
  - simpl in Hread |- *. destruct (InnerProofData.isPadding p) eqn:Hpad.
    + apply IH; [exact Hread| |].
      * intros n p' Hn Hdep.
        replace (i + 1 + Z.of_nat n) with (i + Z.of_nat (S n)) by lia. now apply (Hkeys (S n) p').
      * intros q Hq. apply Hdone. now apply elem_of_cons; right.
    + apply andb_true_iff in Hread as [Hhere Hrest].
      assert (Hstep : exists w1,
                processDefiProof rollup offchainTxData block p i k w = Returned tt w1
                /\ rollupDb w1 = rollupDb w).
      { unfold processDefiProof.
        destruct (InnerProofData.proofId p) eqn:Hid; try (now exists w).
        - rewrite bool_decide_eq_true_2 in Hhere by reflexivity.
          apply bool_decide_eq_true in Hhere as [data Hdata]. rewrite Hdata.
          eexists. split; [reflexivity|]. cbn [rollupDb].
          apply (addClaim_present
                   (defiDepositClaim rollup p i data (Env.dateNow (dates w))) (rollupDb w)).
          specialize (Hkeys 0%nat p eq_refl Hid). now rewrite Z.add_0_r in Hkeys.
        - eexists. split; [reflexivity|]. cbn [rollupDb].
          apply (confirmClaimed_done (InnerProofData.nullifier1 p) (Block.created block)
                   (rollupDb w)).
          apply Hdone; [now apply elem_of_cons; left|exact Hid]. }
      destruct Hstep as (w1 & Hstep & Hdb1). unfold bind. rewrite Hstep.
      destruct (IH (i + 1) (S k) w1 Hrest) as (w' & Hrun & Hdb').
      * intros n p' Hn Hdep. rewrite Hdb1.
        replace (i + 1 + Z.of_nat n) with (i + Z.of_nat (S n)) by lia. now apply (Hkeys (S n) p').
      * intros q Hq Hclaim. rewrite Hdb1. apply Hdone; [now apply elem_of_cons; right|exact Hclaim].
      * exists w'. split; [exact Hrun|congruence].
Qed.

(** The loop over the interaction results. *)
Lemma updateClaimsWithResults_store rollupId results :
  forall w : W,
  exists w',
    updateClaimsWithResults rollupId results w = Returned tt w'
    /\ (forall id, is_Some (Tables.claims (rollupDb w) !! id) ->
                   is_Some (Tables.claims (rollupDb w') !! id))
    /\ (forall nullifier mined,
          claimedAll nullifier mined (Tables.claims (rollupDb w)) ->
          claimedAll nullifier mined (Tables.claims (rollupDb w')))
    /\ (forall nonce,
          resultAll nonce rollupId (Tables.claims (rollupDb w)) ->
          resultAll nonce rollupId (Tables.claims (rollupDb w')))
    /\ (forall r, r ∈ results ->
          resultAll (DefiInteractionNote.nonce r) rollupId (Tables.claims (rollupDb w'))).
Proof.
  induction results as [|r rest IH]; intros w.
  - exists w. repeat split; trivial. intros r Hr. now apply elem_of_nil in Hr.
  - simpl. unfold bind at 1. unfold onDb at 1.
    set (w1 := mkWorldState (worldStateDb w)
                 (RollupDb.updateClaimsWithResultRollupId (DefiInteractionNote.nonce r) rollupId
                    (rollupDb w))
                 (pipeline w) (blockBufferCache w) (treeLog w)
                 (dbLog w ++ [DbUpdateClaimsWithResultRollupId (DefiInteractionNote.nonce r)
                                rollupId])
                 (metricsLog w) (dates w) (pipelines w)).
    destruct (IH w1) as (w' & Hrun & Hmono & Hclaimed & Hkeep & Hdone).
    exists w'. split; [exact Hrun|]. split; [|split; [|split]].
    + intros id Hs. apply Hmono. now apply lookup_fmap_mono.
    + intros nullifier mined Hall. apply Hclaimed.
      exact (claimedAll_update nullifier mined (DefiInteractionNote.nonce r) rollupId (rollupDb w)
               Hall).
    + intros nonce Hall. apply Hkeep.
      apply (resultAll_update nonce (DefiInteractionNote.nonce r) rollupId (rollupDb w)).
      now right.
    + intros r' Hr. apply elem_of_cons in Hr as [->|Hr]; [|now apply Hdone].
      apply Hkeep.
      apply (resultAll_update (DefiInteractionNote.nonce r) (DefiInteractionNote.nonce r)
               rollupId (rollupDb w)).
      now left.
Qed.

Lemma updateClaimsWithResults_replayed rollupId results :
  forall w : W,
  (forall r, r ∈ results ->
     resultAll (DefiInteractionNote.nonce r) rollupId (Tables.claims (rollupDb w))) ->
  exists w',
    updateClaimsWithResults rollupId results w = Returned tt w' /\ rollupDb w' = rollupDb w.
Proof.
  induction results as [|r rest IH]; intros w Hdone.
  - now exists w.
  - simpl. unfold bind at 1. unfold onDb at 1.
    set (w1 := mkWorldState _ _ _ _ _ _ _ _ _).
    assert (Hdb1 : rollupDb w1 = rollupDb w).
    { apply (updateClaimsWithResultRollupId_done (DefiInteractionNote.nonce r) rollupId
               (rollupDb w)).
      apply Hdone. now apply elem_of_cons; left. }
    destruct (IH w1) as (w' & Hrun & Hdb').
    { intros r' Hr. rewrite Hdb1. apply Hdone. now apply elem_of_cons; right. }
    exists w'. split; [exact Hrun|congruence].
Qed.

End ClaimsReplay.

Section RollupReplay.

Context {T D Profile : Type}.
Context {relDb : RollupDb.t D} {chain : Blockchain.t} {env : Env.t Profile}.

Abbreviation W := (WorldState T D Profile).

Lemma getAssetMetrics_assetIds rollup interactionResults (db : D) :
  map AssetMetricsDao.assetId (getAssetMetrics rollup interactionResults db)
  = List.filter (fun id => negb (id =? Z.shiftl 1 30)) (RollupProofData.assetIds rollup).
Proof. unfold getAssetMetrics. rewrite map_map. cbn [AssetMetricsDao.assetId]. apply map_id. Qed.

(** The relational store in which [confirmOrAddRollupToDb] ends, and whether
    it returns. *)
Lemma confirmOrAddRollupToDb_store rollup offchainTxData block (w : W) :
  let db := rollupDb w in
  let assetMetrics := getAssetMetrics rollup (Block.interactionResult block) db in
  let db' :=
    match RollupDb.getRollupProof db (RollupProofData.rollupHash rollup) true with
    | Some rollupProof =>
        (RollupDb.confirmMined (RollupProofData.rollupId rollup) (Block.gasUsed block)
           (Block.gasPrice block) (Block.created block) (Block.txHash block)
           (Block.interactionResult block) (map TxDao.id (RollupProofDao.txs rollupProof))
           assetMetrics db).2
    | None => RollupDb.addRollup (rebuiltRollupDao rollup offchainTxData block assetMetrics) db
    end in
  rollupDb (final (confirmOrAddRollupToDb rollup offchainTxData block w)) = db'
  /\ returns (confirmOrAddRollupToDb rollup offchainTxData block w)
     = match RollupDb.getRollup db' (RollupProofData.rollupId rollup) ≫= rollupDaoToBlockBuffer with
       | Some _ => true
       | None => false
       end.
Proof.
  intros db assetMetrics db'. unfold confirmOrAddRollupToDb.
  rewrite !bind_readDb. fold db. fold assetMetrics. subst db'.
  destruct (RollupDb.getRollupProof db (RollupProofData.rollupHash rollup) true)
    as [rollupProof|].
  - set (txIds := map TxDao.id (RollupProofDao.txs rollupProof)).
    set (r := RollupDb.confirmMined (RollupProofData.rollupId rollup) (Block.gasUsed block)
                (Block.gasPrice block) (Block.created block) (Block.txHash block)
                (Block.interactionResult block) txIds assetMetrics db).
    assert (E1 : exists w1,
      rollupDb_confirmMined (RollupProofData.rollupId rollup) (Block.gasUsed block)
        (Block.gasPrice block) (Block.created block) (Block.txHash block)
        (Block.interactionResult block) txIds assetMetrics w = Returned r.1 w1
      /\ rollupDb w1 = r.2).
    { eexists. split; reflexivity. }
    destruct E1 as (w1 & E1 & Hdb1).
    destruct (trackSettlementTimes_log block (RollupProofDao.txs rollupProof)
                (RollupProofData.innerProofData rollup) w1) as (w2 & E2 & _ & _ & Hdb2).
    destruct (onMetrics_eq (RollupReceived r.1) w2) as (w3 & E3 & _ & _ & Hrest).
    assert (Hdb3 : rollupDb w3 = r.2).
    { unfold onMetrics in E3. injection E3 as <-. cbn [rollupDb]. now rewrite Hdb2. }
    erewrite (bind_Returned _ _ w tt w3).
    2:{ rewrite (bind_Returned _ _ _ _ _ E1), (bind_Returned _ _ _ _ _ E2). exact E3. }
    rewrite bind_readDb, Hdb3.
    destruct (RollupDb.getRollup r.2 (RollupProofData.rollupId rollup) ≫= rollupDaoToBlockBuffer);
      split; (exact Hdb3 || reflexivity).
  - set (rollupDao := rebuiltRollupDao rollup offchainTxData block assetMetrics).
    assert (E : exists w2,
      (onDb (RollupDb.addRollup rollupDao) [DbAddRollup rollupDao] >>;
       onMetrics (RollupReceived (Some rollupDao))) w = Returned tt w2
      /\ rollupDb w2 = RollupDb.addRollup rollupDao db).
    { eexists. split; reflexivity. }
    destruct E as (w2 & E & Hdb2).
    erewrite (bind_Returned _ _ w tt w2) by exact E.
    rewrite bind_readDb, Hdb2.
    destruct (RollupDb.getRollup (RollupDb.addRollup rollupDao db)
                (RollupProofData.rollupId rollup) ≫= rollupDaoToBlockBuffer);
      split; (exact Hdb2 || reflexivity).
Qed.

End RollupReplay.

Section TablesRollupReplay.

Lemma find_putRollupProof p proofs :
  List.find (fun q => Buffer_equals (RollupProofDao.id q) (RollupProofDao.id p))
    (Tables.putRollupProof p proofs) = Some p.
Proof.
  unfold Tables.putRollupProof. induction proofs as [|q proofs IH].
  - cbn. unfold Buffer_equals. now rewrite bool_decide_eq_true_2.
  - cbn [List.filter].
    destruct (Buffer_equals (RollupProofDao.id q) (RollupProofDao.id p)) eqn:E; [exact IH|].
    cbn [negb map app List.find Tables.withoutTxs RollupProofDao.id]. rewrite E. exact IH.
Qed.

Lemma minedProof_withoutTxs ids mined q :
  Tables.minedProof ids mined (Tables.withoutTxs ids q) = Tables.withoutTxs ids q.
Proof.
  apply minedProof_done. cbn [Tables.withoutTxs RollupProofDao.txs].
  apply Forall_forall. intros tx Hin Hid.
  apply list_elem_of_In, filter_In in Hin as [_ Hout].
  now rewrite (bool_decide_eq_true_2 _ Hid) in Hout.
Qed.

Lemma confirmMined_replayed id gasUsed gasPrice mined ethTxHash interactionResult
    assetMetrics1 assetMetrics2 hash rollupProof db :
  Tables.getRollupProof db hash true = Some rollupProof ->
  map AssetMetricsDao.assetId assetMetrics2 = map AssetMetricsDao.assetId assetMetrics1 ->
  let txIds := map TxDao.id (RollupProofDao.txs rollupProof) in
  let db1 :=
    (Tables.confirmMined id gasUsed gasPrice mined ethTxHash interactionResult txIds
       assetMetrics1 db).2 in
  exists stored,
    Tables.getRollupProof db1 hash true = Some stored
    /\ map TxDao.id (RollupProofDao.txs stored) = txIds
    /\ (Tables.confirmMined id gasUsed gasPrice mined ethTxHash interactionResult txIds
          assetMetrics2 db1).2 = db1.
Proof.
  intros Hfound Hassets txIds db1. exists (Tables.minedProof txIds mined rollupProof).
  split; [|split].
  - unfold Tables.getRollupProof in Hfound |- *. subst db1.
    cbn [Tables.confirmMined snd Tables.rollupProofs]. now rewrite find_minedProof, Hfound.
  - apply minedProof_txIds.
  - subst db1. unfold Tables.confirmMined.
    cbn [snd Tables.rollupProofs Tables.rollups Tables.claims Tables.accounts Tables.pendingTxs].
    f_equal.
    + rewrite map_map. apply map_ext. intros p. apply minedProof_idem.
    + rewrite alter_alter_eq. apply alter_ext. intros dao _. unfold compose.
      unfold Tables.minedRollup.
      cbn [RollupDao.id RollupDao.dataRoot RollupDao.rollupProof RollupDao.created
           RollupDao.assetMetrics].
      rewrite minedProof_idem. f_equal.
      apply insertMetrics_present. intros m Hm.
      assert (Hid : In (AssetMetricsDao.assetId m)
                      (map AssetMetricsDao.assetId assetMetrics1)).
      { rewrite <- Hassets. now apply in_map. }
      apply in_map_iff in Hid as (m1 & Hsame & Hin1).
      rewrite <- Hsame. now apply insertMetrics_covers.
Qed.

Context {Profile : Type} {env : Env.t Profile}.

Lemma addRollup_replayed rollup offchainTxData block assetMetrics1 assetMetrics2 db :
  map AssetMetricsDao.assetId assetMetrics2 = map AssetMetricsDao.assetId assetMetrics1 ->
  let dao := rebuiltRollupDao rollup offchainTxData block assetMetrics1 in
  let db1 := Tables.addRollup dao db in
  Tables.getRollupProof db1 (RollupProofData.rollupHash rollup) true
  = Some (RollupDao.rollupProof dao)
  /\ (Tables.confirmMined (RollupProofData.rollupId rollup) (Block.gasUsed block)
        (Block.gasPrice block) (Block.created block) (Block.txHash block)
        (Block.interactionResult block)
        (map TxDao.id (RollupProofDao.txs (RollupDao.rollupProof dao))) assetMetrics2 db1).2
     = db1.
Proof.
  intros Hassets dao db1.
  set (proof := RollupDao.rollupProof dao).
  set (txIds := map TxDao.id (RollupProofDao.txs proof)).
  assert (Hmined : Tables.minedProof txIds (Block.created block) proof = proof).
  { apply minedProof_done. apply Forall_forall. intros tx Hin _.
    subst proof dao. cbn [rebuiltRollupDao RollupDao.rollupProof RollupProofDao.txs] in Hin.
    unfold rebuiltTxs in Hin. apply elem_of_lookup_imap_1 in Hin as (k & p & -> & _).
    reflexivity. }
  split.
  - subst db1. unfold Tables.getRollupProof, Tables.addRollup. cbn [Tables.rollupProofs].
    exact (find_putRollupProof proof (Tables.rollupProofs db)).
  - subst db1. unfold Tables.confirmMined, Tables.addRollup.
    cbn [snd Tables.rollupProofs Tables.rollups Tables.claims Tables.accounts Tables.pendingTxs].
    f_equal.
    + fold proof. unfold Tables.putRollupProof. fold txIds.
      rewrite map_app, map_map. cbn [map]. rewrite Hmined. f_equal.
      apply map_ext. intros q. apply minedProof_withoutTxs.
    + change (RollupDao.id dao) with (RollupProofData.rollupId rollup).
      rewrite alter_insert_eq. f_equal.
      unfold Tables.minedRollup. fold proof. fold txIds. rewrite Hmined.
      subst proof dao.
      cbn [rebuiltRollupDao RollupDao.id RollupDao.dataRoot RollupDao.rollupProof
           RollupDao.created RollupDao.assetMetrics].
      rewrite (insertMetrics_present assetMetrics2 assetMetrics1)
        by (apply same_assets_present; exact Hassets).
      reflexivity.
Qed.

Context {T : Type} {chain : Blockchain.t}.

#[local] Existing Instance tables.

Abbreviation W := (WorldState T Tables.t Profile).

Lemma confirmOrAddRollupToDb_claims rollup offchainTxData block (w : W) :
  Tables.claims (rollupDb (final (confirmOrAddRollupToDb rollup offchainTxData block w)))
  = Tables.claims (rollupDb w).
Proof.
  destruct (confirmOrAddRollupToDb_store rollup offchainTxData block w) as [-> _].
  now destruct (RollupDb.getRollupProof (rollupDb w) (RollupProofData.rollupHash rollup) true).
Qed.

(** [confirmOrAddRollupToDb] on the relational store that an earlier run of
    it on the same block has left changes nothing in it, and returns as that
    run returned. *)
Lemma confirmOrAddRollupToDb_replayed rollup offchainTxData block (w w1 w1' : W) :
  confirmOrAddRollupToDb rollup offchainTxData block w = Returned tt w1 ->
  rollupDb w1' = rollupDb w1 ->
  exists w2,
    confirmOrAddRollupToDb rollup offchainTxData block w1' = Returned tt w2
    /\ rollupDb w2 = rollupDb w1.
Proof.
  intros Hrun Hsame.
  destruct (confirmOrAddRollupToDb_store rollup offchainTxData block w) as [Hdb Hret].
  rewrite Hrun in Hdb, Hret. cbn [final returns] in Hdb, Hret.
  destruct (confirmOrAddRollupToDb_store rollup offchainTxData block w1') as [Hdb' Hret'].
  cbv zeta in Hdb, Hret, Hdb', Hret'. rewrite Hsame in Hdb', Hret'.
  pose proof (eq_trans
                (getAssetMetrics_assetIds rollup (Block.interactionResult block) (rollupDb w1))
                (eq_sym (getAssetMetrics_assetIds rollup (Block.interactionResult block)
                           (rollupDb w)))) as Hassets.
  assert (Hnoop :
    match RollupDb.getRollupProof (rollupDb w1) (RollupProofData.rollupHash rollup) true with
    | Some rollupProof =>
        (RollupDb.confirmMined (RollupProofData.rollupId rollup) (Block.gasUsed block)
           (Block.gasPrice block) (Block.created block) (Block.txHash block)
           (Block.interactionResult block) (map TxDao.id (RollupProofDao.txs rollupProof))
           (getAssetMetrics rollup (Block.interactionResult block) (rollupDb w1))
           (rollupDb w1)).2
    | None =>
        RollupDb.addRollup
          (rebuiltRollupDao rollup offchainTxData block
             (getAssetMetrics rollup (Block.interactionResult block) (rollupDb w1)))
          (rollupDb w1)
    end = rollupDb w1).
  { destruct (Tables.getRollupProof (rollupDb w) (RollupProofData.rollupHash rollup) true)
      as [rollupProof|] eqn:Hfound.
    - destruct (confirmMined_replayed (RollupProofData.rollupId rollup) (Block.gasUsed block)
                  (Block.gasPrice block) (Block.created block) (Block.txHash block)
                  (Block.interactionResult block)
                  (getAssetMetrics rollup (Block.interactionResult block) (rollupDb w))
                  (getAssetMetrics rollup (Block.interactionResult block) (rollupDb w1))
                  (RollupProofData.rollupHash rollup) rollupProof (rollupDb w) Hfound Hassets)
        as (stored & Hstored & Hids & Hsame1).
      cbv zeta in Hstored, Hsame1.
      change (RollupDb.getRollupProof (rollupDb w) (RollupProofData.rollupHash rollup) true)
        with (Tables.getRollupProof (rollupDb w) (RollupProofData.rollupHash rollup) true)
        in Hdb.
      rewrite Hfound in Hdb.
      change (RollupDb.confirmMined (t := tables)) with Tables.confirmMined in Hdb.
      rewrite <- Hdb in Hstored, Hsame1.
      change (RollupDb.getRollupProof (rollupDb w1) (RollupProofData.rollupHash rollup) true)
        with (Tables.getRollupProof (rollupDb w1) (RollupProofData.rollupHash rollup) true).
      rewrite Hstored, Hids. exact Hsame1.
    - destruct (addRollup_replayed rollup offchainTxData block
                  (getAssetMetrics rollup (Block.interactionResult block) (rollupDb w))
                  (getAssetMetrics rollup (Block.interactionResult block) (rollupDb w1))
                  (rollupDb w) Hassets) as [Hstored Hsame1].
      cbv zeta in Hstored, Hsame1.
      change (RollupDb.getRollupProof (rollupDb w) (RollupProofData.rollupHash rollup) true)
        with (Tables.getRollupProof (rollupDb w) (RollupProofData.rollupHash rollup) true)
        in Hdb.
      rewrite Hfound in Hdb.
      change (RollupDb.addRollup (t := tables)) with Tables.addRollup in Hdb.
      rewrite <- Hdb in Hstored, Hsame1.
      change (RollupDb.getRollupProof (rollupDb w1) (RollupProofData.rollupHash rollup) true)
        with (Tables.getRollupProof (rollupDb w1) (RollupProofData.rollupHash rollup) true).
      rewrite Hstored. exact Hsame1. }
  rewrite Hnoop in Hdb', Hret'. rewrite <- Hdb in Hret. rewrite <- Hret in Hret'.
  destruct (confirmOrAddRollupToDb rollup offchainTxData block w1') as [[] w2|e w2];
    [|discriminate Hret'].
  exists w2. split; [reflexivity|exact Hdb'].
Qed.

End TablesRollupReplay.

(** ** [updateDbs] twice on the same block, on the layered tree store and
    the tables *)

Section Replay.

Context {Profile : Type}.
Context {chain : Blockchain.t} {noteAlgo : NoteAlgorithms.t} {env : Env.t Profile}.
Variable treeRoot : RollupTreeId -> gmap (Z * Z) Buffer -> Buffer.

#[local] Existing Instance tables.

Abbreviation W := (WorldState LayeredTrees.t Tables.t Profile).
Abbreviation layered := (layeredTrees treeRoot).

(** The part of [updateDbs] that reconciles the trees returns, and leaves
    the relational store alone. *)
Lemma reconcileTrees_store rollup (w : W) :
  exists wt,
    (let! ours := readTrees (rootsMatch (treeDb := layered) rollup) in
     if ours then worldStateDb_commit (treeDb := layered)
     else worldStateDb_rollback (treeDb := layered) >>;
          addRollupToWorldState (treeDb := layered) rollup) w = Returned tt wt
    /\ rollupDb wt = rollupDb w.
Proof.
  assert (Htrees : onlyTrees
            (let! ours := readTrees (rootsMatch (treeDb := layered) rollup) in
             if ours then worldStateDb_commit (treeDb := layered)
             else worldStateDb_rollback (treeDb := layered) >>;
                  addRollupToWorldState (treeDb := layered) rollup : M W unit)).
  { apply onlyTrees_bind; [apply onlyTrees_readTrees|]. intros [|]; [apply onlyTrees_onTrees|].
    apply onlyTrees_bind; [apply onlyTrees_onTrees|intros _].
    apply onlyTrees_addRollupToWorldState. }
  destruct (Htrees w) as ([] & t & calls & Et). eexists. split; [exact Et|reflexivity].
Qed.


End Replay.

(** * The further properties on concrete rollups *)

Section FurtherExamples.

Ltac feed H tac :=
  match type of H with
  | ?A -> _ => let Ha := fresh in assert (Ha : A) by tac; specialize (H Ha); clear Ha
  end.

#[local] Existing Instance tables.
#[local] Existing Instance Stub.trees.
#[local] Existing Instance Stub.blockchain.
#[local] Existing Instance Stub.noteAlgorithms.

(** [addRollupToWorldState_data_range] on the deposit rollup: eight inner
    proofs from leaf 100 on fill the leaves 100 to 115. *)
Lemma addRollupToWorldState_data_range_witness :
  LayeredTrees.getSize (worldStateDb Stub.world) DATA
  <= RollupProofData.dataStartIndex Stub.depositRollup
  /\ exists w' calls,
       addRollupToWorldState (env := Stub.env None) Stub.depositRollup Stub.world
       = Returned tt w'
       /\ treeLog w' = treeLog Stub.world ++ calls
       /\ map fst (putsInto DATA calls) = seqZ 100 16.
Proof.
  assert (Hsize : LayeredTrees.getSize (worldStateDb Stub.world) DATA
                  <= RollupProofData.dataStartIndex Stub.depositRollup)
    by (vm_compute; discriminate).
  split; [exact Hsize|].
  exact (addRollupToWorldState_data_range (treeDb := Stub.trees) (env := Stub.env None) Stub.depositRollup
           Stub.world Hsize).
Defined.

(** [addRollupToWorldState_root_entry] on the deposit rollup, of id 2. *)
Lemma addRollupToWorldState_root_entry_witness :
  LayeredTrees.getSize (worldStateDb Stub.world) DATA
  <= RollupProofData.dataStartIndex Stub.depositRollup
  /\ exists w' calls root,
       addRollupToWorldState (env := Stub.env None) Stub.depositRollup Stub.world
       = Returned tt w'
       /\ treeLog w' = treeLog Stub.world ++ calls
       /\ putsInto ROOT calls = [(3, root)].
Proof.
  assert (Hsize : LayeredTrees.getSize (worldStateDb Stub.world) DATA
                  <= RollupProofData.dataStartIndex Stub.depositRollup)
    by (vm_compute; discriminate).
  split; [exact Hsize|].
  destruct (addRollupToWorldState_root_entry (treeDb := Stub.trees) (env := Stub.env None) Stub.depositRollup
              Stub.world Hsize) as (w' & calls & Hrun & Hlog & Hroot).
  exists w', calls. eexists. exact (conj Hrun (conj Hlog Hroot)).
Defined.

(** [addRollupToWorldState_nullifier_writes] on the deposit rollup. *)
Lemma addRollupToWorldState_nullifier_writes_witness :
  LayeredTrees.getSize (worldStateDb Stub.world) DATA
  <= RollupProofData.dataStartIndex Stub.depositRollup
  /\ exists w' calls,
       addRollupToWorldState (env := Stub.env None) Stub.depositRollup Stub.world
       = Returned tt w'
       /\ treeLog w' = treeLog Stub.world ++ calls
       /\ forall index value,
            (index, value) ∈ putsInto NULL calls -> 0 < index /\ value = toBufferBE 1 32.
Proof.
  assert (Hsize : LayeredTrees.getSize (worldStateDb Stub.world) DATA
                  <= RollupProofData.dataStartIndex Stub.depositRollup)
    by (vm_compute; discriminate).
  split; [exact Hsize|].
  destruct (addRollupToWorldState_nullifier_writes (treeDb := Stub.trees) (env := Stub.env None) Stub.depositRollup
              Stub.world Hsize) as (w' & calls & Hrun & Hlog & Hnull).
  exists w', calls. split; [exact Hrun|]. split; [exact Hlog|].
  intros index value Hin.
  destruct (Hnull index value Hin) as (tx & n & _ & _ & _ & _ & _ & Hpos & Hval & _).
  exact (conj Hpos Hval).
Defined.

(** [updateDbs_rolls_back_only] on the second arrival of the block of the
    padding rollup: its two leaves are in the DATA tree, which it expects
    empty. *)
Lemma updateDbs_rolls_back_only_witness :
  let run := updateDbs (env := Stub.env (Some Stub.paddingRollup)) Stub.paddingBlock in
  let w1 := final (run Stub.world) in
  Env.RollupProofData_fromBuffer (t := Stub.env (Some Stub.paddingRollup))
    (Block.rollupProofData Stub.paddingBlock) = Some Stub.paddingRollup
  /\ rootsMatch Stub.paddingRollup (worldStateDb w1) = false
  /\ RollupProofData.dataStartIndex Stub.paddingRollup
     < WorldStateDb.getSize (WorldStateDb.rollback (worldStateDb w1)) DATA
  /\ treeLog (final (run w1)) = treeLog w1 ++ [TreeRollback].
Proof.
  intros run w1.
  assert (Hroots : rootsMatch Stub.paddingRollup (worldStateDb w1) = false)
    by (vm_compute; reflexivity).
  assert (Hsize : RollupProofData.dataStartIndex Stub.paddingRollup
                  < WorldStateDb.getSize (WorldStateDb.rollback (worldStateDb w1)) DATA)
    by (vm_compute; reflexivity).
  exact (conj eq_refl (conj Hroots (conj Hsize
           (proj1 (updateDbs_rolls_back_only (env := Stub.env (Some Stub.paddingRollup))
                     Stub.paddingBlock Stub.paddingRollup w1 eq_refl Hroots Hsize))))).
Defined.

(** [processDefiProofs_throws_at_unreadable] on a rollup of two
    DEFI_DEPOSITs in a block that has the off-chain data of the first only:
    the claim of the first is added before the second throws. *)
Lemma processDefiProofs_throws_at_unreadable_witness :
  let first := Stub.innerProof DEFI_DEPOSIT x07 in
  let second := Stub.innerProof DEFI_DEPOSIT x08 in
  let offchainTxData := [[x12; x0a]] in
  RollupProofData.innerProofData Scenario.twoDepositsRollup = [first] ++ second :: []
  /\ InnerProofData.proofId second = DEFI_DEPOSIT
  /\ defiBlobsReadable (env := Stub.env None) offchainTxData [first] 0 = true
  /\ readOffchainDefiDepositData (env := Stub.env None) offchainTxData
       (length (nonPadding [first])) = None
  /\ exists w',
       processDefiProofs (env := Stub.env None) Scenario.twoDepositsRollup offchainTxData
         Stub.depositBlock Stub.world
       = Thrown "OffchainDefiDepositData.fromBuffer" w'
       /\ length (addedClaims (dbLog w')) = 1%nat.
Proof.
  intros first second offchainTxData.
  destruct (processDefiProofs_throws_at_unreadable (env := Stub.env None)
              Scenario.twoDepositsRollup offchainTxData Stub.depositBlock Stub.world [first]
              second [] eq_refl eq_refl eq_refl eq_refl) as (w' & Hbefore & Hthrow).
  assert (Hclaims : forall w0,
            processInnerProofs (env := Stub.env None) Scenario.twoDepositsRollup offchainTxData
              Stub.depositBlock [first] 0 0 Stub.world = Returned tt w0 ->
            length (addedClaims (dbLog w0)) = 1%nat).
  { intros w0 Hrun. vm_compute in Hrun. injection Hrun as <-. reflexivity. }
  split; [reflexivity|]. split; [reflexivity|]. split; [reflexivity|]. split; [reflexivity|].
  exists w'. exact (conj Hthrow (Hclaims w' Hbefore)).
Defined.

(** [processDefiProofs_calls] on the deposit scenario: one claim is added. *)
Lemma processDefiProofs_calls_witness :
  defiBlobsReadable (env := Stub.env None) (Block.offchainTxData Stub.depositBlock)
    (RollupProofData.innerProofData Stub.depositRollup) 0 = true
  /\ exists w' calls,
       processDefiProofs (env := Stub.env None) Stub.depositRollup
         (Block.offchainTxData Stub.depositBlock) Stub.depositBlock Stub.world
       = Returned tt w'
       /\ dbLog w' = dbLog Stub.world ++ calls ++ []
       /\ confirmedClaims calls = []
       /\ length (addedClaims calls) = 1%nat
       /\ resultUpdates calls = [].
Proof.
  split; [reflexivity|].
  exact (processDefiProofs_calls (env := Stub.env None) Stub.depositRollup
           (Block.offchainTxData Stub.depositBlock) Stub.depositBlock Stub.world eq_refl).
Defined.

(** [updateDbs_block_cache] on the block of the deposit rollup: the cache,
    empty before, holds one buffer. *)
Lemma updateDbs_block_cache_witness :
  let run := updateDbs (env := Stub.env (Some Stub.depositRollup)) Stub.depositBlock in
  exists buf,
    blockBufferCache (final (run Stub.world)) = [buf]
    /\ getBlockBuffers (final (run Stub.world)) 0 = [buf].
Proof.
  intros run.
  pose proof (updateDbs_block_cache (env := Stub.env (Some Stub.depositRollup))
                Stub.depositBlock Stub.world) as Hcache.
  fold run in Hcache.
  assert (Hrun : run Stub.world = Returned tt (final (run Stub.world)))
    by (vm_compute; reflexivity).
  rewrite Hrun in Hcache. cbv beta iota in Hcache.
  destruct Hcache as (rollup & dao & buf & _ & _ & _ & Hgrows & Hfrom).
  exists buf. exact (conj Hgrows (Hfrom 0%nat (Nat.le_0_l _))).
Defined.

(** [syncStateFromBlockchain_stops_at_first_failure] on a chain of three
    blocks for the deposit rollup, of which the second has no off-chain
    data. *)
Lemma syncStateFromBlockchain_stops_at_first_failure_witness :
  let blocks := [Stub.depositBlock; Stub.emptyBlock; Stub.depositBlock] in
  let env := Stub.env (Some Stub.depositRollup) in
  let w1 := final (updateDbsEach (env := env) [Stub.depositBlock] Stub.world) in
  let w2 := final (updateDbs (env := env) Stub.emptyBlock w1) in
  updateDbsEach (env := env) [Stub.depositBlock] Stub.world = Returned tt w1
  /\ updateDbs (env := env) Stub.emptyBlock w1 = Thrown "OffchainDefiDepositData.fromBuffer" w2
  /\ syncStateFromBlockchain (chain := Scenario.blockchain blocks) (env := env) 0 Stub.world
     = Thrown "OffchainDefiDepositData.fromBuffer" w2.
Proof.
  intros blocks env w1 w2.
  assert (Hbefore : updateDbsEach (env := env) [Stub.depositBlock] Stub.world = Returned tt w1)
    by (vm_compute; reflexivity).
  assert (Hblock : updateDbs (env := env) Stub.emptyBlock w1
                   = Thrown "OffchainDefiDepositData.fromBuffer" w2)
    by (vm_compute; reflexivity).
  exact (conj Hbefore (conj Hblock
           (syncStateFromBlockchain_stops_at_first_failure
              (chain := Scenario.blockchain blocks) (env := env) 0 [Stub.depositBlock]
              Stub.emptyBlock [Stub.depositBlock] Stub.world w1 w2 _ eq_refl Hbefore Hblock))).
Defined.

(** [syncState_resumed] once the relational store holds rollup 2, on a chain
    that holds its block and with an account data file at hand. *)
Lemma syncState_resumed_witness :
  let env := Stub.env (Some Stub.paddingRollup) in
  let chain := Scenario.blockchain [Stub.paddingBlock] in
  let w1 := final (updateDbs (env := env) Stub.paddingBlock Stub.world) in
  let sync := syncState (chain := chain) (initHelpers := Scenario.initFiles) (env := env) in
  RollupDb.getNextRollupId (rollupDb w1) <> 0
  /\ returns (sync w1) = returns (updateDbsEach (env := env) [Stub.paddingBlock] w1)
  /\ returns (sync w1) = true
  /\ exists treeCalls dbCalls,
       treeLog (final (sync w1)) = treeLog w1 ++ treeCalls
       /\ Forall (fun call => isTreeWrite call = true) treeCalls
       /\ Forall (fun call => isBlockDbCall call = true) dbCalls
       /\ dbLog (final (sync w1))
          = dbLog w1 ++ dbCalls
            ++ (if returns (sync w1)
                then [DbDeleteUnsettledRollups; DbDeleteOrphanedRollupProofs] else []).
Proof.
  intros env chain w1 sync.
  assert (Hnext : RollupDb.getNextRollupId (rollupDb w1) <> 0).
  { intros Hzero. vm_compute in Hzero. discriminate Hzero. }
  assert (Hreturns : returns (sync w1) = true) by (vm_compute; reflexivity).
  destruct (syncState_resumed (chain := chain) (initHelpers := Scenario.initFiles) (env := env)
              w1 Hnext) as [Hsame Hcalls].
  exact (conj Hnext (conj Hsame (conj Hreturns Hcalls))).
Defined.

(** [start_loads_cache_and_pipeline] on a chain that holds the block of the
    deposit rollup: the block cache ends with one buffer. *)
Lemma start_loads_cache_and_pipeline_witness :
  let env := Stub.env (Some Stub.depositRollup) in
  let chain := Scenario.blockchain [Stub.depositBlock] in
  let w' :=
    final (start (chain := chain) (initHelpers := Scenario.noInitFiles) (env := env)
             Stub.world) in
  start (chain := chain) (initHelpers := Scenario.noInitFiles) (env := env) Stub.world
  = Returned tt w'
  /\ blockBufferCache w' = [[xbb]]
  /\ exists w1,
       syncState (chain := chain) (initHelpers := Scenario.noInitFiles) (env := env)
         (final (onTrees WorldStateDb.start [] Stub.world)) = Returned tt w1
       /\ mapM (rollupDaoToBlockBuffer (env := env)) (RollupDb.getSettledRollups (rollupDb w1) 0)
          = Some (blockBufferCache w')
       /\ pipeline w' = Some (RollupPipeline.mk Stub.noTimeouts tt)
       /\ getTxPoolProfile w' = Returned tt w'.
Proof.
  intros env chain w'.
  assert (Hrun : start (chain := chain) (initHelpers := Scenario.noInitFiles) (env := env)
                   Stub.world = Returned tt w') by (vm_compute; reflexivity).
  assert (Hcache : blockBufferCache w' = [[xbb]]) by (vm_compute; reflexivity).
  pose proof (start_loads_cache_and_pipeline (chain := chain)
                (initHelpers := Scenario.noInitFiles) (env := env) Stub.world) as Hstart.
  cbv zeta in Hstart. rewrite Hrun in Hstart.
  destruct Hstart as (w1 & Hsync & Hbufs & _ & _ & Hpipeline & Hprofile & _).
  split; [exact Hrun|]. split; [exact Hcache|].
  exists w1. exact (conj Hsync (conj Hbufs (conj Hpipeline Hprofile))).
Defined.

(** [updateDbs_db_calls_in_order] on the block of the deposit rollup. *)
Lemma updateDbs_db_calls_in_order_witness :
  let env := Stub.env (Some Stub.depositRollup) in
  let w' := final (updateDbs (env := env) Stub.depositBlock Stub.world) in
  updateDbs (env := env) Stub.depositBlock Stub.world = Returned tt w'
  /\ exists claimCalls settle,
       dbLog w' = dbLog Stub.world ++ claimCalls ++ [] ++ [settle]
       /\ length (addedClaims claimCalls) = 1%nat.
Proof.
  intros env w'.
  assert (Hrun : updateDbs (env := env) Stub.depositBlock Stub.world = Returned tt w')
    by (vm_compute; reflexivity).
  split; [exact Hrun|].
  destruct (updateDbs_db_calls_in_order (env := env) Stub.depositBlock Stub.depositRollup
              Stub.world w' eq_refl Hrun) as (claimCalls & settle & Hlog & _ & _ & Hadded & _).
  exists claimCalls, settle. exact (conj Hlog Hadded).
Defined.

(** [rebuiltRollupDao_block_buffer] on the deposit scenario, with a second
    blob that no inner proof accounts for. *)
Lemma rebuiltRollupDao_block_buffer_witness :
  let offchainTxData := [[x12; x0a]; [x99]] in
  (length (nonPadding (RollupProofData.innerProofData Stub.depositRollup))
   <= length offchainTxData)%nat
  /\ 0 <= Block.gasPrice Stub.depositBlock < 2 ^ 256
  /\ rollupDaoToBlockBuffer (env := Stub.env None)
       (rebuiltRollupDao (env := Stub.env None) Stub.depositRollup offchainTxData
          Stub.depositBlock [])
     = Stub.blockToBuffer
         {| BlockArguments.txHash := Some [xee];
            BlockArguments.created := 5000;
            BlockArguments.rollupId := 2;
            BlockArguments.rollupSize := 8;
            BlockArguments.rollupProofData := Some [xbb];
            BlockArguments.offchainTxData := [Some [x12; x0a]];
            BlockArguments.interactionResult := [];
            BlockArguments.gasUsed := Some 1000000;
            BlockArguments.gasPrice := 30 |}.
Proof.
  intros offchainTxData.
  assert (Hblobs : (length (nonPadding (RollupProofData.innerProofData Stub.depositRollup))
                    <= length offchainTxData)%nat) by (vm_compute; lia).
  assert (Hprice : 0 <= Block.gasPrice Stub.depositBlock < 2 ^ 256)
    by (split; [vm_compute; discriminate|vm_compute; reflexivity]).
  exact (conj Hblobs (conj Hprice
           (rebuiltRollupDao_block_buffer (env := Stub.env None) Stub.depositRollup
              offchainTxData Stub.depositBlock [] Hblobs Hprice))).
Defined.

(** [innerProofDataToTxDao_nullifiers] on a padding inner proof, whose
    nullifiers are 32 zero bytes, and on the deposit rollup, whose one inner
    proof that is not padding has two nullifiers. *)
Lemma innerProofDataToTxDao_nullifiers_witness :
  Forall (fun b => b = x00) (InnerProofData.nullifier1 Stub.padding)
  /\ TxDao.nullifier1 (innerProofDataToTxDao Stub.padding None 5000 TX_TRANSFER) = None
  /\ LayeredTrees.getSize (worldStateDb Stub.world) DATA
     <= RollupProofData.dataStartIndex Stub.depositRollup
  /\ exists w' calls,
       addRollupToWorldState (env := Stub.env None) Stub.depositRollup Stub.world
       = Returned tt w'
       /\ treeLog w' = treeLog Stub.world ++ calls
       /\ putsInto NULL calls
          = [(toBigIntBE [x07; x03], toBufferBE 1 32); (toBigIntBE [x07; x04], toBufferBE 1 32)].
Proof.
  assert (Hzero : Forall (fun b => b = x00) (InnerProofData.nullifier1 Stub.padding))
    by (repeat constructor).
  assert (Hsize : LayeredTrees.getSize (worldStateDb Stub.world) DATA
                  <= RollupProofData.dataStartIndex Stub.depositRollup)
    by (vm_compute; discriminate).
  destruct (innerProofDataToTxDao_nullifiers (treeDb := Stub.trees) (env := Stub.env None)
              Stub.depositRollup [[x12; x0a]] 5000 Stub.world) as [Hkept Hleaves].
  destruct (Hkept Stub.padding None TX_TRANSFER) as (Hnone & _).
  exact (conj Hzero (conj (proj2 Hnone Hzero) (conj Hsize (Hleaves Hsize)))).
Defined.

(** [defiClaimedFor_order] on two interaction results: of asset 0, the one
    pays 5 and the other 3. *)
Lemma defiClaimedFor_order_witness :
  let results1 := [Stub.interactionResult; Scenario.otherResult] in
  let results2 := [Scenario.otherResult; Stub.interactionResult] in
  results1 ≡ₚ results2
  /\ defiClaimedFor 0 results1 = defiClaimedFor 0 results2
  /\ defiClaimedFor 0 (results1 ++ [Stub.interactionResult])
     = defiClaimedFor 0 results1 + defiClaimedFor 0 [Stub.interactionResult].
Proof.
  intros results1 results2.
  assert (Hperm : results1 ≡ₚ results2) by apply perm_swap.
  exact (conj Hperm
           (conj (proj1 (defiClaimedFor_order 0 results1 results2) Hperm)
              (proj2 (defiClaimedFor_order 0 results1 [Stub.interactionResult])))).
Defined.

(** [syncStateFromInitFiles_populates_then_compares] with a data root as
    expected and a roots root that is not. *)
Lemma syncStateFromInitFiles_populates_then_compares_witness :
  let sync :=
    syncStateFromInitFiles
      (initHelpers := Stub.initHelpers (Some "accounts"%string) [Stub.account] Stub.initRoots
                        [xd1] [x00] [xd2]) in
  treeLog (final (sync Stub.world))
  = treeLog Stub.world
    ++ [TreePopulateDataAndRoots [Stub.account]; TreePopulateNullifier [Stub.account]]
  /\ exists w2, sync Stub.world = Thrown "New roots root different to init file" w2.
Proof.
  intros sync.
  pose proof (syncStateFromInitFiles_populates_then_compares
                (initHelpers := Stub.initHelpers (Some "accounts"%string) [Stub.account]
                                  Stub.initRoots [xd1] [x00] [xd2])
                Stub.world) as Hcases.
  cbv zeta in Hcases.
  feed Hcases ltac:(vm_compute; reflexivity). do 4 feed Hcases ltac:(discriminate).
  destruct Hcases as (Hlog & _ & _ & Hroots & _).
  split; [exact Hlog|]. apply Hroots; [reflexivity|discriminate].
Defined.


End FurtherExamples.
